(** * BBR congestion control and the scalar Kalman filter of msquic_cellular

    A shallow embedding of [src/core/bbr.c] and [src/core/kalman_filter.c].

    Conventions.
    - A C unsigned integer of width [w] is a [Z] ; every operation whose C
      result is reduced modulo [2^w] is wrapped in [u8], [u16], [u32] or
      [u64] at the place where C performs the reduction (after the usual
      arithmetic conversions, so a product of a 64-bit and a 32-bit operand is
      reduced modulo [2^64]).
    - [BOOLEAN] is [bool]; the NULL-terminated list [AckEvent->AckedPackets]
      is a [list].
    - A function that mutates [Cc->Bbr] takes the old state and returns the
      new one.  What the C code reads from the enclosing connection is the
      record [QUIC_CONNECTION]; values obtained from the platform during a
      call (the clock, the random number generator) are extra arguments.
    - Tracing and the text logs ([QuicTraceEvent], [fprintf], the periodic
      log and its [LastLogged*] counters, the out-flow bookkeeping of the
      connection) do not feed back into the controller and are left out. *)

From Stdlib Require Import ZArith Bool List Lia Floats.
Import ListNotations.
Local Open Scope Z_scope.

Set Implicit Arguments.

(** ** Fixed-width unsigned arithmetic *)

Definition u8 (x : Z) : Z := x mod 2 ^ 8.
Definition u16 (x : Z) : Z := x mod 2 ^ 16.
Definition u32 (x : Z) : Z := x mod 2 ^ 32.
Definition u64 (x : Z) : Z := x mod 2 ^ 64.

Definition UINT16_MAX : Z := 2 ^ 16 - 1.
Definition UINT32_MAX : Z := 2 ^ 32 - 1.
Definition UINT64_MAX : Z := 2 ^ 64 - 1.

Definition is_u8 (x : Z) : Prop := 0 <= x <= 2 ^ 8 - 1.
Definition is_u16 (x : Z) : Prop := 0 <= x <= UINT16_MAX.
Definition is_u32 (x : Z) : Prop := 0 <= x <= UINT32_MAX.
Definition is_u64 (x : Z) : Prop := 0 <= x <= UINT64_MAX.

(** [#define CXPLAT_MAX(a,b) (((a) > (b)) ? (a) : (b))] and its dual. *)
Definition CXPLAT_MAX (a b : Z) : Z := if a >? b then a else b.
Definition CXPLAT_MIN (a b : Z) : Z := if a <? b then a else b.

(** Modelled from the spec: [CxPlatTimeDiff64] and [CxPlatTimeAtOrBefore64]
    are platform macros declared outside the sources at hand.  The spec
    treats event times as monotonic microsecond counters, an elapsed time as
    the difference "later minus earlier" of two of them (section 4.2) and
    "at or before" as [<=] (section 4.1, step 2).  The difference is the
    64-bit one, [T2 - T1]. *)
Definition CxPlatTimeDiff64 (T1 T2 : Z) : Z := u64 (T2 - T1).
Definition CxPlatTimeAtOrBefore64 (T1 T2 : Z) : bool := T1 <=? T2.

(** ** Constants of bbr.c *)

Definition BW_UNIT : Z := 8.
Definition GAIN_UNIT : Z := 256.
Definition GAIN_CYCLE_LENGTH : Z := 8.

Definition kQuantaFactor : Z := 3.
Definition kMinCwndInMss : Z := 4.
Definition kDefaultRecoveryCwndInMss : Z := 2000.
Definition kMicroSecsInSec : Z := 1000000.
Definition kMilliSecsInSec : Z := 1000.
Definition kLowPacingRateThresholdBytesPerSecond : Z := 1200 * 1000.
Definition kHighPacingRateThresholdBytesPerSecond : Z := 24 * 1000 * 1000.
Definition kHighGain : Z := GAIN_UNIT * 2885 / 1000 + 1.
Definition kDrainGain : Z := GAIN_UNIT * 1000 / 2885.
Definition kCwndGain : Z := GAIN_UNIT * 2.
Definition kStartupGrowthTarget : Z := GAIN_UNIT * 5 / 4.
Definition kStartupSlowGrowRoundLimit : Z := 3.

Definition kPacingGain_table : list Z :=
  [ GAIN_UNIT * 5 / 4; GAIN_UNIT * 3 / 4;
    GAIN_UNIT; GAIN_UNIT; GAIN_UNIT;
    GAIN_UNIT; GAIN_UNIT; GAIN_UNIT ].

(** [kPacingGain[i]]; every index the code uses is reduced modulo
    [GAIN_CYCLE_LENGTH] first. *)
Definition kPacingGain (i : Z) : Z := nth (Z.to_nat i) kPacingGain_table 0.

Definition kProbeRttTimeInUs : Z := 200 * 1000.

(** Modelled from the spec: [S_TO_US] is a platform macro; the spec gives
    [min_rtt_expiration = 10 s] with times in microseconds. *)
Definition kBbrMinRttExpirationInMicroSecs : Z := 10 * 1000000.

Definition kBbrMaxBandwidthFilterLen : Z := 10.
Definition kBbrMaxAckHeightFilterLen : Z := 10.

(** ** Enumerations *)

Inductive BBR_STATE : Type :=
| BBR_STATE_STARTUP
| BBR_STATE_DRAIN
| BBR_STATE_PROBE_BW
| BBR_STATE_PROBE_RTT.

Inductive RECOVERY_STATE : Type :=
| RECOVERY_STATE_NOT_RECOVERY
| RECOVERY_STATE_CONSERVATIVE
| RECOVERY_STATE_GROWTH.

Definition BBR_STATE_eqb (a b : BBR_STATE) : bool :=
  match a, b with
  | BBR_STATE_STARTUP, BBR_STATE_STARTUP
  | BBR_STATE_DRAIN, BBR_STATE_DRAIN
  | BBR_STATE_PROBE_BW, BBR_STATE_PROBE_BW
  | BBR_STATE_PROBE_RTT, BBR_STATE_PROBE_RTT => true
  | _, _ => false
  end.

Definition RECOVERY_STATE_eqb (a b : RECOVERY_STATE) : bool :=
  match a, b with
  | RECOVERY_STATE_NOT_RECOVERY, RECOVERY_STATE_NOT_RECOVERY
  | RECOVERY_STATE_CONSERVATIVE, RECOVERY_STATE_CONSERVATIVE
  | RECOVERY_STATE_GROWTH, RECOVERY_STATE_GROWTH => true
  | _, _ => false
  end.

(** ** The sliding-window extremum interface

    [sliding_window_extremum.c] is not among the sources; bbr.c only uses
    its four entry points.  They are taken as an interface, and every
    statement about bbr.c below holds for each implementation of it. *)

Record QUIC_SLIDING_WINDOW_EXTREMUM_ENTRY : Type :=
  { Value : Z; Time : Z }.

Class SlidingWindowExtremum (W : Type) : Type :=
  { (** [QuicSlidingWindowExtremumInitialize(Lifetime, Capacity, Entries)] *)
    QuicSlidingWindowExtremumInitialize : Z -> Z -> W;
    QuicSlidingWindowExtremumReset : W -> W;
    (** [QUIC_SUCCEEDED(Status)] with the entry, or a failure status *)
    QuicSlidingWindowExtremumGet : W -> option QUIC_SLIDING_WINDOW_EXTREMUM_ENTRY;
    QuicSlidingWindowExtremumUpdateMax : W -> Z -> Z -> W }.

(** ** Inputs supplied by loss detection *)

Module LastAcked.
Record LAST_ACKED_PACKET_INFO : Type :=
  { SentTime : Z;
    AckTime : Z;
    AdjustedAckTime : Z;
    TotalBytesSent : Z;
    TotalBytesAcked : Z }.
End LastAcked.

Module Packet.
Record QUIC_SENT_PACKET_METADATA : Type :=
  { PacketNumber : Z;
    PacketLength : Z;
    SentTime : Z;
    TotalBytesSent : Z;
    HasLastAckedPacketInfo : bool;
    LastAckedPacketInfo : LastAcked.LAST_ACKED_PACKET_INFO;
    IsAppLimited : bool }.
End Packet.

Module Ack.
Record QUIC_ACK_EVENT : Type :=
  { TimeNow : Z;
    LargestAck : Z;
    LargestSentPacketNumber : Z;
    AdjustedAckTime : Z;
    NumRetransmittableBytes : Z;
    NumTotalAckedRetransmittableBytes : Z;
    MinRttValid : bool;
    MinRtt : Z;
    HasLoss : bool;
    IsImplicit : bool;
    IsLargestAckedPacketAppLimited : bool;
    AckedPackets : list Packet.QUIC_SENT_PACKET_METADATA }.
End Ack.

Module Loss.
Record QUIC_LOSS_EVENT : Type :=
  { LargestPacketNumberLost : Z;
    LargestSentPacketNumber : Z;
    NumRetransmittableBytes : Z;
    PersistentCongestion : bool }.
End Loss.

(** What bbr.c reads from the connection that owns the controller:
    [QuicPathGetDatagramPayloadSize(&Connection->Paths[0])] (a [uint16_t]),
    two settings and the largest packet number sent so far. *)
Record QUIC_CONNECTION : Type :=
  { DatagramPayloadSize : Z;
    PacingEnabled : bool;
    NetStatsEventEnabled : bool;
    LargestSentPacketNumber : Z }.

Record QUIC_SETTINGS_INTERNAL : Type :=
  { InitialWindowPackets : Z }.

(** ** Controller state *)

Section Bbr.

Context {W : Type} `{SlidingWindowExtremum W}.

(** Two macros of headers that are not among the sources: the capacity of the
    filters' backing arrays and the shortest RTT for which sends are paced. *)
Variable kBbrDefaultFilterCapacity : Z.
Variable QUIC_SEND_PACING_INTERVAL : Z.

Record BBR_BANDWIDTH_FILTER : Type :=
  { WindowedMaxFilter : W;
    AppLimited : bool;
    AppLimitedExitTarget : Z }.

(** [QUIC_CONGESTION_CONTROL_BBR].  The structure is declared in bbr.h, which
    is not among the sources; the fields are the ones bbr.c touches.  The
    widths are the ones bbr.c itself shows: the windows and byte counts are
    assigned to and from [uint32_t] locals, [MinRtt] is assigned [UINT64_MAX]
    by Initialize and Reset and compared with [UINT64_MAX] by the logging
    code, [SendQuantum] is assigned [uint64_t] values, [Exemptions] comes from
    a [uint8_t], and the counters compared with 64-bit packet numbers and
    times are 64-bit. *)
Record QUIC_CONGESTION_CONTROL_BBR : Type :=
  mkBbr
  { BtlbwFound : bool;
    ExitingQuiescence : bool;
    EndOfRecoveryValid : bool;
    EndOfRoundTripValid : bool;
    AckAggregationStartTimeValid : bool;
    ProbeRttRoundValid : bool;
    ProbeRttEndTimeValid : bool;
    RttSampleExpired : bool;
    MinRttTimestampValid : bool;
    InitialCongestionWindowPackets : Z;
    CongestionWindow : Z;
    InitialCongestionWindow : Z;
    RecoveryWindow : Z;
    BytesInFlight : Z;
    BytesInFlightMax : Z;
    Exemptions : Z;
    RoundTripCounter : Z;
    CwndGain : Z;
    PacingGain : Z;
    SendQuantum : Z;
    SlowStartupRoundCounter : Z;
    PacingCycleIndex : Z;
    AckAggregationStartTime : Z;
    AggregatedAckBytes : Z;
    RecoveryState : RECOVERY_STATE;
    BbrState : BBR_STATE;
    CycleStart : Z;
    EndOfRoundTrip : Z;
    EndOfRecovery : Z;
    LastEstimatedStartupBandwidth : Z;
    ProbeRttRound : Z;
    ProbeRttEndTime : Z;
    MaxAckHeightFilter : W;
    MinRtt : Z;
    MinRttTimestamp : Z;
    BandwidthFilter : BBR_BANDWIDTH_FILTER;
    RecentSendRate : Z;
    RecentAckRate : Z;
    RecentDeliveryRate : Z;
    RecentSendDelay : Z;
    RecentAckDelay : Z }.

(** Assignment to one field.  [Bbr_fields] lists the fields once; the setter
    of a field is obtained from it by abstracting that field's projection. *)
Definition Bbr_fields (b : QUIC_CONGESTION_CONTROL_BBR) : QUIC_CONGESTION_CONTROL_BBR :=
  mkBbr (BtlbwFound b) (ExitingQuiescence b) (EndOfRecoveryValid b)
    (EndOfRoundTripValid b) (AckAggregationStartTimeValid b)
    (ProbeRttRoundValid b) (ProbeRttEndTimeValid b) (RttSampleExpired b)
    (MinRttTimestampValid b) (InitialCongestionWindowPackets b)
    (CongestionWindow b) (InitialCongestionWindow b) (RecoveryWindow b)
    (BytesInFlight b) (BytesInFlightMax b) (Exemptions b) (RoundTripCounter b)
    (CwndGain b) (PacingGain b) (SendQuantum b) (SlowStartupRoundCounter b)
    (PacingCycleIndex b) (AckAggregationStartTime b) (AggregatedAckBytes b)
    (RecoveryState b) (BbrState b) (CycleStart b) (EndOfRoundTrip b)
    (EndOfRecovery b) (LastEstimatedStartupBandwidth b) (ProbeRttRound b)
    (ProbeRttEndTime b) (MaxAckHeightFilter b) (MinRtt b) (MinRttTimestamp b)
    (BandwidthFilter b) (RecentSendRate b) (RecentAckRate b)
    (RecentDeliveryRate b) (RecentSendDelay b) (RecentAckDelay b).

Definition BbrAssign (T : Type) : Type :=
  T -> QUIC_CONGESTION_CONTROL_BBR -> QUIC_CONGESTION_CONTROL_BBR.

Ltac assign_field proj :=
  let whole := eval cbv [Bbr_fields] in (fun b : QUIC_CONGESTION_CONTROL_BBR => Bbr_fields b) in
  let holed := eval pattern proj in whole in
  lazymatch holed with
  | ?ctx _ =>
      let setter := eval cbv beta in (fun v b => ctx (fun _ => v) b) in
      exact setter
  end.

Definition set_BtlbwFound : BbrAssign bool := ltac:(assign_field BtlbwFound).
Definition set_ExitingQuiescence : BbrAssign bool := ltac:(assign_field ExitingQuiescence).
Definition set_EndOfRecoveryValid : BbrAssign bool := ltac:(assign_field EndOfRecoveryValid).
Definition set_EndOfRoundTripValid : BbrAssign bool := ltac:(assign_field EndOfRoundTripValid).
Definition set_AckAggregationStartTimeValid : BbrAssign bool := ltac:(assign_field AckAggregationStartTimeValid).
Definition set_ProbeRttRoundValid : BbrAssign bool := ltac:(assign_field ProbeRttRoundValid).
Definition set_ProbeRttEndTimeValid : BbrAssign bool := ltac:(assign_field ProbeRttEndTimeValid).
Definition set_RttSampleExpired : BbrAssign bool := ltac:(assign_field RttSampleExpired).
Definition set_MinRttTimestampValid : BbrAssign bool := ltac:(assign_field MinRttTimestampValid).
Definition set_CongestionWindow : BbrAssign Z := ltac:(assign_field CongestionWindow).
Definition set_InitialCongestionWindow : BbrAssign Z := ltac:(assign_field InitialCongestionWindow).
Definition set_RecoveryWindow : BbrAssign Z := ltac:(assign_field RecoveryWindow).
Definition set_BytesInFlight : BbrAssign Z := ltac:(assign_field BytesInFlight).
Definition set_BytesInFlightMax : BbrAssign Z := ltac:(assign_field BytesInFlightMax).
Definition set_Exemptions : BbrAssign Z := ltac:(assign_field Exemptions).
Definition set_RoundTripCounter : BbrAssign Z := ltac:(assign_field RoundTripCounter).
Definition set_CwndGain : BbrAssign Z := ltac:(assign_field CwndGain).
Definition set_PacingGain : BbrAssign Z := ltac:(assign_field PacingGain).
Definition set_SendQuantum : BbrAssign Z := ltac:(assign_field SendQuantum).
Definition set_SlowStartupRoundCounter : BbrAssign Z := ltac:(assign_field SlowStartupRoundCounter).
Definition set_PacingCycleIndex : BbrAssign Z := ltac:(assign_field PacingCycleIndex).
Definition set_AckAggregationStartTime : BbrAssign Z := ltac:(assign_field AckAggregationStartTime).
Definition set_AggregatedAckBytes : BbrAssign Z := ltac:(assign_field AggregatedAckBytes).
Definition set_RecoveryState : BbrAssign RECOVERY_STATE := ltac:(assign_field RecoveryState).
Definition set_BbrState : BbrAssign BBR_STATE := ltac:(assign_field BbrState).
Definition set_CycleStart : BbrAssign Z := ltac:(assign_field CycleStart).
Definition set_EndOfRoundTrip : BbrAssign Z := ltac:(assign_field EndOfRoundTrip).
Definition set_EndOfRecovery : BbrAssign Z := ltac:(assign_field EndOfRecovery).
Definition set_LastEstimatedStartupBandwidth : BbrAssign Z := ltac:(assign_field LastEstimatedStartupBandwidth).
Definition set_ProbeRttRound : BbrAssign Z := ltac:(assign_field ProbeRttRound).
Definition set_ProbeRttEndTime : BbrAssign Z := ltac:(assign_field ProbeRttEndTime).
Definition set_MaxAckHeightFilter : BbrAssign W := ltac:(assign_field MaxAckHeightFilter).
Definition set_MinRtt : BbrAssign Z := ltac:(assign_field MinRtt).
Definition set_MinRttTimestamp : BbrAssign Z := ltac:(assign_field MinRttTimestamp).
Definition set_BandwidthFilter : BbrAssign BBR_BANDWIDTH_FILTER := ltac:(assign_field BandwidthFilter).
Definition set_RecentSendRate : BbrAssign Z := ltac:(assign_field RecentSendRate).
Definition set_RecentAckRate : BbrAssign Z := ltac:(assign_field RecentAckRate).
Definition set_RecentDeliveryRate : BbrAssign Z := ltac:(assign_field RecentDeliveryRate).
Definition set_RecentSendDelay : BbrAssign Z := ltac:(assign_field RecentSendDelay).
Definition set_RecentAckDelay : BbrAssign Z := ltac:(assign_field RecentAckDelay).

Definition set_AppLimited (v : bool) (f : BBR_BANDWIDTH_FILTER) : BBR_BANDWIDTH_FILTER :=
  {| WindowedMaxFilter := WindowedMaxFilter f;
     AppLimited := v;
     AppLimitedExitTarget := AppLimitedExitTarget f |}.

Definition set_AppLimitedExitTarget (v : Z) (f : BBR_BANDWIDTH_FILTER) : BBR_BANDWIDTH_FILTER :=
  {| WindowedMaxFilter := WindowedMaxFilter f;
     AppLimited := AppLimited f;
     AppLimitedExitTarget := v |}.

Definition set_WindowedMaxFilter (v : W) (f : BBR_BANDWIDTH_FILTER) : BBR_BANDWIDTH_FILTER :=
  {| WindowedMaxFilter := v;
     AppLimited := AppLimited f;
     AppLimitedExitTarget := AppLimitedExitTarget f |}.

(** ** Queries *)

(** [BbrCongestionControlGetBandwidth] *)
Definition BbrCongestionControlGetBandwidth (Bbr : QUIC_CONGESTION_CONTROL_BBR) : Z :=
  match QuicSlidingWindowExtremumGet (WindowedMaxFilter (BandwidthFilter Bbr)) with
  | Some Entry => Value Entry
  | None => 0
  end.

(** [BbrCongestionControlInRecovery] *)
Definition BbrCongestionControlInRecovery (Bbr : QUIC_CONGESTION_CONTROL_BBR) : bool :=
  negb (RECOVERY_STATE_eqb (RecoveryState Bbr) RECOVERY_STATE_NOT_RECOVERY).

(** [uint32_t MinCongestionWindow = kMinCwndInMss * DatagramPayloadLength;] *)
Definition MinCongestionWindow (Connection : QUIC_CONNECTION) : Z :=
  u32 (kMinCwndInMss * DatagramPayloadSize Connection).

(** [BbrCongestionControlGetCongestionWindow] *)
Definition BbrCongestionControlGetCongestionWindow
  (Connection : QUIC_CONNECTION) (Bbr : QUIC_CONGESTION_CONTROL_BBR) : Z :=
  if BBR_STATE_eqb (BbrState Bbr) BBR_STATE_PROBE_RTT then
    MinCongestionWindow Connection
  else if BbrCongestionControlInRecovery Bbr then
    CXPLAT_MIN (CongestionWindow Bbr) (RecoveryWindow Bbr)
  else
    CongestionWindow Bbr.

(** [BbrCongestionControlIsAppLimited] *)
Definition BbrCongestionControlIsAppLimited (Bbr : QUIC_CONGESTION_CONTROL_BBR) : bool :=
  AppLimited (BandwidthFilter Bbr).

(** [BbrCongestionControlCanSend] *)
Definition BbrCongestionControlCanSend
  (Connection : QUIC_CONNECTION) (Bbr : QUIC_CONGESTION_CONTROL_BBR) : bool :=
  let CongestionWindow := BbrCongestionControlGetCongestionWindow Connection Bbr in
  (BytesInFlight Bbr <? CongestionWindow) || (Exemptions Bbr >? 0).

(** [BbrCongestionControlUpdateBlockedState]: returns TRUE if the sender
    became unblocked.  (The flow-blocked reason it records lives in the
    connection.) *)
Definition BbrCongestionControlUpdateBlockedState
  (Connection : QUIC_CONNECTION) (Bbr : QUIC_CONGESTION_CONTROL_BBR)
  (PreviousCanSendState : bool) : bool :=
  if negb (Bool.eqb PreviousCanSendState (BbrCongestionControlCanSend Connection Bbr)) then
    if PreviousCanSendState then false else true
  else false.

(** [BbrCongestionControlGetBytesInFlightMax], [BbrCongestionControlGetExemptions] *)
Definition BbrCongestionControlGetBytesInFlightMax (Bbr : QUIC_CONGESTION_CONTROL_BBR) : Z :=
  BytesInFlightMax Bbr.

Definition BbrCongestionControlGetExemptions (Bbr : QUIC_CONGESTION_CONTROL_BBR) : Z :=
  Exemptions Bbr.

(** ** State transitions *)

(** [BbrCongestionControlTransitToProbeBw]; [RandomValue] is the 32-bit value
    written by [CxPlatRandom]. *)
Definition BbrCongestionControlTransitToProbeBw
  (Bbr : QUIC_CONGESTION_CONTROL_BBR) (CongestionEventTime RandomValue : Z)
  : QUIC_CONGESTION_CONTROL_BBR :=
  let Bbr := set_BbrState BBR_STATE_PROBE_BW Bbr in
  let Bbr := set_CwndGain kCwndGain Bbr in
  let Bbr := set_PacingCycleIndex
               ((RandomValue mod (GAIN_CYCLE_LENGTH - 1) + 2) mod GAIN_CYCLE_LENGTH) Bbr in
  let Bbr := set_PacingGain (kPacingGain (PacingCycleIndex Bbr)) Bbr in
  set_CycleStart CongestionEventTime Bbr.

(** [BbrCongestionControlTransitToStartup] *)
Definition BbrCongestionControlTransitToStartup
  (Bbr : QUIC_CONGESTION_CONTROL_BBR) : QUIC_CONGESTION_CONTROL_BBR :=
  let Bbr := set_BbrState BBR_STATE_STARTUP Bbr in
  let Bbr := set_PacingGain kHighGain Bbr in
  set_CwndGain kHighGain Bbr.

(** [BbrCongestionControlTransitToProbeRtt] *)
Definition BbrCongestionControlTransitToProbeRtt
  (Bbr : QUIC_CONGESTION_CONTROL_BBR) (LargestSentPacketNumber : Z)
  : QUIC_CONGESTION_CONTROL_BBR :=
  let Bbr := set_BbrState BBR_STATE_PROBE_RTT Bbr in
  let Bbr := set_PacingGain GAIN_UNIT Bbr in
  let Bbr := set_ProbeRttEndTimeValid false Bbr in
  let Bbr := set_ProbeRttRoundValid false Bbr in
  let Bbr := set_BandwidthFilter (set_AppLimited true (BandwidthFilter Bbr)) Bbr in
  set_BandwidthFilter
    (set_AppLimitedExitTarget LargestSentPacketNumber (BandwidthFilter Bbr)) Bbr.

(** [BbrCongestionControlTransitToDrain] *)
Definition BbrCongestionControlTransitToDrain
  (Bbr : QUIC_CONGESTION_CONTROL_BBR) : QUIC_CONGESTION_CONTROL_BBR :=
  let Bbr := set_BbrState BBR_STATE_DRAIN Bbr in
  let Bbr := set_PacingGain kDrainGain Bbr in
  set_CwndGain kHighGain Bbr.

(** ** Sending *)

(** [BbrCongestionControlSetExemption] *)
Definition BbrCongestionControlSetExemption
  (Bbr : QUIC_CONGESTION_CONTROL_BBR) (NumPackets : Z) : QUIC_CONGESTION_CONTROL_BBR :=
  set_Exemptions NumPackets Bbr.

(** [BbrCongestionControlOnDataSent] *)
Definition BbrCongestionControlOnDataSent
  (Bbr : QUIC_CONGESTION_CONTROL_BBR) (NumRetransmittableBytes : Z)
  : QUIC_CONGESTION_CONTROL_BBR :=
  let Bbr :=
    if (BytesInFlight Bbr =? 0) && BbrCongestionControlIsAppLimited Bbr
    then set_ExitingQuiescence true Bbr else Bbr in
  let Bbr := set_BytesInFlight (u32 (BytesInFlight Bbr + NumRetransmittableBytes)) Bbr in
  let Bbr :=
    if BytesInFlightMax Bbr <? BytesInFlight Bbr
    then set_BytesInFlightMax (BytesInFlight Bbr) Bbr else Bbr in
  if Exemptions Bbr >? 0 then set_Exemptions (u8 (Exemptions Bbr - 1)) Bbr else Bbr.

(** [BbrCongestionControlOnDataInvalidated].  The function as a release
    build runs it: the debug assertion of line 566
    ([BytesInFlight >= NumRetransmittableBytes]) computes nothing and is a
    hypothesis of the theorems that need it. *)
Definition BbrCongestionControlOnDataInvalidated
  (Connection : QUIC_CONNECTION) (Bbr : QUIC_CONGESTION_CONTROL_BBR)
  (NumRetransmittableBytes : Z) : QUIC_CONGESTION_CONTROL_BBR * bool :=
  let PreviousCanSendState := BbrCongestionControlCanSend Connection Bbr in
  let Bbr := set_BytesInFlight (u32 (BytesInFlight Bbr - NumRetransmittableBytes)) Bbr in
  (Bbr, BbrCongestionControlUpdateBlockedState Connection Bbr PreviousCanSendState).

(** [BbrCongestionControlGetTargetCwnd] *)
Definition BbrCongestionControlGetTargetCwnd
  (Bbr : QUIC_CONGESTION_CONTROL_BBR) (Gain : Z) : Z :=
  let BandwidthEst := BbrCongestionControlGetBandwidth Bbr in
  if (BandwidthEst =? 0) || (MinRtt Bbr =? UINT32_MAX) then
    u32 (u64 (Gain * InitialCongestionWindow Bbr) / GAIN_UNIT)
  else
    let Bdp := u64 (BandwidthEst * MinRtt Bbr) / kMicroSecsInSec / BW_UNIT in
    let TargetCwnd :=
      u64 (u64 (Bdp * Gain) / GAIN_UNIT + u64 (kQuantaFactor * SendQuantum Bbr)) in
    u32 TargetCwnd.

(** [BbrCongestionControlGetSendAllowance] *)
Definition BbrCongestionControlGetSendAllowance
  (Connection : QUIC_CONNECTION) (Bbr : QUIC_CONGESTION_CONTROL_BBR)
  (TimeSinceLastSend : Z) (TimeSinceLastSendValid : bool) : Z :=
  let BandwidthEst := BbrCongestionControlGetBandwidth Bbr in
  let CongestionWindow' := BbrCongestionControlGetCongestionWindow Connection Bbr in
  if BytesInFlight Bbr >=? CongestionWindow' then
    0
  else if negb TimeSinceLastSendValid
          || negb (PacingEnabled Connection)
          || (MinRtt Bbr =? UINT32_MAX)
          || (MinRtt Bbr <? QUIC_SEND_PACING_INTERVAL) then
    u32 (CongestionWindow' - BytesInFlight Bbr)
  else
    let SendAllowance :=
      if BBR_STATE_eqb (BbrState Bbr) BBR_STATE_STARTUP then
        u32 (CXPLAT_MAX
               (u64 (u64 (BandwidthEst * PacingGain Bbr) * TimeSinceLastSend) / GAIN_UNIT)
               (u32 (u32 (CongestionWindow' * PacingGain Bbr) / GAIN_UNIT
                     - BytesInFlight Bbr)))
      else
        u32 (u64 (u64 (BandwidthEst * PacingGain Bbr) * TimeSinceLastSend) / GAIN_UNIT) in
    let SendAllowance :=
      if SendAllowance >? u32 (CongestionWindow' - BytesInFlight Bbr)
      then u32 (CongestionWindow' - BytesInFlight Bbr) else SendAllowance in
    if SendAllowance >? Z.shiftr CongestionWindow' 2
    then Z.shiftr CongestionWindow' 2 else SendAllowance.

(** [BbrCongestionControlSetSendQuantum] *)
Definition BbrCongestionControlSetSendQuantum
  (Connection : QUIC_CONNECTION) (Bbr : QUIC_CONGESTION_CONTROL_BBR)
  : QUIC_CONGESTION_CONTROL_BBR :=
  let Bandwidth := BbrCongestionControlGetBandwidth Bbr in
  let PacingRate := u64 (Bandwidth * PacingGain Bbr) / GAIN_UNIT in
  let DatagramPayloadLength := DatagramPayloadSize Connection in
  if PacingRate <? kLowPacingRateThresholdBytesPerSecond * BW_UNIT then
    set_SendQuantum DatagramPayloadLength Bbr
  else if PacingRate <? kHighPacingRateThresholdBytesPerSecond * BW_UNIT then
    set_SendQuantum (DatagramPayloadLength * 2) Bbr
  else
    set_SendQuantum
      (CXPLAT_MIN (u64 (PacingRate * kMilliSecsInSec) / BW_UNIT) (64 * 1024)) Bbr.

(** [BbrCongestionControlUpdateCongestionWindow] *)
Definition BbrCongestionControlUpdateCongestionWindow
  (Connection : QUIC_CONNECTION) (Bbr : QUIC_CONGESTION_CONTROL_BBR)
  (TotalBytesAcked AckedBytes : Z) : QUIC_CONGESTION_CONTROL_BBR :=
  if BBR_STATE_eqb (BbrState Bbr) BBR_STATE_PROBE_RTT then Bbr
  else
    let Bbr := BbrCongestionControlSetSendQuantum Connection Bbr in
    let TargetCwnd := BbrCongestionControlGetTargetCwnd Bbr (CwndGain Bbr) in
    let TargetCwnd :=
      if BtlbwFound Bbr then
        match QuicSlidingWindowExtremumGet (MaxAckHeightFilter Bbr) with
        | Some Entry => u64 (TargetCwnd + Value Entry)
        | None => TargetCwnd
        end
      else TargetCwnd in
    let CongestionWindow' := CongestionWindow Bbr in
    let MinCongestionWindow' := MinCongestionWindow Connection in
    let CongestionWindow' :=
      if BtlbwFound Bbr then
        u32 (CXPLAT_MIN TargetCwnd (u64 (CongestionWindow' + AckedBytes)))
      else if (CongestionWindow' <? TargetCwnd)
              || (TotalBytesAcked <? InitialCongestionWindow Bbr) then
        u32 (CongestionWindow' + u32 AckedBytes)
      else CongestionWindow' in
    set_CongestionWindow (CXPLAT_MAX CongestionWindow' MinCongestionWindow') Bbr.

(** ** Bandwidth filter *)

(** The elapsed ack time of a packet that carries last-acked information
    (bbr.c, lines 179-183). *)
Definition PacketAckElapsed
  (AckEvent : Ack.QUIC_ACK_EVENT) (AckedPacket : Packet.QUIC_SENT_PACKET_METADATA) : Z :=
  let Last := Packet.LastAckedPacketInfo AckedPacket in
  if negb (CxPlatTimeAtOrBefore64 (Ack.AdjustedAckTime AckEvent) (LastAcked.AdjustedAckTime Last))
  then CxPlatTimeDiff64 (LastAcked.AdjustedAckTime Last) (Ack.AdjustedAckTime AckEvent)
  else CxPlatTimeDiff64 (LastAcked.AckTime Last) (Ack.TimeNow AckEvent).

(** [SendRate] as left by lines 162-196; [UINT64_MAX] when no branch sets it. *)
Definition PacketSendRate
  (AckEvent : Ack.QUIC_ACK_EVENT) (AckedPacket : Packet.QUIC_SENT_PACKET_METADATA) : Z :=
  let Last := Packet.LastAckedPacketInfo AckedPacket in
  if Packet.HasLastAckedPacketInfo AckedPacket then
    let SendElapsed :=
      CxPlatTimeDiff64 (LastAcked.SentTime Last) (Packet.SentTime AckedPacket) in
    if negb (SendElapsed =? 0) then
      u64 (kMicroSecsInSec * BW_UNIT
           * u64 (Packet.TotalBytesSent AckedPacket - LastAcked.TotalBytesSent Last))
      / SendElapsed
    else UINT64_MAX
  else if negb (CxPlatTimeAtOrBefore64 (Ack.TimeNow AckEvent) (Packet.SentTime AckedPacket)) then
    u64 (kMicroSecsInSec * BW_UNIT * Ack.NumTotalAckedRetransmittableBytes AckEvent)
    / CxPlatTimeDiff64 (Packet.SentTime AckedPacket) (Ack.TimeNow AckEvent)
  else UINT64_MAX.

(** [AckRate] as left by lines 162-196. *)
Definition PacketAckRate
  (AckEvent : Ack.QUIC_ACK_EVENT) (AckedPacket : Packet.QUIC_SENT_PACKET_METADATA) : Z :=
  let Last := Packet.LastAckedPacketInfo AckedPacket in
  if Packet.HasLastAckedPacketInfo AckedPacket then
    let AckElapsed := PacketAckElapsed AckEvent AckedPacket in
    if negb (AckElapsed =? 0) then
      u64 (kMicroSecsInSec * BW_UNIT
           * u64 (Ack.NumTotalAckedRetransmittableBytes AckEvent
                  - LastAcked.TotalBytesAcked Last))
      / AckElapsed
    else UINT64_MAX
  else UINT64_MAX.

(** The delivery rate of one acked packet: [None] where the loop body
    [continue]s (zero length, or neither rate computed). *)
Definition PacketDeliveryRate
  (AckEvent : Ack.QUIC_ACK_EVENT) (AckedPacket : Packet.QUIC_SENT_PACKET_METADATA)
  : option Z :=
  if Packet.PacketLength AckedPacket =? 0 then None
  else
    let SendRate := PacketSendRate AckEvent AckedPacket in
    let AckRate := PacketAckRate AckEvent AckedPacket in
    if (SendRate =? UINT64_MAX) && (AckRate =? UINT64_MAX) then None
    else Some (CXPLAT_MIN SendRate AckRate).

(** One iteration of the loop of [BbrBandwidthFilterOnPacketAcked]. *)
Definition BbrBandwidthFilterOnOnePacket
  (b : BBR_BANDWIDTH_FILTER) (AckEvent : Ack.QUIC_ACK_EVENT) (RttCounter : Z)
  (AckedPacket : Packet.QUIC_SENT_PACKET_METADATA) : BBR_BANDWIDTH_FILTER :=
  match PacketDeliveryRate AckEvent AckedPacket with
  | None => b
  | Some DeliveryRate =>
      let PreviousMaxDeliveryRate :=
        match QuicSlidingWindowExtremumGet (WindowedMaxFilter b) with
        | Some Entry => Value Entry
        | None => 0
        end in
      if (DeliveryRate >=? PreviousMaxDeliveryRate)
         || negb (Packet.IsAppLimited AckedPacket)
      then set_WindowedMaxFilter
             (QuicSlidingWindowExtremumUpdateMax
                (WindowedMaxFilter b) DeliveryRate RttCounter) b
      else b
  end.

(** [BbrBandwidthFilterOnPacketAcked] *)
Definition BbrBandwidthFilterOnPacketAcked
  (b : BBR_BANDWIDTH_FILTER) (AckEvent : Ack.QUIC_ACK_EVENT) (RttCounter : Z)
  : BBR_BANDWIDTH_FILTER :=
  let b :=
    if AppLimited b && (AppLimitedExitTarget b <? Ack.LargestAck AckEvent)
    then set_AppLimited false b else b in
  fold_left
    (fun b AckedPacket => BbrBandwidthFilterOnOnePacket b AckEvent RttCounter AckedPacket)
    (Ack.AckedPackets AckEvent) b.

(** ** Recovery window, ProbeRTT and ack aggregation *)

(** [BbrCongestionControlUpdateRecoveryWindow] *)
Definition BbrCongestionControlUpdateRecoveryWindow
  (Connection : QUIC_CONNECTION) (Bbr : QUIC_CONGESTION_CONTROL_BBR) (BytesAcked : Z)
  : QUIC_CONGESTION_CONTROL_BBR :=
  let Bbr :=
    if RECOVERY_STATE_eqb (RecoveryState Bbr) RECOVERY_STATE_GROWTH
    then set_RecoveryWindow (u32 (RecoveryWindow Bbr + BytesAcked)) Bbr else Bbr in
  let RecoveryWindow' :=
    CXPLAT_MAX (RecoveryWindow Bbr) (u32 (BytesInFlight Bbr + BytesAcked)) in
  let MinCongestionWindow' := MinCongestionWindow Connection in
  set_RecoveryWindow (CXPLAT_MAX RecoveryWindow' MinCongestionWindow') Bbr.

(** [BbrCongestionControlHandleAckInProbeRtt] *)
Definition BbrCongestionControlHandleAckInProbeRtt
  (Connection : QUIC_CONNECTION) (Bbr : QUIC_CONGESTION_CONTROL_BBR)
  (NewRoundTrip : bool) (LargestSentPacketNumber AckTime RandomValue : Z)
  : QUIC_CONGESTION_CONTROL_BBR :=
  let Bbr := set_BandwidthFilter (set_AppLimited true (BandwidthFilter Bbr)) Bbr in
  let Bbr := set_BandwidthFilter
               (set_AppLimitedExitTarget LargestSentPacketNumber (BandwidthFilter Bbr)) Bbr in
  let DatagramPayloadLength := DatagramPayloadSize Connection in
  if negb (ProbeRttEndTimeValid Bbr)
     && (BytesInFlight Bbr
         <? u32 (BbrCongestionControlGetCongestionWindow Connection Bbr
                 + DatagramPayloadLength)) then
    let Bbr := set_ProbeRttEndTime (u64 (AckTime + kProbeRttTimeInUs)) Bbr in
    let Bbr := set_ProbeRttEndTimeValid true Bbr in
    set_ProbeRttRoundValid false Bbr
  else if ProbeRttEndTimeValid Bbr then
    let Bbr :=
      if negb (ProbeRttRoundValid Bbr) && NewRoundTrip then
        let Bbr := set_ProbeRttRoundValid true Bbr in
        set_ProbeRttRound (RoundTripCounter Bbr) Bbr
      else Bbr in
    if ProbeRttRoundValid Bbr && CxPlatTimeAtOrBefore64 (ProbeRttEndTime Bbr) AckTime then
      let Bbr := set_MinRttTimestamp AckTime Bbr in
      let Bbr := set_MinRttTimestampValid true Bbr in
      if BtlbwFound Bbr
      then BbrCongestionControlTransitToProbeBw Bbr AckTime RandomValue
      else BbrCongestionControlTransitToStartup Bbr
    else Bbr
  else Bbr.

(** [BbrCongestionControlUpdateAckAggregation] *)
Definition BbrCongestionControlUpdateAckAggregation
  (Bbr : QUIC_CONGESTION_CONTROL_BBR) (AckEvent : Ack.QUIC_ACK_EVENT)
  : QUIC_CONGESTION_CONTROL_BBR * Z :=
  if negb (AckAggregationStartTimeValid Bbr) then
    let Bbr := set_AckAggregationStartTime (Ack.TimeNow AckEvent) Bbr in
    (set_AckAggregationStartTimeValid true Bbr, 0)
  else
    let ExpectedAckBytes :=
      u64 (BbrCongestionControlGetBandwidth Bbr
           * CxPlatTimeDiff64 (AckAggregationStartTime Bbr) (Ack.TimeNow AckEvent))
      / kMicroSecsInSec / BW_UNIT in
    if AggregatedAckBytes Bbr <=? ExpectedAckBytes then
      let Bbr := set_AggregatedAckBytes (Ack.NumRetransmittableBytes AckEvent) Bbr in
      let Bbr := set_AckAggregationStartTime (Ack.TimeNow AckEvent) Bbr in
      (set_AckAggregationStartTimeValid true Bbr, 0)
    else
      let Bbr := set_AggregatedAckBytes
                   (u64 (AggregatedAckBytes Bbr + Ack.NumRetransmittableBytes AckEvent)) Bbr in
      let Bbr := set_MaxAckHeightFilter
                   (QuicSlidingWindowExtremumUpdateMax (MaxAckHeightFilter Bbr)
                      (u64 (AggregatedAckBytes Bbr - ExpectedAckBytes))
                      (RoundTripCounter Bbr)) Bbr in
      (Bbr, u64 (AggregatedAckBytes Bbr - ExpectedAckBytes)).

(** ** Acknowledgements

    [BbrCongestionControlOnDataAcknowledged] is long; its consecutive blocks
    are given one definition each, in source order, and composed at the end. *)

(** Lines 890-899: the min-RTT sample. *)
Definition AckUpdateMinRtt
  (Bbr : QUIC_CONGESTION_CONTROL_BBR) (AckEvent : Ack.QUIC_ACK_EVENT)
  : QUIC_CONGESTION_CONTROL_BBR :=
  if Ack.MinRttValid AckEvent then
    let Bbr :=
      set_RttSampleExpired
        (if MinRttTimestampValid Bbr
         then CxPlatTimeAtOrBefore64
                (u64 (MinRttTimestamp Bbr + kBbrMinRttExpirationInMicroSecs))
                (Ack.TimeNow AckEvent)
         else false) Bbr in
    if RttSampleExpired Bbr || (MinRtt Bbr >? Ack.MinRtt AckEvent) then
      let Bbr := set_MinRtt (Ack.MinRtt AckEvent) Bbr in
      let Bbr := set_MinRttTimestamp (Ack.TimeNow AckEvent) Bbr in
      set_MinRttTimestampValid true Bbr
    else Bbr
  else Bbr.

(** Lines 901-907: round counting; the second component is [NewRoundTrip]. *)
Definition AckUpdateRoundTrip
  (Bbr : QUIC_CONGESTION_CONTROL_BBR) (AckEvent : Ack.QUIC_ACK_EVENT)
  : QUIC_CONGESTION_CONTROL_BBR * bool :=
  if negb (EndOfRoundTripValid Bbr) || (EndOfRoundTrip Bbr <? Ack.LargestAck AckEvent) then
    let Bbr := set_RoundTripCounter (u64 (RoundTripCounter Bbr + 1)) Bbr in
    let Bbr := set_EndOfRoundTripValid true Bbr in
    let Bbr := set_EndOfRoundTrip (Ack.LargestSentPacketNumber AckEvent) Bbr in
    (Bbr, true)
  else (Bbr, false).

(** Lines 914-975: the delivery-rate bookkeeping kept for the logs.  The loop
    stops at the first packet with a delivery rate. *)
Fixpoint AckTrackRecentDeliveryRate
  (Bbr : QUIC_CONGESTION_CONTROL_BBR) (AckEvent : Ack.QUIC_ACK_EVENT)
  (AckedPackets : list Packet.QUIC_SENT_PACKET_METADATA)
  : QUIC_CONGESTION_CONTROL_BBR :=
  match AckedPackets with
  | [] => Bbr
  | AckedPacket :: Next =>
      if Packet.PacketLength AckedPacket =? 0 then
        AckTrackRecentDeliveryRate Bbr AckEvent Next
      else
        let Last := Packet.LastAckedPacketInfo AckedPacket in
        let SendRate := PacketSendRate AckEvent AckedPacket in
        let AckRate := PacketAckRate AckEvent AckedPacket in
        let Bbr :=
          if Packet.HasLastAckedPacketInfo AckedPacket then
            let SendElapsed :=
              CxPlatTimeDiff64 (LastAcked.SentTime Last) (Packet.SentTime AckedPacket) in
            let Bbr :=
              if negb (SendElapsed =? 0) then set_RecentSendDelay SendElapsed Bbr else Bbr in
            let AckElapsed := PacketAckElapsed AckEvent AckedPacket in
            if negb (AckElapsed =? 0) then set_RecentAckDelay AckElapsed Bbr else Bbr
          else if negb (CxPlatTimeAtOrBefore64
                          (Ack.TimeNow AckEvent) (Packet.SentTime AckedPacket)) then
            let RttElapsed :=
              CxPlatTimeDiff64 (Packet.SentTime AckedPacket) (Ack.TimeNow AckEvent) in
            let Bbr := set_RecentSendDelay RttElapsed Bbr in
            set_RecentAckDelay RttElapsed Bbr
          else Bbr in
        if negb (SendRate =? UINT64_MAX) || negb (AckRate =? UINT64_MAX) then
          let DeliveryRate := CXPLAT_MIN SendRate AckRate in
          if negb (DeliveryRate =? UINT64_MAX) then
            let Bbr := set_RecentSendRate SendRate Bbr in
            let Bbr := set_RecentAckRate AckRate Bbr in
            set_RecentDeliveryRate DeliveryRate Bbr
          else AckTrackRecentDeliveryRate Bbr AckEvent Next
        else AckTrackRecentDeliveryRate Bbr AckEvent Next
  end.

(** Lines 977-991: recovery bookkeeping. *)
Definition AckUpdateRecovery
  (Connection : QUIC_CONNECTION) (Bbr : QUIC_CONGESTION_CONTROL_BBR)
  (AckEvent : Ack.QUIC_ACK_EVENT) (NewRoundTrip : bool)
  : QUIC_CONGESTION_CONTROL_BBR :=
  if BbrCongestionControlInRecovery Bbr then
    let Bbr :=
      if NewRoundTrip
         && negb (RECOVERY_STATE_eqb (RecoveryState Bbr) RECOVERY_STATE_GROWTH)
      then set_RecoveryState RECOVERY_STATE_GROWTH Bbr else Bbr in
    if negb (Ack.HasLoss AckEvent) && (EndOfRecovery Bbr <? Ack.LargestAck AckEvent) then
      set_RecoveryState RECOVERY_STATE_NOT_RECOVERY Bbr
    else
      BbrCongestionControlUpdateRecoveryWindow
        Connection Bbr (Ack.NumRetransmittableBytes AckEvent)
  else Bbr.

(** Lines 995-1015: the ProbeBW pacing-gain cycle. *)
Definition AckAdvancePacingGainCycle
  (Bbr : QUIC_CONGESTION_CONTROL_BBR) (AckEvent : Ack.QUIC_ACK_EVENT)
  (PrevInflightBytes : Z) : QUIC_CONGESTION_CONTROL_BBR :=
  if BBR_STATE_eqb (BbrState Bbr) BBR_STATE_PROBE_BW then
    let ShouldAdvancePacingGainCycle :=
      CxPlatTimeDiff64 (Ack.TimeNow AckEvent) (CycleStart Bbr) >? MinRtt Bbr in
    let ShouldAdvancePacingGainCycle :=
      if (PacingGain Bbr >? GAIN_UNIT) && negb (Ack.HasLoss AckEvent)
         && (PrevInflightBytes <? BbrCongestionControlGetTargetCwnd Bbr (PacingGain Bbr))
      then false else ShouldAdvancePacingGainCycle in
    let ShouldAdvancePacingGainCycle :=
      if PacingGain Bbr <? GAIN_UNIT then
        let TargetCwnd := BbrCongestionControlGetTargetCwnd Bbr GAIN_UNIT in
        if BytesInFlight Bbr <=? TargetCwnd then true else ShouldAdvancePacingGainCycle
      else ShouldAdvancePacingGainCycle in
    if ShouldAdvancePacingGainCycle then
      let Bbr := set_PacingCycleIndex
                   (u32 (PacingCycleIndex Bbr + 1) mod GAIN_CYCLE_LENGTH) Bbr in
      let Bbr := set_CycleStart (Ack.TimeNow AckEvent) Bbr in
      set_PacingGain (kPacingGain (PacingCycleIndex Bbr)) Bbr
    else Bbr
  else Bbr.

(** Lines 1017-1027: has the bottleneck bandwidth stopped growing? *)
Definition AckCheckStartupExit
  (Bbr : QUIC_CONGESTION_CONTROL_BBR) (NewRoundTrip LastAckedPacketAppLimited : bool)
  : QUIC_CONGESTION_CONTROL_BBR :=
  if negb (BtlbwFound Bbr) && NewRoundTrip && negb LastAckedPacketAppLimited then
    let BandwidthTarget :=
      u64 (LastEstimatedStartupBandwidth Bbr * kStartupGrowthTarget) / GAIN_UNIT in
    let CurrentBandwidth := BbrCongestionControlGetBandwidth Bbr in
    if CurrentBandwidth >=? BandwidthTarget then
      let Bbr := set_LastEstimatedStartupBandwidth CurrentBandwidth Bbr in
      set_SlowStartupRoundCounter 0 Bbr
    else
      let Bbr := set_SlowStartupRoundCounter (u8 (SlowStartupRoundCounter Bbr + 1)) Bbr in
      if SlowStartupRoundCounter Bbr >=? kStartupSlowGrowRoundLimit
      then set_BtlbwFound true Bbr else Bbr
  else Bbr.

(** Lines 1029-1049: phase transitions and ProbeRTT handling. *)
Definition AckTransitions
  (Connection : QUIC_CONNECTION) (Bbr : QUIC_CONGESTION_CONTROL_BBR)
  (AckEvent : Ack.QUIC_ACK_EVENT) (NewRoundTrip : bool) (RandomValue : Z)
  : QUIC_CONGESTION_CONTROL_BBR :=
  let Bbr :=
    if BBR_STATE_eqb (BbrState Bbr) BBR_STATE_STARTUP && BtlbwFound Bbr
    then BbrCongestionControlTransitToDrain Bbr else Bbr in
  let Bbr :=
    if BBR_STATE_eqb (BbrState Bbr) BBR_STATE_DRAIN
       && (BytesInFlight Bbr <=? BbrCongestionControlGetTargetCwnd Bbr GAIN_UNIT)
    then BbrCongestionControlTransitToProbeBw Bbr (Ack.TimeNow AckEvent) RandomValue
    else Bbr in
  let Bbr :=
    if negb (BBR_STATE_eqb (BbrState Bbr) BBR_STATE_PROBE_RTT)
       && negb (ExitingQuiescence Bbr) && RttSampleExpired Bbr
    then BbrCongestionControlTransitToProbeRtt Bbr (Ack.LargestSentPacketNumber AckEvent)
    else Bbr in
  let Bbr := set_ExitingQuiescence false Bbr in
  if BBR_STATE_eqb (BbrState Bbr) BBR_STATE_PROBE_RTT then
    BbrCongestionControlHandleAckInProbeRtt
      Connection Bbr NewRoundTrip
      (Ack.LargestSentPacketNumber AckEvent) (Ack.TimeNow AckEvent) RandomValue
  else Bbr.

(** [BbrCongestionControlOnDataAcknowledged].  [RandomValue] is consumed by the
    ProbeBW entries this ack may trigger.  Returns the new state and whether
    the sender became unblocked.  The debug assertions (lines 887 and 978,
    and those of the bandwidth filter) compute nothing; the theorems that
    need one take it as a hypothesis. *)
Definition BbrCongestionControlOnDataAcknowledged
  (Connection : QUIC_CONNECTION) (Bbr : QUIC_CONGESTION_CONTROL_BBR)
  (AckEvent : Ack.QUIC_ACK_EVENT) (RandomValue : Z)
  : QUIC_CONGESTION_CONTROL_BBR * bool :=
  let PreviousCanSendState := BbrCongestionControlCanSend Connection Bbr in
  if Ack.IsImplicit AckEvent then
    let Bbr :=
      BbrCongestionControlUpdateCongestionWindow Connection Bbr
        (Ack.NumTotalAckedRetransmittableBytes AckEvent)
        (Ack.NumRetransmittableBytes AckEvent) in
    (Bbr, BbrCongestionControlUpdateBlockedState Connection Bbr PreviousCanSendState)
  else
    let PrevInflightBytes := BytesInFlight Bbr in
    let Bbr := set_BytesInFlight
                 (u32 (BytesInFlight Bbr - Ack.NumRetransmittableBytes AckEvent)) Bbr in
    let Bbr := AckUpdateMinRtt Bbr AckEvent in
    let '(Bbr, NewRoundTrip) := AckUpdateRoundTrip Bbr AckEvent in
    let LastAckedPacketAppLimited :=
      match Ack.AckedPackets AckEvent with
      | [] => false
      | _ :: _ => Ack.IsLargestAckedPacketAppLimited AckEvent
      end in
    let Bbr := set_BandwidthFilter
                 (BbrBandwidthFilterOnPacketAcked
                    (BandwidthFilter Bbr) AckEvent (RoundTripCounter Bbr)) Bbr in
    let Bbr := AckTrackRecentDeliveryRate Bbr AckEvent (Ack.AckedPackets AckEvent) in
    let Bbr := AckUpdateRecovery Connection Bbr AckEvent NewRoundTrip in
    let Bbr := fst (BbrCongestionControlUpdateAckAggregation Bbr AckEvent) in
    let Bbr := AckAdvancePacingGainCycle Bbr AckEvent PrevInflightBytes in
    let Bbr := AckCheckStartupExit Bbr NewRoundTrip LastAckedPacketAppLimited in
    let Bbr := AckTransitions Connection Bbr AckEvent NewRoundTrip RandomValue in
    let Bbr :=
      BbrCongestionControlUpdateCongestionWindow Connection Bbr
        (Ack.NumTotalAckedRetransmittableBytes AckEvent)
        (Ack.NumRetransmittableBytes AckEvent) in
    (Bbr, BbrCongestionControlUpdateBlockedState Connection Bbr PreviousCanSendState).

(** ** Loss, app-limited marking, reset and initialisation *)

(** [BbrCongestionControlOnDataLost]; the debug assertions of lines 1154
    and 1159 compute nothing and are hypotheses of the theorems that need
    them. *)
Definition BbrCongestionControlOnDataLost
  (Connection : QUIC_CONNECTION) (Bbr : QUIC_CONGESTION_CONTROL_BBR)
  (LossEvent : Loss.QUIC_LOSS_EVENT) : QUIC_CONGESTION_CONTROL_BBR :=
  let Bbr := set_EndOfRecoveryValid true Bbr in
  let Bbr := set_EndOfRecovery (Loss.LargestSentPacketNumber LossEvent) Bbr in
  let Bbr := set_BytesInFlight
               (u32 (BytesInFlight Bbr - Loss.NumRetransmittableBytes LossEvent)) Bbr in
  let RecoveryWindow' := RecoveryWindow Bbr in
  let MinCongestionWindow' := MinCongestionWindow Connection in
  let '(Bbr, RecoveryWindow') :=
    if negb (BbrCongestionControlInRecovery Bbr) then
      let Bbr := set_RecoveryState RECOVERY_STATE_CONSERVATIVE Bbr in
      let RecoveryWindow' := BytesInFlight Bbr in
      let RecoveryWindow' := CXPLAT_MAX RecoveryWindow' MinCongestionWindow' in
      let Bbr := set_EndOfRoundTripValid true Bbr in
      let Bbr := set_EndOfRoundTrip (Loss.LargestSentPacketNumber LossEvent) Bbr in
      (Bbr, RecoveryWindow')
    else (Bbr, RecoveryWindow') in
  if Loss.PersistentCongestion LossEvent then
    set_RecoveryWindow MinCongestionWindow' Bbr
  else
    set_RecoveryWindow
      (if RecoveryWindow'
          >? u32 (Loss.NumRetransmittableBytes LossEvent + MinCongestionWindow')
       then u32 (RecoveryWindow' - Loss.NumRetransmittableBytes LossEvent)
       else MinCongestionWindow') Bbr.

(** [BbrCongestionControlOnSpuriousCongestionEvent] *)
Definition BbrCongestionControlOnSpuriousCongestionEvent
  (Bbr : QUIC_CONGESTION_CONTROL_BBR) : bool := false.

(** [BbrCongestionControlSetAppLimited] *)
Definition BbrCongestionControlSetAppLimited
  (Connection : QUIC_CONNECTION) (Bbr : QUIC_CONGESTION_CONTROL_BBR)
  : QUIC_CONGESTION_CONTROL_BBR :=
  let LargestSentPacketNumber' := LargestSentPacketNumber Connection in
  if BytesInFlight Bbr >? BbrCongestionControlGetCongestionWindow Connection Bbr then Bbr
  else
    let Bbr := set_BandwidthFilter (set_AppLimited true (BandwidthFilter Bbr)) Bbr in
    set_BandwidthFilter
      (set_AppLimitedExitTarget LargestSentPacketNumber' (BandwidthFilter Bbr)) Bbr.

(** [BbrCongestionControlReset]; [TimeUs1] and [TimeUs2] are the two readings
    of [CxPlatTimeUs64()]. *)
Definition BbrCongestionControlReset
  (Connection : QUIC_CONNECTION) (Bbr : QUIC_CONGESTION_CONTROL_BBR)
  (FullReset : bool) (TimeUs1 TimeUs2 : Z) : QUIC_CONGESTION_CONTROL_BBR :=
  let DatagramPayloadLength := DatagramPayloadSize Connection in
  let Bbr := set_CongestionWindow
               (u32 (InitialCongestionWindowPackets Bbr * DatagramPayloadLength)) Bbr in
  let Bbr := set_InitialCongestionWindow
               (u32 (InitialCongestionWindowPackets Bbr * DatagramPayloadLength)) Bbr in
  let Bbr := set_RecoveryWindow (u32 (kDefaultRecoveryCwndInMss * DatagramPayloadLength)) Bbr in
  let Bbr := set_BytesInFlightMax (CongestionWindow Bbr / 2) Bbr in
  let Bbr := if FullReset then set_BytesInFlight 0 Bbr else Bbr in
  let Bbr := set_Exemptions 0 Bbr in
  let Bbr := set_RecoveryState RECOVERY_STATE_NOT_RECOVERY Bbr in
  let Bbr := set_BbrState BBR_STATE_STARTUP Bbr in
  let Bbr := set_RoundTripCounter 0 Bbr in
  let Bbr := set_CwndGain kHighGain Bbr in
  let Bbr := set_PacingGain kHighGain Bbr in
  let Bbr := set_BtlbwFound false Bbr in
  let Bbr := set_SendQuantum 0 Bbr in
  let Bbr := set_SlowStartupRoundCounter 0 Bbr in
  let Bbr := set_PacingCycleIndex 0 Bbr in
  let Bbr := set_AggregatedAckBytes 0 Bbr in
  let Bbr := set_ExitingQuiescence false Bbr in
  let Bbr := set_LastEstimatedStartupBandwidth 0 Bbr in
  let Bbr := set_AckAggregationStartTimeValid false Bbr in
  let Bbr := set_AckAggregationStartTime TimeUs1 Bbr in
  let Bbr := set_CycleStart 0 Bbr in
  let Bbr := set_EndOfRecoveryValid false Bbr in
  let Bbr := set_EndOfRecovery 0 Bbr in
  let Bbr := set_ProbeRttRoundValid false Bbr in
  let Bbr := set_ProbeRttRound 0 Bbr in
  let Bbr := set_EndOfRoundTripValid false Bbr in
  let Bbr := set_EndOfRoundTrip 0 Bbr in
  let Bbr := set_ProbeRttEndTimeValid false Bbr in
  let Bbr := set_ProbeRttEndTime TimeUs2 Bbr in
  let Bbr := set_RttSampleExpired true Bbr in
  let Bbr := set_MinRttTimestampValid false Bbr in
  let Bbr := set_MinRtt UINT64_MAX Bbr in
  let Bbr := set_MinRttTimestamp 0 Bbr in
  let Bbr := set_RecentSendRate 0 Bbr in
  let Bbr := set_RecentAckRate 0 Bbr in
  let Bbr := set_RecentDeliveryRate 0 Bbr in
  let Bbr := set_MaxAckHeightFilter
               (QuicSlidingWindowExtremumReset (MaxAckHeightFilter Bbr)) Bbr in
  let Bbr := set_BandwidthFilter
               (set_WindowedMaxFilter
                  (QuicSlidingWindowExtremumReset (WindowedMaxFilter (BandwidthFilter Bbr)))
                  (BandwidthFilter Bbr)) Bbr in
  let Bbr := set_BandwidthFilter (set_AppLimited false (BandwidthFilter Bbr)) Bbr in
  set_BandwidthFilter (set_AppLimitedExitTarget 0 (BandwidthFilter Bbr)) Bbr.

(** [BbrCongestionControlInitialize]; [TimeUs] is the reading of
    [CxPlatTimeUs64()].  The three [Recent*Rate] fields are not assigned by
    the function: they keep the zero of [*Cc = QuicCongestionControlBbr]. *)
Definition BbrCongestionControlInitialize
  (Connection : QUIC_CONNECTION) (Settings : QUIC_SETTINGS_INTERNAL) (TimeUs : Z)
  : QUIC_CONGESTION_CONTROL_BBR :=
  let DatagramPayloadLength := DatagramPayloadSize Connection in
  let InitialCongestionWindowPackets' := InitialWindowPackets Settings in
  let CongestionWindow' := u32 (InitialCongestionWindowPackets' * DatagramPayloadLength) in
  {| InitialCongestionWindowPackets := InitialCongestionWindowPackets';
     CongestionWindow := CongestionWindow';
     InitialCongestionWindow := u32 (InitialCongestionWindowPackets' * DatagramPayloadLength);
     RecoveryWindow := u32 (kDefaultRecoveryCwndInMss * DatagramPayloadLength);
     BytesInFlightMax := CongestionWindow' / 2;
     BytesInFlight := 0;
     Exemptions := 0;
     RecoveryState := RECOVERY_STATE_NOT_RECOVERY;
     BbrState := BBR_STATE_STARTUP;
     RoundTripCounter := 0;
     CwndGain := kHighGain;
     PacingGain := kHighGain;
     BtlbwFound := false;
     SendQuantum := 0;
     SlowStartupRoundCounter := 0;
     PacingCycleIndex := 0;
     AggregatedAckBytes := 0;
     ExitingQuiescence := false;
     LastEstimatedStartupBandwidth := 0;
     CycleStart := 0;
     AckAggregationStartTimeValid := false;
     AckAggregationStartTime := TimeUs;
     EndOfRecoveryValid := false;
     EndOfRecovery := 0;
     ProbeRttRoundValid := false;
     ProbeRttRound := 0;
     EndOfRoundTripValid := false;
     EndOfRoundTrip := 0;
     ProbeRttEndTimeValid := false;
     ProbeRttEndTime := 0;
     RttSampleExpired := true;
     MinRttTimestampValid := false;
     MinRtt := UINT64_MAX;
     MinRttTimestamp := 0;
     MaxAckHeightFilter :=
       QuicSlidingWindowExtremumInitialize
         kBbrMaxAckHeightFilterLen kBbrDefaultFilterCapacity;
     BandwidthFilter :=
       {| WindowedMaxFilter :=
            QuicSlidingWindowExtremumInitialize
              kBbrMaxBandwidthFilterLen kBbrDefaultFilterCapacity;
          AppLimited := false;
          AppLimitedExitTarget := 0 |};
     RecentSendRate := 0;
     RecentAckRate := 0;
     RecentDeliveryRate := 0;
     RecentSendDelay := 0;
     RecentAckDelay := 0 |}.

(** ** The controller as a transition system

    The operations of the [QuicCongestionControlBbr] table that change the
    state, as events.  An acknowledgement carries the random value its ProbeBW
    entry would draw, a reset the two clock readings, and [SetAppLimited] the
    largest packet number sent at that time. *)

Inductive BBR_EVENT : Type :=
| EvSetExemption (NumPackets : Z)
| EvDataSent (NumRetransmittableBytes : Z)
| EvDataInvalidated (NumRetransmittableBytes : Z)
| EvDataAcknowledged (AckEvent : Ack.QUIC_ACK_EVENT) (RandomValue : Z)
| EvDataLost (LossEvent : Loss.QUIC_LOSS_EVENT)
| EvSpuriousCongestionEvent
| EvSetAppLimited (LargestSent : Z)
| EvReset (FullReset : bool) (TimeUs1 TimeUs2 : Z).

Definition BbrStep
  (Connection : QUIC_CONNECTION) (Bbr : QUIC_CONGESTION_CONTROL_BBR) (ev : BBR_EVENT)
  : QUIC_CONGESTION_CONTROL_BBR :=
  match ev with
  | EvSetExemption n => BbrCongestionControlSetExemption Bbr n
  | EvDataSent n => BbrCongestionControlOnDataSent Bbr n
  | EvDataInvalidated n => fst (BbrCongestionControlOnDataInvalidated Connection Bbr n)
  | EvDataAcknowledged AckEvent RandomValue =>
      fst (BbrCongestionControlOnDataAcknowledged Connection Bbr AckEvent RandomValue)
  | EvDataLost LossEvent => BbrCongestionControlOnDataLost Connection Bbr LossEvent
  | EvSpuriousCongestionEvent => Bbr
  | EvSetAppLimited LargestSent =>
      BbrCongestionControlSetAppLimited
        {| DatagramPayloadSize := DatagramPayloadSize Connection;
           PacingEnabled := PacingEnabled Connection;
           NetStatsEventEnabled := NetStatsEventEnabled Connection;
           LargestSentPacketNumber := LargestSent |} Bbr
  | EvReset FullReset TimeUs1 TimeUs2 =>
      BbrCongestionControlReset Connection Bbr FullReset TimeUs1 TimeUs2
  end.

Definition BbrRun
  (Connection : QUIC_CONNECTION) (Bbr : QUIC_CONGESTION_CONTROL_BBR)
  (evs : list BBR_EVENT) : QUIC_CONGESTION_CONTROL_BBR :=
  fold_left (BbrStep Connection) evs Bbr.

(** The one condition on events that the window bounds need: the byte count
    of a loss event is non-negative and does not wrap when the minimum window
    is added to it (line 1246 adds them in 32 bits). *)
Definition EventFits (Connection : QUIC_CONNECTION) (ev : BBR_EVENT) : Prop :=
  match ev with
  | EvDataLost LossEvent =>
      0 <= Loss.NumRetransmittableBytes LossEvent
      /\ Loss.NumRetransmittableBytes LossEvent + MinCongestionWindow Connection
         <= UINT32_MAX
  | _ => True
  end.

(** The bounds that every operation maintains: the stored window and the
    recovery window are at least the minimum window, the recovery window fits
    32 bits, and the window that [Reset] would restore is at least the
    minimum window. *)
Definition WindowsBounded
  (Connection : QUIC_CONNECTION) (Bbr : QUIC_CONGESTION_CONTROL_BBR) : Prop :=
  MinCongestionWindow Connection <= CongestionWindow Bbr
  /\ MinCongestionWindow Connection <= RecoveryWindow Bbr <= UINT32_MAX
  /\ MinCongestionWindow Connection
     <= u32 (InitialCongestionWindowPackets Bbr * DatagramPayloadSize Connection).

(** Two states that agree on the three fields [WindowsBounded] reads. *)
Definition SameWindows (Bbr Bbr' : QUIC_CONGESTION_CONTROL_BBR) : Prop :=
  CongestionWindow Bbr' = CongestionWindow Bbr
  /\ RecoveryWindow Bbr' = RecoveryWindow Bbr
  /\ InitialCongestionWindowPackets Bbr' = InitialCongestionWindowPackets Bbr.

End Bbr.

Arguments BBR_BANDWIDTH_FILTER W : clear implicits.
Arguments QUIC_CONGESTION_CONTROL_BBR W : clear implicits.

(** ** A sliding-window maximum, for running the controller

    Modelled from the spec: [sliding_window_extremum.c] is not among the
    sources.  Section 4.4 describes a monotone deque of (value, time) pairs
    with a window length and a capacity: [reset] empties it; [update_max]
    pops from the back while the back value is at most the new one, pushes,
    then pops from the front while the front is older than
    [time - window_len] (strictly); the oldest entry is dropped on overflow;
    [get] yields the front entry, the maximum, or nothing. *)

Record SlidingWindowMax : Type :=
  { WindowLifetime : Z;
    WindowCapacity : Z;
    Entries : list QUIC_SLIDING_WINDOW_EXTREMUM_ENTRY }.

Fixpoint PopBackWhileAtMost (v : Z) (l : list QUIC_SLIDING_WINDOW_EXTREMUM_ENTRY)
  : list QUIC_SLIDING_WINDOW_EXTREMUM_ENTRY :=
  match l with
  | [] => []
  | e :: rest =>
      match PopBackWhileAtMost v rest with
      | [] => if Value e <=? v then [] else [e]
      | kept => e :: kept
      end
  end.

Fixpoint PopFrontWhileOlder (t : Z) (l : list QUIC_SLIDING_WINDOW_EXTREMUM_ENTRY)
  : list QUIC_SLIDING_WINDOW_EXTREMUM_ENTRY :=
  match l with
  | [] => []
  | e :: rest => if Time e <? t then PopFrontWhileOlder t rest else l
  end.

Definition SlidingWindowMaxUpdate (w : SlidingWindowMax) (v t : Z) : SlidingWindowMax :=
  let l := PopBackWhileAtMost v (Entries w) ++ [ {| Value := v; Time := t |} ] in
  let l := PopFrontWhileOlder (t - WindowLifetime w) l in
  let l := skipn (length l - Z.to_nat (WindowCapacity w)) l in
  {| WindowLifetime := WindowLifetime w;
     WindowCapacity := WindowCapacity w;
     Entries := l |}.

#[export] Instance SlidingWindowMax_ops : SlidingWindowExtremum SlidingWindowMax :=
  { QuicSlidingWindowExtremumInitialize := fun Lifetime Capacity =>
      {| WindowLifetime := Lifetime; WindowCapacity := Capacity; Entries := [] |};
    QuicSlidingWindowExtremumReset := fun w =>
      {| WindowLifetime := WindowLifetime w;
         WindowCapacity := WindowCapacity w;
         Entries := [] |};
    QuicSlidingWindowExtremumGet := fun w => hd_error (Entries w);
    QuicSlidingWindowExtremumUpdateMax := SlidingWindowMaxUpdate }.

(** A filter that also remembers, in order, every sample handed to
    [QuicSlidingWindowExtremumUpdateMax]; it behaves as the filter it wraps. *)
Record Recorded (W : Type) : Type :=
  { Wrapped : W;
    Inserted : list (Z * Z) }.

#[export] Instance Recorded_ops (W : Type) `{SlidingWindowExtremum W}
  : SlidingWindowExtremum (Recorded W) :=
  { QuicSlidingWindowExtremumInitialize := fun Lifetime Capacity =>
      {| Wrapped := QuicSlidingWindowExtremumInitialize Lifetime Capacity;
         Inserted := [] |};
    QuicSlidingWindowExtremumReset := fun w =>
      {| Wrapped := QuicSlidingWindowExtremumReset (Wrapped w);
         Inserted := Inserted w |};
    QuicSlidingWindowExtremumGet := fun w => QuicSlidingWindowExtremumGet (Wrapped w);
    QuicSlidingWindowExtremumUpdateMax := fun w v t =>
      {| Wrapped := QuicSlidingWindowExtremumUpdateMax (Wrapped w) v t;
         Inserted := Inserted w ++ [(v, t)] |} }.

(** ** The scalar Kalman filter (kalman_filter.c)

    A C [double] is an IEEE 754 binary64 number, Rocq's primitive [float]. *)

Record QUIC_KALMAN_FILTER : Type :=
  { State : float;
    Covariance : float;
    ProcessNoise : float;
    MeasurementNoise : float;
    Initialized : bool }.

(** The literal [1e-9] of [QuicKalmanFilterUpdate]: the binary64 number
    nearest to it. *)
Definition kMinCovariance : float := 0x1.12e0be826d695p-30%float.

(** [QuicKalmanFilterInitialize] *)
Definition QuicKalmanFilterInitialize
  (InitialState InitialCovariance ProcessNoise' MeasurementNoise' : float)
  : QUIC_KALMAN_FILTER :=
  {| State := InitialState;
     Covariance := InitialCovariance;
     ProcessNoise := ProcessNoise';
     MeasurementNoise := MeasurementNoise';
     Initialized := true |}.

(** [QuicKalmanFilterReset] *)
Definition QuicKalmanFilterReset (Filter : QUIC_KALMAN_FILTER) : QUIC_KALMAN_FILTER :=
  {| State := 0%float;
     Covariance := 1%float;
     ProcessNoise := ProcessNoise Filter;
     MeasurementNoise := MeasurementNoise Filter;
     Initialized := false |}.

(** [QuicKalmanFilterGetEstimate] *)
Definition QuicKalmanFilterGetEstimate (Filter : QUIC_KALMAN_FILTER) : float :=
  if negb (Initialized Filter) then 0%float else State Filter.

(** [QuicKalmanFilterUpdate] *)
Definition QuicKalmanFilterUpdate (Filter : QUIC_KALMAN_FILTER) (Measurement : float)
  : QUIC_KALMAN_FILTER :=
  if negb (Initialized Filter) then
    {| State := Measurement;
       Covariance := MeasurementNoise Filter;
       ProcessNoise := ProcessNoise Filter;
       MeasurementNoise := MeasurementNoise Filter;
       Initialized := true |}
  else
    let PredictedCovariance :=
      PrimFloat.add (Covariance Filter) (ProcessNoise Filter) in
    let KalmanGain :=
      PrimFloat.div PredictedCovariance
        (PrimFloat.add PredictedCovariance (MeasurementNoise Filter)) in
    let State' :=
      PrimFloat.add (State Filter)
        (PrimFloat.mul KalmanGain (PrimFloat.sub Measurement (State Filter))) in
    let Covariance' :=
      PrimFloat.mul (PrimFloat.sub 1%float KalmanGain) PredictedCovariance in
    {| State := State';
       Covariance :=
         if PrimFloat.ltb Covariance' kMinCovariance then kMinCovariance else Covariance';
       ProcessNoise := ProcessNoise Filter;
       MeasurementNoise := MeasurementNoise Filter;
       Initialized := true |}.

(** [QuicKalmanFilterPredict] *)
Definition QuicKalmanFilterPredict (Filter : QUIC_KALMAN_FILTER) : QUIC_KALMAN_FILTER :=
  if negb (Initialized Filter) then Filter
  else
    {| State := State Filter;
       Covariance := PrimFloat.add (Covariance Filter) (ProcessNoise Filter);
       ProcessNoise := ProcessNoise Filter;
       MeasurementNoise := MeasurementNoise Filter;
       Initialized := Initialized Filter |}.

(** ** The packet-level logger (bbr_packet_level_logging.c)

    A ring of [MaxEntries] log entries.  The lock is omitted (one caller),
    and of the console output only [PrintAll] is kept: its result is the
    list of the entries it prints, in the order it prints them. *)

Inductive BBR_PACKET_EVENT_TYPE : Type :=
| BBR_PACKET_EVENT_SENT
| BBR_PACKET_EVENT_ACKNOWLEDGED
| BBR_PACKET_EVENT_LOST
| BBR_PACKET_EVENT_SPURIOUS_LOSS
| BBR_PACKET_EVENT_STATE_CHANGE
| BBR_PACKET_EVENT_BANDWIDTH_UPDATE
| BBR_PACKET_EVENT_RTT_UPDATE
| BBR_PACKET_EVENT_CWND_UPDATE.

Inductive BBR_STATE_NAME : Type :=
| BBR_STATE_NAME_STARTUP
| BBR_STATE_NAME_DRAIN
| BBR_STATE_NAME_PROBE_BW
| BBR_STATE_NAME_PROBE_RTT.

Inductive BBR_RECOVERY_STATE_NAME : Type :=
| BBR_RECOVERY_STATE_NAME_NOT_RECOVERY
| BBR_RECOVERY_STATE_NAME_CONSERVATIVE
| BBR_RECOVERY_STATE_NAME_GROWTH.

Inductive QUIC_STATUS : Type :=
| QUIC_STATUS_SUCCESS
| QUIC_STATUS_INVALID_PARAMETER
| QUIC_STATUS_OUT_OF_MEMORY.

(** The fields of [Connection->Paths[0]] and of [Connection->Stats.Send]
    that [ExtractBbrStateInfo] reads. *)
Module Path.
Record QUIC_PATH : Type :=
  { GotFirstRttSample : bool;
    SmoothedRtt : Z;
    LatestRttSample : Z }.
End Path.

Module SendStats.
Record QUIC_SEND_STATS : Type :=
  { TotalPackets : Z;
    SuspectedLostPackets : Z }.
End SendStats.

Module Log.
Record BBR_PACKET_LOG_ENTRY : Type :=
  { Timestamp : Z;
    EventType : BBR_PACKET_EVENT_TYPE;
    PacketNumber : Z;
    PacketSize : Z;
    BbrState : BBR_STATE_NAME;
    RecoveryState : BBR_RECOVERY_STATE_NAME;
    EstimatedBandwidth : Z;
    MaxBandwidth : Z;
    DeliveryRate : Z;
    BandwidthSampleValid : bool;
    SmoothedRtt : Z;
    MinRtt : Z;
    LatestRtt : Z;
    CongestionWindow : Z;
    BytesInFlight : Z;
    BytesInFlightMax : Z;
    TotalPacketsSent : Z;
    TotalPacketsLost : Z;
    LossRate : Z;
    PacingRate : Z;
    PacingGain : Z;
    IsAppLimited : bool;
    SendQuantum : Z }.
End Log.

(** An entry of zeroed memory. *)
Definition ZeroEntry : Log.BBR_PACKET_LOG_ENTRY :=
  {| Log.Timestamp := 0;
     Log.EventType := BBR_PACKET_EVENT_SENT;
     Log.PacketNumber := 0;
     Log.PacketSize := 0;
     Log.BbrState := BBR_STATE_NAME_STARTUP;
     Log.RecoveryState := BBR_RECOVERY_STATE_NAME_NOT_RECOVERY;
     Log.EstimatedBandwidth := 0;
     Log.MaxBandwidth := 0;
     Log.DeliveryRate := 0;
     Log.BandwidthSampleValid := false;
     Log.SmoothedRtt := 0;
     Log.MinRtt := 0;
     Log.LatestRtt := 0;
     Log.CongestionWindow := 0;
     Log.BytesInFlight := 0;
     Log.BytesInFlightMax := 0;
     Log.TotalPacketsSent := 0;
     Log.TotalPacketsLost := 0;
     Log.LossRate := 0;
     Log.PacingRate := 0;
     Log.PacingGain := 0;
     Log.IsAppLimited := false;
     Log.SendQuantum := 0 |}.

(** [BBR_PACKET_LOGGER]; [Entries] is [None] for a NULL array. *)
Module Logger.
Record BBR_PACKET_LOGGER : Type :=
  { Enabled : bool;
    MaxEntries : Z;
    CurrentIndex : Z;
    TotalEntries : Z;
    Entries : option (list Log.BBR_PACKET_LOG_ENTRY) }.
End Logger.

(** The file's static configuration variables. *)
Record LOG_GLOBALS : Type :=
  { g_LogSamplingRate : Z;
    g_EnableConsoleOutput : bool;
    g_PacketCounter : Z;
    g_EnablePeriodicLogging : bool;
    g_PeriodicLogInterval : Z }.

Definition BBR_PACKET_LOG_DEFAULT_MAX_ENTRIES : Z := 10000.

(** The values of the static initialisers. *)
Definition InitialLogGlobals : LOG_GLOBALS :=
  {| g_LogSamplingRate := 100;
     g_EnableConsoleOutput := false;
     g_PacketCounter := 0;
     g_EnablePeriodicLogging := true;
     g_PeriodicLogInterval := 1000 |}.

(** [Array[Index] = f(Array[Index])]; nothing is written out of range. *)
Fixpoint ArrayUpdate (E : Type) (Array : list E) (Index : nat) (f : E -> E) : list E :=
  match Array, Index with
  | [], _ => []
  | x :: rest, O => f x :: rest
  | x :: rest, S n => x :: ArrayUpdate rest n f
  end.

Section PacketLogging.

Context {W : Type} `{SlidingWindowExtremum W}.

(** What [ExtractBbrStateInfo] reaches from its [Cc] argument: the BBR
    state, and through [QuicCongestionControlGetConnection] the connection,
    its first path and its send statistics. *)
Record QUIC_CONGESTION_CONTROL : Type :=
  { Bbr : QUIC_CONGESTION_CONTROL_BBR W;
    Connection : QUIC_CONNECTION;
    Path0 : Path.QUIC_PATH;
    Send : SendStats.QUIC_SEND_STATS }.

(** [ExtractBbrStateInfo]: every field but the first four is assigned. *)
Definition ExtractBbrStateInfo
  (Cc : QUIC_CONGESTION_CONTROL) (Entry : Log.BBR_PACKET_LOG_ENTRY)
  : Log.BBR_PACKET_LOG_ENTRY :=
  let EstimatedBandwidth' := BbrCongestionControlGetBandwidth (Bbr Cc) in
  let DeliveryRate' := RecentDeliveryRate (Bbr Cc) in
  let DeliveryRate' := if DeliveryRate' =? 0 then EstimatedBandwidth' else DeliveryRate' in
  let TotalPacketsSent' := SendStats.TotalPackets (Send Cc) in
  let TotalPacketsLost' := SendStats.SuspectedLostPackets (Send Cc) in
  {| Log.Timestamp := Log.Timestamp Entry;
     Log.EventType := Log.EventType Entry;
     Log.PacketNumber := Log.PacketNumber Entry;
     Log.PacketSize := Log.PacketSize Entry;
     Log.BbrState :=
       match BbrState (Bbr Cc) with
       | BBR_STATE_STARTUP => BBR_STATE_NAME_STARTUP
       | BBR_STATE_DRAIN => BBR_STATE_NAME_DRAIN
       | BBR_STATE_PROBE_BW => BBR_STATE_NAME_PROBE_BW
       | BBR_STATE_PROBE_RTT => BBR_STATE_NAME_PROBE_RTT
       end;
     Log.RecoveryState :=
       match RecoveryState (Bbr Cc) with
       | RECOVERY_STATE_NOT_RECOVERY => BBR_RECOVERY_STATE_NAME_NOT_RECOVERY
       | RECOVERY_STATE_CONSERVATIVE => BBR_RECOVERY_STATE_NAME_CONSERVATIVE
       | RECOVERY_STATE_GROWTH => BBR_RECOVERY_STATE_NAME_GROWTH
       end;
     Log.EstimatedBandwidth := EstimatedBandwidth';
     Log.MaxBandwidth := EstimatedBandwidth';
     Log.DeliveryRate := DeliveryRate';
     Log.BandwidthSampleValid := true;
     Log.SmoothedRtt :=
       if Path.GotFirstRttSample (Path0 Cc) then Path.SmoothedRtt (Path0 Cc) else 0;
     Log.MinRtt := MinRtt (Bbr Cc);
     Log.LatestRtt :=
       if Path.GotFirstRttSample (Path0 Cc) then Path.LatestRttSample (Path0 Cc) else 0;
     Log.CongestionWindow :=
       BbrCongestionControlGetCongestionWindow (Connection Cc) (Bbr Cc);
     Log.BytesInFlight := BytesInFlight (Bbr Cc);
     Log.BytesInFlightMax := BytesInFlightMax (Bbr Cc);
     Log.TotalPacketsSent := TotalPacketsSent';
     Log.TotalPacketsLost := TotalPacketsLost';
     Log.LossRate :=
       if TotalPacketsSent' >? 0
       then u32 (u64 (TotalPacketsLost' * 10000) / TotalPacketsSent')
       else 0;
     Log.PacingRate := u64 (EstimatedBandwidth' * PacingGain (Bbr Cc)) / 256;
     Log.PacingGain := PacingGain (Bbr Cc);
     Log.IsAppLimited := BbrCongestionControlIsAppLimited (Bbr Cc);
     Log.SendQuantum := u32 (SendQuantum (Bbr Cc)) |}.

(** The four assignments each [Record] function makes before it calls
    [ExtractBbrStateInfo]. *)
Definition EntryBasic
  (Timestamp' : Z) (EventType' : BBR_PACKET_EVENT_TYPE) (PacketNumber' PacketSize' : Z)
  (Entry : Log.BBR_PACKET_LOG_ENTRY) : Log.BBR_PACKET_LOG_ENTRY :=
  {| Log.Timestamp := Timestamp';
     Log.EventType := EventType';
     Log.PacketNumber := PacketNumber';
     Log.PacketSize := PacketSize';
     Log.BbrState := Log.BbrState Entry;
     Log.RecoveryState := Log.RecoveryState Entry;
     Log.EstimatedBandwidth := Log.EstimatedBandwidth Entry;
     Log.MaxBandwidth := Log.MaxBandwidth Entry;
     Log.DeliveryRate := Log.DeliveryRate Entry;
     Log.BandwidthSampleValid := Log.BandwidthSampleValid Entry;
     Log.SmoothedRtt := Log.SmoothedRtt Entry;
     Log.MinRtt := Log.MinRtt Entry;
     Log.LatestRtt := Log.LatestRtt Entry;
     Log.CongestionWindow := Log.CongestionWindow Entry;
     Log.BytesInFlight := Log.BytesInFlight Entry;
     Log.BytesInFlightMax := Log.BytesInFlightMax Entry;
     Log.TotalPacketsSent := Log.TotalPacketsSent Entry;
     Log.TotalPacketsLost := Log.TotalPacketsLost Entry;
     Log.LossRate := Log.LossRate Entry;
     Log.PacingRate := Log.PacingRate Entry;
     Log.PacingGain := Log.PacingGain Entry;
     Log.IsAppLimited := Log.IsAppLimited Entry;
     Log.SendQuantum := Log.SendQuantum Entry |}.

(** [BbrPacketLevelLoggingInitialize]; [Logger] is [None] for a NULL
    pointer and [AllocSucceeds] tells whether [CxPlatAlloc] returns memory. *)
Definition BbrPacketLevelLoggingInitialize
  (Logger : option Logger.BBR_PACKET_LOGGER) (MaxEntries' : Z) (AllocSucceeds : bool)
  : QUIC_STATUS * option Logger.BBR_PACKET_LOGGER :=
  match Logger with
  | None => (QUIC_STATUS_INVALID_PARAMETER, None)
  | Some _ =>
      let MaxEntries' :=
        if MaxEntries' =? 0 then BBR_PACKET_LOG_DEFAULT_MAX_ENTRIES else MaxEntries' in
      if negb AllocSucceeds then
        (QUIC_STATUS_OUT_OF_MEMORY,
         Some {| Logger.Enabled := false; Logger.MaxEntries := 0; Logger.CurrentIndex := 0;
                 Logger.TotalEntries := 0; Logger.Entries := None |})
      else
        (QUIC_STATUS_SUCCESS,
         Some {| Logger.Enabled := true;
                 Logger.MaxEntries := MaxEntries';
                 Logger.CurrentIndex := 0;
                 Logger.TotalEntries := 0;
                 Logger.Entries := Some (repeat ZeroEntry (Z.to_nat MaxEntries')) |})
  end.

(** [BbrPacketLevelLoggingCleanup] *)
Definition BbrPacketLevelLoggingCleanup
  (Logger : option Logger.BBR_PACKET_LOGGER) : option Logger.BBR_PACKET_LOGGER :=
  match Logger with
  | None => None
  | Some _ =>
      Some {| Logger.Enabled := false; Logger.MaxEntries := 0; Logger.CurrentIndex := 0;
              Logger.TotalEntries := 0; Logger.Entries := None |}
  end.

(** [BbrPacketLevelLoggingSetSamplingRate], [...SetConsoleOutput],
    [...SetPeriodicLogging] *)
Definition BbrPacketLevelLoggingSetSamplingRate
  (g : LOG_GLOBALS) (SamplingRate : Z) : LOG_GLOBALS :=
  {| g_LogSamplingRate := SamplingRate;
     g_EnableConsoleOutput := g_EnableConsoleOutput g;
     g_PacketCounter := g_PacketCounter g;
     g_EnablePeriodicLogging := g_EnablePeriodicLogging g;
     g_PeriodicLogInterval := g_PeriodicLogInterval g |}.

Definition BbrPacketLevelLoggingSetConsoleOutput
  (g : LOG_GLOBALS) (EnableConsoleOutput : bool) : LOG_GLOBALS :=
  {| g_LogSamplingRate := g_LogSamplingRate g;
     g_EnableConsoleOutput := EnableConsoleOutput;
     g_PacketCounter := g_PacketCounter g;
     g_EnablePeriodicLogging := g_EnablePeriodicLogging g;
     g_PeriodicLogInterval := g_PeriodicLogInterval g |}.

Definition BbrPacketLevelLoggingSetPeriodicLogging
  (g : LOG_GLOBALS) (EnablePeriodicLogging : bool) (IntervalPackets : Z) : LOG_GLOBALS :=
  {| g_LogSamplingRate := g_LogSamplingRate g;
     g_EnableConsoleOutput := g_EnableConsoleOutput g;
     g_PacketCounter := g_PacketCounter g;
     g_EnablePeriodicLogging := EnablePeriodicLogging;
     g_PeriodicLogInterval := IntervalPackets |}.

(** [ShouldLogPacket]: counts the call, then tests the counter.  With
    [g_LogSamplingRate = 0] line 248 divides by zero and the program stops
    there; the model is meant for rates above 0 only, and the properties
    of record calls that reach this function are stated for such rates. *)
Definition ShouldLogPacket (g : LOG_GLOBALS) : LOG_GLOBALS * bool :=
  let Counter := u32 (g_PacketCounter g + 1) in
  ({| g_LogSamplingRate := g_LogSamplingRate g;
      g_EnableConsoleOutput := g_EnableConsoleOutput g;
      g_PacketCounter := Counter;
      g_EnablePeriodicLogging := g_EnablePeriodicLogging g;
      g_PeriodicLogInterval := g_PeriodicLogInterval g |},
   Counter mod g_LogSamplingRate g =? 0).

(** The body shared by the four [Record] functions: the guard, the sampling
    test, the write of [Entries[CurrentIndex]] (by [Fill]) and the update of
    the two indices. *)
Definition LogRecord
  (g : LOG_GLOBALS) (Logger : option Logger.BBR_PACKET_LOGGER)
  (Fill : Log.BBR_PACKET_LOG_ENTRY -> Log.BBR_PACKET_LOG_ENTRY)
  : LOG_GLOBALS * option Logger.BBR_PACKET_LOGGER :=
  match Logger with
  | None => (g, Logger)
  | Some L =>
      match Logger.Entries L with
      | None => (g, Logger)
      | Some Array =>
          if negb (Logger.Enabled L) then (g, Logger)
          else
            let '(g, Should) := ShouldLogPacket g in
            if negb Should then (g, Logger)
            else
              (g,
               Some {| Logger.Enabled := Logger.Enabled L;
                       Logger.MaxEntries := Logger.MaxEntries L;
                       Logger.CurrentIndex :=
                         u32 (Logger.CurrentIndex L + 1) mod Logger.MaxEntries L;
                       Logger.TotalEntries :=
                         if Logger.TotalEntries L <? Logger.MaxEntries L
                         then u32 (Logger.TotalEntries L + 1) else Logger.TotalEntries L;
                       Logger.Entries :=
                         Some (ArrayUpdate Array (Z.to_nat (Logger.CurrentIndex L)) Fill) |})
      end
  end.

(** [BbrPacketLevelLoggingRecordPacketSent]; [TimeUs] is the reading of
    [CxPlatTimeUs64()]. *)
Definition BbrPacketLevelLoggingRecordPacketSent
  (g : LOG_GLOBALS) (Logger : option Logger.BBR_PACKET_LOGGER) (Cc : QUIC_CONGESTION_CONTROL)
  (PacketNumber PacketSize TimeUs : Z) : LOG_GLOBALS * option Logger.BBR_PACKET_LOGGER :=
  LogRecord g Logger
    (fun Entry =>
       ExtractBbrStateInfo Cc
         (EntryBasic TimeUs BBR_PACKET_EVENT_SENT PacketNumber PacketSize Entry)).

(** [BbrPacketLevelLoggingRecordPacketAcknowledged] *)
Definition BbrPacketLevelLoggingRecordPacketAcknowledged
  (g : LOG_GLOBALS) (Logger : option Logger.BBR_PACKET_LOGGER) (Cc : QUIC_CONGESTION_CONTROL)
  (PacketNumber PacketSize AckTime : Z) : LOG_GLOBALS * option Logger.BBR_PACKET_LOGGER :=
  LogRecord g Logger
    (fun Entry =>
       ExtractBbrStateInfo Cc
         (EntryBasic AckTime BBR_PACKET_EVENT_ACKNOWLEDGED PacketNumber PacketSize Entry)).

(** [BbrPacketLevelLoggingRecordPacketLost] *)
Definition BbrPacketLevelLoggingRecordPacketLost
  (g : LOG_GLOBALS) (Logger : option Logger.BBR_PACKET_LOGGER) (Cc : QUIC_CONGESTION_CONTROL)
  (PacketNumber PacketSize TimeUs : Z) : LOG_GLOBALS * option Logger.BBR_PACKET_LOGGER :=
  LogRecord g Logger
    (fun Entry =>
       ExtractBbrStateInfo Cc
         (EntryBasic TimeUs BBR_PACKET_EVENT_LOST PacketNumber PacketSize Entry)).

(** [BbrPacketLevelLoggingRecordStateChange]; the two states are only
    printed. *)
Definition BbrPacketLevelLoggingRecordStateChange
  (g : LOG_GLOBALS) (Logger : option Logger.BBR_PACKET_LOGGER) (Cc : QUIC_CONGESTION_CONTROL)
  (OldState NewState : BBR_STATE_NAME) (TimeUs : Z)
  : LOG_GLOBALS * option Logger.BBR_PACKET_LOGGER :=
  LogRecord g Logger
    (fun Entry =>
       ExtractBbrStateInfo Cc (EntryBasic TimeUs BBR_PACKET_EVENT_STATE_CHANGE 0 0 Entry)).

(** [BbrPacketLevelLoggingPrintAll]: the entries printed between the header
    and the footer, [None] when it prints that the logger is not initialized
    or disabled. *)
Definition BbrPacketLevelLoggingPrintAll
  (Logger : option Logger.BBR_PACKET_LOGGER) : option (list Log.BBR_PACKET_LOG_ENTRY) :=
  match Logger with
  | None => None
  | Some L =>
      match Logger.Entries L with
      | None => None
      | Some Array =>
          if negb (Logger.Enabled L) then None
          else
            let StartIndex :=
              if Logger.TotalEntries L =? Logger.MaxEntries L then Logger.CurrentIndex L else 0 in
            let Count := Logger.TotalEntries L in
            Some (map (fun i : nat =>
                         let Index := u32 (StartIndex + Z.of_nat i) mod Logger.MaxEntries L in
                         nth (Z.to_nat Index) Array ZeroEntry)
                      (seq 0 (Z.to_nat Count)))
      end
  end.

(** [BbrPacketLevelLoggingGetStats]: the two values written through the
    output pointers. *)
Definition BbrPacketLevelLoggingGetStats
  (Logger : option Logger.BBR_PACKET_LOGGER) : option (Z * Z) :=
  match Logger with
  | None => None
  | Some L => Some (Logger.TotalEntries L, Logger.CurrentIndex L)
  end.

(** [BbrPacketLevelLoggingClear] *)
Definition BbrPacketLevelLoggingClear
  (Logger : option Logger.BBR_PACKET_LOGGER) : option Logger.BBR_PACKET_LOGGER :=
  match Logger with
  | None => None
  | Some L =>
      match Logger.Entries L with
      | None => Logger
      | Some Array =>
          Some {| Logger.Enabled := Logger.Enabled L;
                  Logger.MaxEntries := Logger.MaxEntries L;
                  Logger.CurrentIndex := 0;
                  Logger.TotalEntries := 0;
                  Logger.Entries := Some (repeat ZeroEntry (Z.to_nat (Logger.MaxEntries L))) |}
      end
  end.

End PacketLogging.

Arguments QUIC_CONGESTION_CONTROL W : clear implicits.

(** * Properties *)

Unset Implicit Arguments.

(** Keep products such as [2000 * DatagramPayloadSize] folded under [cbn]. *)
Local Arguments Z.mul : simpl never.

(** ** Arithmetic helpers *)

Lemma u32_range (x : Z) : 0 <= u32 x <= UINT32_MAX.
Proof. unfold u32, UINT32_MAX. pose proof (Z.mod_pos_bound x (2 ^ 32)). lia. Qed.

Lemma u32_small (x : Z) : is_u32 x -> u32 x = x.
Proof. unfold is_u32, UINT32_MAX, u32. intros Hx. apply Z.mod_small. lia. Qed.

Lemma u32_le (x : Z) : 0 <= x -> u32 x <= x.
Proof. unfold u32. intros Hx. apply Z.mod_le; lia. Qed.

Lemma u64_range (x : Z) : 0 <= u64 x <= UINT64_MAX.
Proof. unfold u64, UINT64_MAX. pose proof (Z.mod_pos_bound x (2 ^ 64)). lia. Qed.

Lemma u64_small (x : Z) : is_u64 x -> u64 x = x.
Proof. unfold is_u64, UINT64_MAX, u64. intros Hx. apply Z.mod_small. lia. Qed.

Lemma CXPLAT_MAX_max (a b : Z) : CXPLAT_MAX a b = Z.max a b.
Proof. unfold CXPLAT_MAX. destruct (Z.gtb_spec a b); lia. Qed.

Lemma CXPLAT_MIN_min (a b : Z) : CXPLAT_MIN a b = Z.min a b.
Proof. unfold CXPLAT_MIN. destruct (Z.ltb_spec a b); lia. Qed.

Lemma MinCongestionWindow_range (Connection : QUIC_CONNECTION) :
  is_u32 (MinCongestionWindow Connection).
Proof. unfold MinCongestionWindow, is_u32. apply u32_range. Qed.

Lemma MinCongestionWindow_payload (Connection : QUIC_CONNECTION) :
  is_u16 (DatagramPayloadSize Connection) ->
  MinCongestionWindow Connection = 4 * DatagramPayloadSize Connection.
Proof.
  unfold is_u16, UINT16_MAX, MinCongestionWindow, kMinCwndInMss. intros Hp.
  apply u32_small. unfold is_u32, UINT32_MAX. lia.
Qed.

Lemma BBR_STATE_eqb_eq (a b : BBR_STATE) : BBR_STATE_eqb a b = true <-> a = b.
Proof. destruct a, b; simpl; split; congruence. Qed.

Lemma RECOVERY_STATE_eqb_eq (a b : RECOVERY_STATE) :
  RECOVERY_STATE_eqb a b = true <-> a = b.
Proof. destruct a, b; simpl; split; congruence. Qed.

Section BbrProperties.

Context {W : Type} `{SlidingWindowExtremum W}.
Variable QUIC_SEND_PACING_INTERVAL : Z.

Local Notation "'BBR'" := (QUIC_CONGESTION_CONTROL_BBR W).

(** ** The congestion window *)

Lemma InRecovery_false (Bbr : BBR) :
  BbrCongestionControlInRecovery Bbr = false <->
  RecoveryState Bbr = RECOVERY_STATE_NOT_RECOVERY.
Proof.
  unfold BbrCongestionControlInRecovery.
  destruct (RecoveryState Bbr); simpl; split; congruence.
Qed.

(** C4: [GetCongestionWindow] depends on the state only through [BbrState],
    [RecoveryState], [CongestionWindow] and [RecoveryWindow] (and on the
    connection through the datagram payload size), and its value is: the
    minimum window [min_cwnd] in ProbeRTT, whatever the stored window and the
    recovery state are; otherwise [min(cwnd, recovery_window)] when
    [RecoveryState] is not NotRecovery; otherwise [cwnd].  [min_cwnd] is four
    datagram payloads. *)
Theorem C4_get_congestion_window_cases :
  forall (Connection : QUIC_CONNECTION) (Bbr : BBR),
    (BbrState Bbr = BBR_STATE_PROBE_RTT ->
     BbrCongestionControlGetCongestionWindow Connection Bbr
     = MinCongestionWindow Connection)
    /\ (BbrState Bbr <> BBR_STATE_PROBE_RTT ->
        RecoveryState Bbr <> RECOVERY_STATE_NOT_RECOVERY ->
        BbrCongestionControlGetCongestionWindow Connection Bbr
        = Z.min (CongestionWindow Bbr) (RecoveryWindow Bbr))
    /\ (BbrState Bbr <> BBR_STATE_PROBE_RTT ->
        RecoveryState Bbr = RECOVERY_STATE_NOT_RECOVERY ->
        BbrCongestionControlGetCongestionWindow Connection Bbr = CongestionWindow Bbr)
    /\ (is_u16 (DatagramPayloadSize Connection) ->
        MinCongestionWindow Connection = 4 * DatagramPayloadSize Connection)
    /\ (forall (Connection' : QUIC_CONNECTION) (Bbr' : BBR),
        DatagramPayloadSize Connection' = DatagramPayloadSize Connection ->
        BbrState Bbr' = BbrState Bbr ->
        RecoveryState Bbr' = RecoveryState Bbr ->
        CongestionWindow Bbr' = CongestionWindow Bbr ->
        RecoveryWindow Bbr' = RecoveryWindow Bbr ->
        BbrCongestionControlGetCongestionWindow Connection' Bbr'
        = BbrCongestionControlGetCongestionWindow Connection Bbr).
Proof.
  intros Connection Bbr.
  unfold BbrCongestionControlGetCongestionWindow, BbrCongestionControlInRecovery.
  repeat split.
  - intros ->. reflexivity.
  - intros Hs Hr. rewrite CXPLAT_MIN_min.
    destruct (BbrState Bbr); try congruence;
      destruct (RecoveryState Bbr); try congruence; reflexivity.
  - intros Hs ->. destruct (BbrState Bbr); try congruence; reflexivity.
  - apply MinCongestionWindow_payload.
  - intros Connection' Bbr' Hp Hs Hr Hc Hw.
    unfold MinCongestionWindow. rewrite Hp, Hs, Hr, Hc, Hw. reflexivity.
Qed.

(** ** Send allowance *)

(** What the not-pacing branch of [GetSendAllowance] returns: whenever the
    test of lines 732-735 succeeds on an unblocked sender, the whole free
    window. *)
Lemma GetSendAllowance_not_pacing :
  forall (Connection : QUIC_CONNECTION) (Bbr : BBR)
         (TimeSinceLastSend : Z) (TimeSinceLastSendValid : bool),
    0 <= BytesInFlight Bbr
      < BbrCongestionControlGetCongestionWindow Connection Bbr ->
    BbrCongestionControlGetCongestionWindow Connection Bbr <= UINT32_MAX ->
    TimeSinceLastSendValid = false
    \/ PacingEnabled Connection = false
    \/ MinRtt Bbr = UINT32_MAX
    \/ MinRtt Bbr < QUIC_SEND_PACING_INTERVAL ->
    BbrCongestionControlGetSendAllowance QUIC_SEND_PACING_INTERVAL
      Connection Bbr TimeSinceLastSend TimeSinceLastSendValid
    = BbrCongestionControlGetCongestionWindow Connection Bbr - BytesInFlight Bbr.
Proof.
  intros Connection Bbr t valid Hb Hc Hguard.
  unfold BbrCongestionControlGetSendAllowance.
  destruct (Z.geb_spec (BytesInFlight Bbr)
              (BbrCongestionControlGetCongestionWindow Connection Bbr)); [lia|].
  assert (Hg : negb valid || negb (PacingEnabled Connection)
               || (MinRtt Bbr =? UINT32_MAX)
               || (MinRtt Bbr <? QUIC_SEND_PACING_INTERVAL) = true).
  { destruct Hguard as [-> | [-> | [Hm | Hm]]].
    - reflexivity.
    - rewrite orb_true_r. reflexivity.
    - apply Z.eqb_eq in Hm. rewrite Hm, orb_true_r. reflexivity.
    - apply Z.ltb_lt in Hm. rewrite Hm, orb_true_r. reflexivity. }
  rewrite Hg. apply u32_small. unfold is_u32. lia.
Qed.

(** With [MinRtt] at its unset value [UINT64_MAX], pacing enabled and a valid
    time since the last send, the test of lines 732-735 fails whatever the
    pacing interval is, and the allowance is capped at a quarter of the
    window. *)
Lemma GetSendAllowance_unset_min_rtt :
  forall (Connection : QUIC_CONNECTION) (Bbr : BBR) (TimeSinceLastSend : Z),
    PacingEnabled Connection = true ->
    MinRtt Bbr = UINT64_MAX ->
    QUIC_SEND_PACING_INTERVAL <= UINT64_MAX ->
    BytesInFlight Bbr < BbrCongestionControlGetCongestionWindow Connection Bbr ->
    BbrCongestionControlGetSendAllowance QUIC_SEND_PACING_INTERVAL
      Connection Bbr TimeSinceLastSend true
    <= Z.shiftr (BbrCongestionControlGetCongestionWindow Connection Bbr) 2.
Proof.
  intros Connection Bbr t Hpacing Hunset Hinterval Hfree.
  unfold BbrCongestionControlGetSendAllowance.
  destruct (Z.geb_spec (BytesInFlight Bbr)
              (BbrCongestionControlGetCongestionWindow Connection Bbr)); [lia|].
  rewrite Hpacing, Hunset.
  replace (UINT64_MAX =? UINT32_MAX) with false by reflexivity.
  replace (UINT64_MAX <? QUIC_SEND_PACING_INTERVAL) with false
    by (symmetry; apply Z.ltb_ge; exact Hinterval).
  cbn [negb orb].
  match goal with
  | |- (if ?x >? ?y then _ else _) <= _ => destruct (Z.gtb_spec x y); lia
  end.
Qed.

(** C10: [GetSendAllowance] returns 0 when [bytes_in_flight] has reached the
    congestion window; otherwise what it returns, added to [bytes_in_flight],
    does not exceed the congestion window (and is not negative when
    [bytes_in_flight] is not).  This holds for every state, every
    [TimeSinceLastSend], either validity flag and either pacing setting. *)
Theorem C10_send_allowance_within_window :
  forall (Connection : QUIC_CONNECTION) (Bbr : BBR)
         (TimeSinceLastSend : Z) (TimeSinceLastSendValid : bool),
    (BytesInFlight Bbr >= BbrCongestionControlGetCongestionWindow Connection Bbr ->
     BbrCongestionControlGetSendAllowance QUIC_SEND_PACING_INTERVAL
       Connection Bbr TimeSinceLastSend TimeSinceLastSendValid = 0)
    /\ (BytesInFlight Bbr < BbrCongestionControlGetCongestionWindow Connection Bbr ->
        BbrCongestionControlGetSendAllowance QUIC_SEND_PACING_INTERVAL
          Connection Bbr TimeSinceLastSend TimeSinceLastSendValid
        <= BbrCongestionControlGetCongestionWindow Connection Bbr - BytesInFlight Bbr)
    /\ (0 <= BytesInFlight Bbr ->
        0 <= BbrCongestionControlGetSendAllowance QUIC_SEND_PACING_INTERVAL
               Connection Bbr TimeSinceLastSend TimeSinceLastSendValid).
Proof.
  intros Connection Bbr t valid.
  unfold BbrCongestionControlGetSendAllowance.
  set (cwnd := BbrCongestionControlGetCongestionWindow Connection Bbr).
  set (bw := BbrCongestionControlGetBandwidth Bbr).
  destruct (Z.geb_spec (BytesInFlight Bbr) cwnd) as [Hblocked | Hfree].
  - repeat split; intros; lia.
  - pose proof (u32_le (cwnd - BytesInFlight Bbr) ltac:(lia)) as Hle.
    pose proof (u32_range (cwnd - BytesInFlight Bbr)) as Hfreew.
    destruct (negb valid || negb (PacingEnabled Connection)
              || (MinRtt Bbr =? UINT32_MAX)
              || (MinRtt Bbr <? QUIC_SEND_PACING_INTERVAL)).
    + repeat split; intros; lia.
    + match goal with
      | |- context [if ?c then u32 (CXPLAT_MAX ?a ?b) else u32 ?d] =>
          set (paced := if c then u32 (CXPLAT_MAX a b) else u32 d)
      end.
      assert (Hpaced : 0 <= paced).
      { subst paced.
        destruct (BBR_STATE_eqb (BbrState Bbr) BBR_STATE_STARTUP); apply u32_range. }
      pose proof (Z.shiftr_nonneg cwnd 2) as Hshift.
      destruct (Z.gtb_spec paced (u32 (cwnd - BytesInFlight Bbr)));
        match goal with
        | |- context [if ?x >? Z.shiftr cwnd 2 then _ else _] =>
            destruct (Z.gtb_spec x (Z.shiftr cwnd 2))
        end; repeat split; intros; lia.
Qed.

(** ** Implicit acknowledgements *)

(** [UpdateCongestionWindow] assigns [SendQuantum] and [CongestionWindow]
    and nothing else. *)
Lemma UpdateCongestionWindow_assigns :
  forall (Connection : QUIC_CONNECTION) (Bbr : BBR) (TotalBytesAcked AckedBytes : Z),
    let Bbr' := BbrCongestionControlUpdateCongestionWindow
                  Connection Bbr TotalBytesAcked AckedBytes in
    Bbr' = set_CongestionWindow (CongestionWindow Bbr')
             (set_SendQuantum (SendQuantum Bbr') Bbr).
Proof.
  intros Connection Bbr total acked.
  unfold BbrCongestionControlUpdateCongestionWindow.
  destruct (BBR_STATE_eqb (BbrState Bbr) BBR_STATE_PROBE_RTT).
  - destruct Bbr; reflexivity.
  - unfold BbrCongestionControlSetSendQuantum.
    repeat match goal with
           | |- context [if ?c then set_SendQuantum _ _ else _] => destruct c
           end; destruct Bbr; reflexivity.
Qed.

(** C8: an acknowledgement with [IsImplicit] set runs the window update
    (with the send-quantum recomputation inside it) and the blocked-state
    report, and nothing else: the new state is the result of
    [UpdateCongestionWindow], the returned flag is the blocked-state report
    against the sendability before the call, only [CongestionWindow] and
    [SendQuantum] can differ from the old state, and so [BytesInFlight],
    [MinRtt] and its timestamp, [RoundTripCounter], [RecoveryState],
    [RecoveryWindow], [BbrState], [PacingGain], the bandwidth filter and the
    ack-aggregation filter and counters are unchanged. *)
Theorem C8_implicit_ack_only_updates_cwnd :
  forall (Connection : QUIC_CONNECTION) (Bbr : BBR)
         (AckEvent : Ack.QUIC_ACK_EVENT) (RandomValue : Z),
    Ack.IsImplicit AckEvent = true ->
    let result := BbrCongestionControlOnDataAcknowledged
                    Connection Bbr AckEvent RandomValue in
    let Bbr' := fst result in
    Bbr' = BbrCongestionControlUpdateCongestionWindow Connection Bbr
             (Ack.NumTotalAckedRetransmittableBytes AckEvent)
             (Ack.NumRetransmittableBytes AckEvent)
    /\ snd result = BbrCongestionControlUpdateBlockedState Connection Bbr'
                      (BbrCongestionControlCanSend Connection Bbr)
    /\ Bbr' = set_CongestionWindow (CongestionWindow Bbr')
                (set_SendQuantum (SendQuantum Bbr') Bbr)
    /\ BytesInFlight Bbr' = BytesInFlight Bbr
    /\ MinRtt Bbr' = MinRtt Bbr
    /\ MinRttTimestamp Bbr' = MinRttTimestamp Bbr
    /\ MinRttTimestampValid Bbr' = MinRttTimestampValid Bbr
    /\ RoundTripCounter Bbr' = RoundTripCounter Bbr
    /\ RecoveryState Bbr' = RecoveryState Bbr
    /\ RecoveryWindow Bbr' = RecoveryWindow Bbr
    /\ BbrState Bbr' = BbrState Bbr
    /\ PacingGain Bbr' = PacingGain Bbr
    /\ BandwidthFilter Bbr' = BandwidthFilter Bbr
    /\ MaxAckHeightFilter Bbr' = MaxAckHeightFilter Bbr
    /\ AggregatedAckBytes Bbr' = AggregatedAckBytes Bbr
    /\ AckAggregationStartTime Bbr' = AckAggregationStartTime Bbr
    /\ AckAggregationStartTimeValid Bbr' = AckAggregationStartTimeValid Bbr.
Proof.
  intros Connection Bbr AckEvent RandomValue Himplicit result Bbr'.
  assert (Hrun : result
                 = (BbrCongestionControlUpdateCongestionWindow Connection Bbr
                      (Ack.NumTotalAckedRetransmittableBytes AckEvent)
                      (Ack.NumRetransmittableBytes AckEvent),
                    BbrCongestionControlUpdateBlockedState Connection
                      (BbrCongestionControlUpdateCongestionWindow Connection Bbr
                         (Ack.NumTotalAckedRetransmittableBytes AckEvent)
                         (Ack.NumRetransmittableBytes AckEvent))
                      (BbrCongestionControlCanSend Connection Bbr))).
  { subst result. unfold BbrCongestionControlOnDataAcknowledged.
    rewrite Himplicit. reflexivity. }
  assert (Hstate : Bbr' = BbrCongestionControlUpdateCongestionWindow Connection Bbr
                            (Ack.NumTotalAckedRetransmittableBytes AckEvent)
                            (Ack.NumRetransmittableBytes AckEvent)).
  { subst Bbr'. rewrite Hrun. reflexivity. }
  pose proof (UpdateCongestionWindow_assigns Connection Bbr
                (Ack.NumTotalAckedRetransmittableBytes AckEvent)
                (Ack.NumRetransmittableBytes AckEvent)) as Hassign.
  cbv zeta in Hassign. rewrite <- Hstate in Hassign.
  split; [exact Hstate|].
  split; [rewrite Hrun, Hstate; reflexivity|].
  split; [exact Hassign|].
  rewrite Hassign. repeat split.
Qed.

(** ** Admission to the bandwidth filter *)

(** One iteration of the loop: for an acked packet of non-zero length with
    a delivery rate, the loop body hands the sample
    [(DeliveryRate, RttCounter)] to [QuicSlidingWindowExtremumUpdateMax]
    exactly when [DeliveryRate] is at least the filter's current maximum
    (0 for an empty filter) or the packet is not app-limited; an app-limited
    sample strictly below the current maximum leaves the filter as it was.
    The filter records its insertions, so "inserted" is observable. *)
Lemma BandwidthFilterOnOnePacket_admission :
  forall (b : BBR_BANDWIDTH_FILTER (Recorded W)) (AckEvent : Ack.QUIC_ACK_EVENT)
         (RttCounter : Z) (AckedPacket : Packet.QUIC_SENT_PACKET_METADATA)
         (DeliveryRate : Z),
    Packet.PacketLength AckedPacket <> 0 ->
    PacketDeliveryRate AckEvent AckedPacket = Some DeliveryRate ->
    let CurrentMax :=
      match QuicSlidingWindowExtremumGet (WindowedMaxFilter b) with
      | Some Entry => Value Entry
      | None => 0
      end in
    let b' := BbrBandwidthFilterOnOnePacket b AckEvent RttCounter AckedPacket in
    (Inserted (WindowedMaxFilter b')
     = Inserted (WindowedMaxFilter b) ++ [(DeliveryRate, RttCounter)]
     <-> DeliveryRate >= CurrentMax \/ Packet.IsAppLimited AckedPacket = false)
    /\ (DeliveryRate >= CurrentMax \/ Packet.IsAppLimited AckedPacket = false ->
        WindowedMaxFilter b'
        = QuicSlidingWindowExtremumUpdateMax (WindowedMaxFilter b) DeliveryRate RttCounter)
    /\ (DeliveryRate < CurrentMax -> Packet.IsAppLimited AckedPacket = true -> b' = b).
Proof.
  intros b AckEvent RttCounter AckedPacket DeliveryRate _ Hrate CurrentMax b'.
  subst b'. unfold BbrBandwidthFilterOnOnePacket. rewrite Hrate.
  fold CurrentMax.
  destruct (Z.geb_spec DeliveryRate CurrentMax) as [Hge | Hlt];
    destruct (Packet.IsAppLimited AckedPacket) eqn:Happ; simpl.
  - repeat split; intros; try reflexivity; lia.
  - repeat split; intros; try reflexivity; lia.
  - split; [|split].
    + split.
      * intros Hsame. exfalso.
        apply (f_equal (@length (Z * Z))) in Hsame.
        rewrite length_app in Hsame. simpl in Hsame. lia.
      * intros [Hge | Hfalse]; [lia | discriminate].
    + intros [Hge | Hfalse]; [lia | discriminate].
    + reflexivity.
  - repeat split; intros; try reflexivity; try lia; right; reflexivity.
Qed.

(** ** Entering recovery on a loss *)

(** C5 (amended): a loss event without persistent congestion that arrives
    in NotRecovery sets [RecoveryState] to Conservative, marks
    [EndOfRecovery] valid and equal to the event's largest sent packet
    number, pins [EndOfRoundTrip] to the same number, subtracts the lost
    bytes from [BytesInFlight], and leaves the recovery window at its entry
    value [max(bytes_in_flight, min_cwnd)] (with [bytes_in_flight] already
    reduced) deflated by the lost bytes and floored at [min_cwnd]:
    [max(max(bytes_in_flight, min_cwnd) - lost, min_cwnd)], when the 32-bit
    operations do not wrap. *)
Theorem C5_loss_enters_conservative_recovery :
  forall (Connection : QUIC_CONNECTION) (Bbr : BBR) (LossEvent : Loss.QUIC_LOSS_EVENT),
    RecoveryState Bbr = RECOVERY_STATE_NOT_RECOVERY ->
    Loss.PersistentCongestion LossEvent = false ->
    let Bbr' := BbrCongestionControlOnDataLost Connection Bbr LossEvent in
    let Lost := Loss.NumRetransmittableBytes LossEvent in
    RecoveryState Bbr' = RECOVERY_STATE_CONSERVATIVE
    /\ EndOfRecoveryValid Bbr' = true
    /\ EndOfRecovery Bbr' = Loss.LargestSentPacketNumber LossEvent
    /\ EndOfRoundTripValid Bbr' = true
    /\ EndOfRoundTrip Bbr' = Loss.LargestSentPacketNumber LossEvent
    /\ BytesInFlight Bbr' = u32 (BytesInFlight Bbr - Lost)
    /\ (is_u32 (BytesInFlight Bbr) ->
        0 <= Lost <= BytesInFlight Bbr ->
        Lost + MinCongestionWindow Connection <= UINT32_MAX ->
        BytesInFlight Bbr' = BytesInFlight Bbr - Lost
        /\ RecoveryWindow Bbr'
           = Z.max (Z.max (BytesInFlight Bbr') (MinCongestionWindow Connection) - Lost)
                   (MinCongestionWindow Connection)).
Proof.
  intros Connection Bbr LossEvent Hnot Hpersistent Bbr' Lost.
  subst Bbr'. unfold BbrCongestionControlOnDataLost.
  unfold BbrCongestionControlInRecovery. cbn. rewrite Hnot, Hpersistent. cbn.
  repeat (split; [reflexivity|]).
  intros Hbif Hlost Hfit. fold Lost.
  pose proof (MinCongestionWindow_range Connection) as Hmin.
  unfold is_u32, UINT32_MAX in *.
  assert (Hsub : u32 (BytesInFlight Bbr - Lost) = BytesInFlight Bbr - Lost)
    by (apply u32_small; unfold is_u32, UINT32_MAX; lia).
  rewrite Hsub. split; [reflexivity|].
  rewrite CXPLAT_MAX_max.
  rewrite (u32_small (Lost + MinCongestionWindow Connection))
    by (unfold is_u32, UINT32_MAX; lia).
  destruct (Z.gtb_spec (Z.max (BytesInFlight Bbr - Lost) (MinCongestionWindow Connection))
              (Lost + MinCongestionWindow Connection)).
  - rewrite u32_small by (unfold is_u32, UINT32_MAX; lia). lia.
  - lia.
Qed.

(** ** The minimum-window bound *)

Lemma SameWindows_refl (Bbr : BBR) : SameWindows Bbr Bbr.
Proof. repeat split. Qed.

Lemma SameWindows_trans (a b c : BBR) :
  SameWindows a b -> SameWindows b c -> SameWindows a c.
Proof.
  unfold SameWindows. intros (H1 & H2 & H3) (H4 & H5 & H6).
  repeat split; congruence.
Qed.

Lemma WindowsBounded_same (Connection : QUIC_CONNECTION) (Bbr Bbr' : BBR) :
  WindowsBounded Connection Bbr -> SameWindows Bbr Bbr' ->
  WindowsBounded Connection Bbr'.
Proof.
  unfold WindowsBounded, SameWindows. intros Hb (Hc & Hr & Hi).
  rewrite Hc, Hr, Hi. exact Hb.
Qed.

(** Case analysis on every test of the goal, then computation: enough for
    the operations that never assign one of the three window fields. *)
Ltac split_tests :=
  repeat match goal with
         | |- context [if ?c then _ else _] => destruct c
         | |- context [match ?o with Some _ => _ | None => _ end] => destruct o
         end.

Ltac untouched := intros; unfold SameWindows; split_tests; repeat split.

Lemma TransitToProbeBw_windows (Bbr : BBR) (t r : Z) :
  SameWindows Bbr (BbrCongestionControlTransitToProbeBw Bbr t r).
Proof. repeat split. Qed.

Lemma TransitToStartup_windows (Bbr : BBR) :
  SameWindows Bbr (BbrCongestionControlTransitToStartup Bbr).
Proof. repeat split. Qed.

Lemma TransitToProbeRtt_windows (Bbr : BBR) (n : Z) :
  SameWindows Bbr (BbrCongestionControlTransitToProbeRtt Bbr n).
Proof. repeat split. Qed.

Lemma TransitToDrain_windows (Bbr : BBR) :
  SameWindows Bbr (BbrCongestionControlTransitToDrain Bbr).
Proof. repeat split. Qed.

Lemma OnDataSent_windows (Bbr : BBR) (n : Z) :
  SameWindows Bbr (BbrCongestionControlOnDataSent Bbr n).
Proof. unfold BbrCongestionControlOnDataSent. untouched. Qed.

Lemma OnDataInvalidated_windows (Connection : QUIC_CONNECTION) (Bbr : BBR) (n : Z) :
  SameWindows Bbr (fst (BbrCongestionControlOnDataInvalidated Connection Bbr n)).
Proof. repeat split. Qed.

Lemma SetAppLimited_windows (Connection : QUIC_CONNECTION) (Bbr : BBR) :
  SameWindows Bbr (BbrCongestionControlSetAppLimited Connection Bbr).
Proof. unfold BbrCongestionControlSetAppLimited. untouched. Qed.

Lemma AckUpdateMinRtt_windows (Bbr : BBR) (AckEvent : Ack.QUIC_ACK_EVENT) :
  SameWindows Bbr (AckUpdateMinRtt Bbr AckEvent).
Proof. unfold AckUpdateMinRtt. untouched. Qed.

Lemma AckUpdateRoundTrip_windows (Bbr : BBR) (AckEvent : Ack.QUIC_ACK_EVENT) :
  SameWindows Bbr (fst (AckUpdateRoundTrip Bbr AckEvent)).
Proof. unfold AckUpdateRoundTrip. untouched. Qed.

Lemma AckTrackRecentDeliveryRate_windows
  (AckEvent : Ack.QUIC_ACK_EVENT) (pkts : list Packet.QUIC_SENT_PACKET_METADATA) :
  forall Bbr : BBR, SameWindows Bbr (AckTrackRecentDeliveryRate Bbr AckEvent pkts).
Proof.
  induction pkts as [|pkt rest IH]; intros Bbr; simpl.
  - apply SameWindows_refl.
  - repeat match goal with
           | |- SameWindows _ (if ?c then _ else _) => destruct c
           end;
      try (eapply SameWindows_trans; [|apply IH]);
      unfold SameWindows; split_tests; repeat split.
Qed.

Lemma UpdateAckAggregation_windows (Bbr : BBR) (AckEvent : Ack.QUIC_ACK_EVENT) :
  SameWindows Bbr (fst (BbrCongestionControlUpdateAckAggregation Bbr AckEvent)).
Proof. unfold BbrCongestionControlUpdateAckAggregation. untouched. Qed.

Lemma AckAdvancePacingGainCycle_windows
  (Bbr : BBR) (AckEvent : Ack.QUIC_ACK_EVENT) (PrevInflightBytes : Z) :
  SameWindows Bbr (AckAdvancePacingGainCycle Bbr AckEvent PrevInflightBytes).
Proof.
  unfold AckAdvancePacingGainCycle.
  destruct (BBR_STATE_eqb (BbrState Bbr) BBR_STATE_PROBE_BW); [|apply SameWindows_refl].
  cbv zeta.
  match goal with
  | |- SameWindows _ (if ?c then _ else _) => destruct c
  end; repeat split.
Qed.

Lemma AckCheckStartupExit_windows (Bbr : BBR) (n a : bool) :
  SameWindows Bbr (AckCheckStartupExit Bbr n a).
Proof. unfold AckCheckStartupExit. untouched. Qed.

Lemma HandleAckInProbeRtt_windows
  (Connection : QUIC_CONNECTION) (Bbr : BBR) (n : bool) (l t r : Z) :
  SameWindows Bbr (BbrCongestionControlHandleAckInProbeRtt Connection Bbr n l t r).
Proof. unfold BbrCongestionControlHandleAckInProbeRtt. untouched. Qed.

Lemma AckTransitions_windows
  (Connection : QUIC_CONNECTION) (Bbr : BBR) (AckEvent : Ack.QUIC_ACK_EVENT)
  (n : bool) (r : Z) :
  SameWindows Bbr (AckTransitions Connection Bbr AckEvent n r).
Proof.
  unfold AckTransitions. cbv zeta.
  repeat match goal with
         | |- SameWindows _ (if ?c then _ else _) => destruct c
         | |- SameWindows _ (BbrCongestionControlHandleAckInProbeRtt _ _ _ _ _ _) =>
             eapply SameWindows_trans; [|apply HandleAckInProbeRtt_windows]
         | |- SameWindows _ (set_ExitingQuiescence _ ?b) =>
             apply (SameWindows_trans _ b); [|repeat split]
         | |- SameWindows _ (BbrCongestionControlTransitToProbeRtt ?b _) =>
             apply (SameWindows_trans _ b); [|repeat split]
         | |- SameWindows _ (BbrCongestionControlTransitToProbeBw ?b _ _) =>
             apply (SameWindows_trans _ b); [|repeat split]
         | |- SameWindows _ (BbrCongestionControlTransitToDrain ?b) =>
             apply (SameWindows_trans _ b); [|repeat split]
         end; apply SameWindows_refl.
Qed.

Lemma UpdateRecoveryWindow_bounded
  (Connection : QUIC_CONNECTION) (Bbr : BBR) (BytesAcked : Z) :
  WindowsBounded Connection Bbr ->
  WindowsBounded Connection
    (BbrCongestionControlUpdateRecoveryWindow Connection Bbr BytesAcked).
Proof.
  unfold WindowsBounded, BbrCongestionControlUpdateRecoveryWindow.
  intros (Hc & Hr & Hi).
  pose proof (MinCongestionWindow_range Connection) as Hmin. unfold is_u32 in Hmin.
  pose proof (u32_range (RecoveryWindow Bbr + BytesAcked)) as Hgrow.
  destruct (RECOVERY_STATE_eqb (RecoveryState Bbr) RECOVERY_STATE_GROWTH); cbn;
    rewrite !CXPLAT_MAX_max;
    match goal with
    | |- context [u32 (BytesInFlight Bbr + BytesAcked)] =>
        pose proof (u32_range (BytesInFlight Bbr + BytesAcked))
    end; unfold UINT32_MAX in *; lia.
Qed.

Lemma AckUpdateRecovery_bounded
  (Connection : QUIC_CONNECTION) (Bbr : BBR) (AckEvent : Ack.QUIC_ACK_EVENT) (n : bool) :
  WindowsBounded Connection Bbr ->
  WindowsBounded Connection (AckUpdateRecovery Connection Bbr AckEvent n).
Proof.
  intros Hb. unfold AckUpdateRecovery.
  destruct (BbrCongestionControlInRecovery Bbr); [|exact Hb].
  cbv zeta.
  match goal with
  | |- context [BbrCongestionControlUpdateRecoveryWindow _ ?b _] =>
      assert (Hb' : WindowsBounded Connection b)
        by (apply (WindowsBounded_same Connection Bbr); [exact Hb|];
            destruct (n && negb (RECOVERY_STATE_eqb (RecoveryState Bbr)
                                   RECOVERY_STATE_GROWTH)); repeat split)
  end.
  match goal with
  | |- WindowsBounded _ (if ?c then _ else _) => destruct c
  end.
  - eapply WindowsBounded_same; [exact Hb'|]. repeat split.
  - apply UpdateRecoveryWindow_bounded. exact Hb'.
Qed.

Lemma UpdateCongestionWindow_bounded
  (Connection : QUIC_CONNECTION) (Bbr : BBR) (TotalBytesAcked AckedBytes : Z) :
  WindowsBounded Connection Bbr ->
  WindowsBounded Connection
    (BbrCongestionControlUpdateCongestionWindow
       Connection Bbr TotalBytesAcked AckedBytes).
Proof.
  intros Hb.
  pose proof (UpdateCongestionWindow_assigns
                Connection Bbr TotalBytesAcked AckedBytes) as Hassign.
  cbv zeta in Hassign.
  assert (Hfloor : MinCongestionWindow Connection
                   <= CongestionWindow
                        (BbrCongestionControlUpdateCongestionWindow
                           Connection Bbr TotalBytesAcked AckedBytes)).
  { unfold BbrCongestionControlUpdateCongestionWindow.
    destruct (BBR_STATE_eqb (BbrState Bbr) BBR_STATE_PROBE_RTT).
    - apply Hb.
    - cbn. rewrite CXPLAT_MAX_max. lia. }
  rewrite Hassign. destruct Hb as (Hc & Hr & Hi).
  unfold WindowsBounded. cbn. auto.
Qed.

Lemma OnDataLost_bounded
  (Connection : QUIC_CONNECTION) (Bbr : BBR) (LossEvent : Loss.QUIC_LOSS_EVENT) :
  0 <= Loss.NumRetransmittableBytes LossEvent ->
  Loss.NumRetransmittableBytes LossEvent + MinCongestionWindow Connection
  <= UINT32_MAX ->
  WindowsBounded Connection Bbr ->
  WindowsBounded Connection (BbrCongestionControlOnDataLost Connection Bbr LossEvent).
Proof.
  intros Hlost Hfit (Hc & Hr & Hi).
  pose proof (MinCongestionWindow_range Connection) as Hmin.
  pose proof (u32_range (BytesInFlight Bbr - Loss.NumRetransmittableBytes LossEvent))
    as Hbif.
  unfold is_u32, UINT32_MAX in *.
  unfold WindowsBounded, BbrCongestionControlOnDataLost, BbrCongestionControlInRecovery.
  cbn.
  rewrite (u32_small (Loss.NumRetransmittableBytes LossEvent
                      + MinCongestionWindow Connection))
    by (unfold is_u32, UINT32_MAX; lia).
  destruct (RecoveryState Bbr); cbn;
    destruct (Loss.PersistentCongestion LossEvent); cbn;
    rewrite ?CXPLAT_MAX_max;
    repeat match goal with
           | |- context [if ?a >? ?b then _ else _] => destruct (Z.gtb_spec a b)
           end;
    rewrite ?u32_small by (unfold is_u32, UINT32_MAX; lia);
    unfold UINT32_MAX; lia.
Qed.

Lemma Reset_bounded
  (Connection : QUIC_CONNECTION) (Bbr : BBR) (FullReset : bool) (t1 t2 : Z) :
  is_u16 (DatagramPayloadSize Connection) ->
  WindowsBounded Connection Bbr ->
  WindowsBounded Connection (BbrCongestionControlReset Connection Bbr FullReset t1 t2).
Proof.
  intros Hp (Hc & Hr & Hi).
  unfold WindowsBounded, BbrCongestionControlReset.
  rewrite (MinCongestionWindow_payload Connection Hp) in *.
  unfold is_u16, UINT16_MAX in Hp.
  destruct FullReset; cbn;
    rewrite (u32_small (kDefaultRecoveryCwndInMss * DatagramPayloadSize Connection))
      by (unfold is_u32, UINT32_MAX, kDefaultRecoveryCwndInMss; lia);
    unfold UINT32_MAX, kDefaultRecoveryCwndInMss; lia.
Qed.

Lemma Initialize_bounded
  (Capacity : Z) (Connection : QUIC_CONNECTION) (Settings : QUIC_SETTINGS_INTERNAL)
  (TimeUs : Z) :
  is_u16 (DatagramPayloadSize Connection) ->
  MinCongestionWindow Connection
  <= u32 (InitialWindowPackets Settings * DatagramPayloadSize Connection) ->
  WindowsBounded Connection
    (BbrCongestionControlInitialize (W := W) Capacity Connection Settings TimeUs).
Proof.
  intros Hp Hinit.
  unfold WindowsBounded, BbrCongestionControlInitialize. cbn.
  rewrite (MinCongestionWindow_payload Connection Hp) in *.
  unfold is_u16, UINT16_MAX in Hp.
  rewrite (u32_small (kDefaultRecoveryCwndInMss * DatagramPayloadSize Connection))
    by (unfold is_u32, UINT32_MAX, kDefaultRecoveryCwndInMss; lia).
  unfold UINT32_MAX, kDefaultRecoveryCwndInMss. lia.
Qed.

Lemma OnDataAcknowledged_bounded
  (Connection : QUIC_CONNECTION) (Bbr : BBR) (AckEvent : Ack.QUIC_ACK_EVENT) (r : Z) :
  WindowsBounded Connection Bbr ->
  WindowsBounded Connection
    (fst (BbrCongestionControlOnDataAcknowledged Connection Bbr AckEvent r)).
Proof.
  intros Hb. unfold BbrCongestionControlOnDataAcknowledged.
  destruct (Ack.IsImplicit AckEvent); cbv zeta.
  - cbn [fst]. apply UpdateCongestionWindow_bounded. exact Hb.
  - match goal with
    | |- context [AckUpdateRoundTrip ?b AckEvent] =>
        pose proof (AckUpdateRoundTrip_windows b AckEvent) as Hround;
        assert (Hb0 : WindowsBounded Connection b)
          by (apply (WindowsBounded_same Connection Bbr); [exact Hb|];
              eapply SameWindows_trans; [|apply AckUpdateMinRtt_windows];
              repeat split);
        destruct (AckUpdateRoundTrip b AckEvent) as [Bbr1 NewRoundTrip]
    end.
    cbn [fst] in *.
    apply UpdateCongestionWindow_bounded.
    eapply WindowsBounded_same; [|apply AckTransitions_windows].
    eapply WindowsBounded_same; [|apply AckCheckStartupExit_windows].
    eapply WindowsBounded_same; [|apply AckAdvancePacingGainCycle_windows].
    eapply WindowsBounded_same; [|apply UpdateAckAggregation_windows].
    apply AckUpdateRecovery_bounded.
    eapply WindowsBounded_same; [|apply AckTrackRecentDeliveryRate_windows].
    eapply WindowsBounded_same; [|repeat split].
    eapply WindowsBounded_same; [exact Hb0|exact Hround].
Qed.

Lemma BbrStep_bounded
  (Connection : QUIC_CONNECTION) (Bbr : BBR) (ev : BBR_EVENT) :
  is_u16 (DatagramPayloadSize Connection) ->
  EventFits Connection ev ->
  WindowsBounded Connection Bbr ->
  WindowsBounded Connection (BbrStep Connection Bbr ev).
Proof.
  intros Hp Hev Hb. destruct ev; unfold BbrStep; simpl in Hev.
  - eapply WindowsBounded_same; [exact Hb|]. repeat split.
  - eapply WindowsBounded_same; [exact Hb|]. apply OnDataSent_windows.
  - eapply WindowsBounded_same; [exact Hb|]. apply OnDataInvalidated_windows.
  - apply OnDataAcknowledged_bounded. exact Hb.
  - apply OnDataLost_bounded; tauto.
  - exact Hb.
  - eapply WindowsBounded_same; [exact Hb|]. apply SetAppLimited_windows.
  - apply Reset_bounded; assumption.
Qed.

Lemma BbrRun_bounded (Connection : QUIC_CONNECTION) (evs : list BBR_EVENT) :
  is_u16 (DatagramPayloadSize Connection) ->
  Forall (EventFits Connection) evs ->
  forall Bbr : BBR,
    WindowsBounded Connection Bbr ->
    WindowsBounded Connection (BbrRun Connection Bbr evs).
Proof.
  intros Hp Hevs. unfold BbrRun.
  induction Hevs as [|ev evs Hev _ IH]; intros Bbr Hb; simpl.
  - exact Hb.
  - apply IH. apply BbrStep_bounded; assumption.
Qed.

Lemma WindowsBounded_get (Connection : QUIC_CONNECTION) (Bbr : BBR) :
  WindowsBounded Connection Bbr ->
  MinCongestionWindow Connection
  <= BbrCongestionControlGetCongestionWindow Connection Bbr.
Proof.
  intros (Hc & Hr & _). unfold BbrCongestionControlGetCongestionWindow.
  rewrite CXPLAT_MIN_min.
  destruct (BBR_STATE_eqb (BbrState Bbr) BBR_STATE_PROBE_RTT); [lia|].
  destruct (BbrCongestionControlInRecovery Bbr); lia.
Qed.

(** C3 (amended): let the datagram payload size be a 16-bit value that stays
    the same, and let the settings give an initial window
    [initial_window_packets * datagram_payload_size] (as the 32-bit product
    the code computes) of at least [min_cwnd = 4 * datagram_payload_size].
    Then after [Initialize] and after every sequence of the controller's
    events in which the byte count of each loss event, added to [min_cwnd],
    fits 32 bits, [GetCongestionWindow() >= min_cwnd]. *)
Theorem C3_congestion_window_at_least_min :
  forall (Capacity : Z) (Connection : QUIC_CONNECTION)
         (Settings : QUIC_SETTINGS_INTERNAL) (TimeUs : Z) (evs : list BBR_EVENT),
    is_u16 (DatagramPayloadSize Connection) ->
    MinCongestionWindow Connection
    <= u32 (InitialWindowPackets Settings * DatagramPayloadSize Connection) ->
    Forall (EventFits Connection) evs ->
    MinCongestionWindow Connection = 4 * DatagramPayloadSize Connection
    /\ MinCongestionWindow Connection
       <= BbrCongestionControlGetCongestionWindow Connection
            (BbrRun Connection
               (BbrCongestionControlInitialize (W := W) Capacity Connection Settings TimeUs)
               evs).
Proof.
  intros Capacity Connection Settings TimeUs evs Hp Hinit Hevs.
  split; [apply MinCongestionWindow_payload; exact Hp|].
  apply WindowsBounded_get, BbrRun_bounded; try assumption.
  apply Initialize_bounded; assumption.
Qed.

(** ** Target window and send quantum: what the code computes *)

(** The fallback of [GetTargetCwnd] is taken when the bandwidth estimate is
    0 or when [MinRtt] equals [UINT32_MAX]; [Initialize] and [Reset] store
    [UINT64_MAX] for "no sample", which this test does not recognise. *)
Lemma GetTargetCwnd_fallback :
  forall (Bbr : BBR) (Gain : Z),
    BbrCongestionControlGetBandwidth Bbr = 0 \/ MinRtt Bbr = UINT32_MAX ->
    is_u32 (Gain * InitialCongestionWindow Bbr / GAIN_UNIT) ->
    0 <= Gain * InitialCongestionWindow Bbr <= UINT64_MAX ->
    BbrCongestionControlGetTargetCwnd Bbr Gain
    = Gain * InitialCongestionWindow Bbr / GAIN_UNIT.
Proof.
  intros Bbr Gain Hguard Hfit Hprod.
  unfold BbrCongestionControlGetTargetCwnd.
  assert (Hg : (BbrCongestionControlGetBandwidth Bbr =? 0)
               || (MinRtt Bbr =? UINT32_MAX) = true).
  { destruct Hguard as [Hb | Hm].
    - rewrite Hb. reflexivity.
    - rewrite Hm, Z.eqb_refl, orb_true_r. reflexivity. }
  rewrite Hg, (u64_small (Gain * InitialCongestionWindow Bbr)) by exact Hprod.
  apply u32_small. exact Hfit.
Qed.

(** The three branches of [SetSendQuantum].  In the third the pacing rate is
    multiplied by [kMilliSecsInSec], so the minimum with 64 KiB is always
    64 KiB (as long as the product fits 64 bits). *)
Lemma SetSendQuantum_cases :
  forall (Connection : QUIC_CONNECTION) (Bbr : BBR),
    let PacingRate :=
      u64 (BbrCongestionControlGetBandwidth Bbr * PacingGain Bbr) / GAIN_UNIT in
    let q := SendQuantum (BbrCongestionControlSetSendQuantum Connection Bbr) in
    (PacingRate < 1200 * 1000 * BW_UNIT -> q = DatagramPayloadSize Connection)
    /\ (1200 * 1000 * BW_UNIT <= PacingRate < 24 * 1000 * 1000 * BW_UNIT ->
        q = DatagramPayloadSize Connection * 2)
    /\ (24 * 1000 * 1000 * BW_UNIT <= PacingRate ->
        q = Z.min (u64 (PacingRate * 1000) / BW_UNIT) (64 * 1024))
    /\ (24 * 1000 * 1000 * BW_UNIT <= PacingRate ->
        PacingRate * 1000 <= UINT64_MAX ->
        q = 64 * 1024).
Proof.
  intros Connection Bbr PacingRate q. subst q.
  unfold BbrCongestionControlSetSendQuantum. fold PacingRate.
  unfold kLowPacingRateThresholdBytesPerSecond,
    kHighPacingRateThresholdBytesPerSecond, kMilliSecsInSec, BW_UNIT.
  destruct (Z.ltb_spec PacingRate (1200 * 1000 * 8));
    [|destruct (Z.ltb_spec PacingRate (24 * 1000 * 1000 * 8))];
    cbn [SendQuantum set_SendQuantum]; rewrite ?CXPLAT_MIN_min;
    repeat split; intros; try lia.
  rewrite u64_small by (unfold is_u64; lia).
  assert (192000000000 <= PacingRate * 1000) by lia.
  assert (24000000000 <= PacingRate * 1000 / 8)
    by (apply Z.div_le_lower_bound; lia).
  lia.
Qed.

End BbrProperties.

(** ** The Kalman filter *)

(** C9 (amended): on an initialised filter [predict] replaces the covariance
    [p] by [p + q] and changes nothing else; on a filter that is not
    initialised it changes nothing at all. *)
Theorem C9_predict_adds_process_noise_when_initialised :
  forall Filter : QUIC_KALMAN_FILTER,
    (Initialized Filter = true ->
     Covariance (QuicKalmanFilterPredict Filter)
     = PrimFloat.add (Covariance Filter) (ProcessNoise Filter)
     /\ State (QuicKalmanFilterPredict Filter) = State Filter
     /\ ProcessNoise (QuicKalmanFilterPredict Filter) = ProcessNoise Filter
     /\ MeasurementNoise (QuicKalmanFilterPredict Filter) = MeasurementNoise Filter
     /\ Initialized (QuicKalmanFilterPredict Filter) = true)
    /\ (Initialized Filter = false -> QuicKalmanFilterPredict Filter = Filter).
Proof.
  intros Filter. unfold QuicKalmanFilterPredict.
  split; intros Hinit; rewrite Hinit; simpl.
  - repeat split.
  - reflexivity.
Qed.

(** * Concrete runs

    The scenarios of section 8 of the spec start from [Initialize] with an
    initial window of 10 packets, a datagram payload of 1200 bytes and pacing
    enabled.  They run on the sliding-window maximum above, with the
    capacity 3 and the pacing interval of 1000 microseconds. *)

Definition Connection0 : QUIC_CONNECTION :=
  {| DatagramPayloadSize := 1200;
     PacingEnabled := true;
     NetStatsEventEnabled := false;
     LargestSentPacketNumber := 0 |}.

Definition Settings10 : QUIC_SETTINGS_INTERNAL := {| InitialWindowPackets := 10 |}.

Definition Settings1 : QUIC_SETTINGS_INTERNAL := {| InitialWindowPackets := 1 |}.

Definition Bbr0 : QUIC_CONGESTION_CONTROL_BBR SlidingWindowMax :=
  BbrCongestionControlInitialize 3 Connection0 Settings10 0.

Definition NoLastAcked : LastAcked.LAST_ACKED_PACKET_INFO :=
  {| LastAcked.SentTime := 0;
     LastAcked.AckTime := 0;
     LastAcked.AdjustedAckTime := 0;
     LastAcked.TotalBytesSent := 0;
     LastAcked.TotalBytesAcked := 0 |}.

(** The first packet of a connection: sent at time 0, no last-acked
    information. *)
Definition FirstPacket : Packet.QUIC_SENT_PACKET_METADATA :=
  {| Packet.PacketNumber := 1;
     Packet.PacketLength := 1200;
     Packet.SentTime := 0;
     Packet.TotalBytesSent := 1200;
     Packet.HasLastAckedPacketInfo := false;
     Packet.LastAckedPacketInfo := NoLastAcked;
     Packet.IsAppLimited := false |}.

(** An acknowledgement of [FirstPacket] at time 1000 that accounts for
    [bytes] acked bytes, with or without an RTT sample (of 1000), implicit or
    not. *)
Definition FirstAck (bytes : Z) (RttValid Implicit : bool) : Ack.QUIC_ACK_EVENT :=
  {| Ack.TimeNow := 1000;
     Ack.LargestAck := 1;
     Ack.LargestSentPacketNumber := 1;
     Ack.AdjustedAckTime := 1000;
     Ack.NumRetransmittableBytes := bytes;
     Ack.NumTotalAckedRetransmittableBytes := bytes;
     Ack.MinRttValid := RttValid;
     Ack.MinRtt := 1000;
     Ack.HasLoss := false;
     Ack.IsImplicit := Implicit;
     Ack.IsLargestAckedPacketAppLimited := false;
     Ack.AckedPackets := [FirstPacket] |}.

(** One packet of 1200 bytes sent, nothing acknowledged yet. *)
Definition BbrFirstSend : QUIC_CONGESTION_CONTROL_BBR SlidingWindowMax :=
  BbrRun Connection0 Bbr0 [EvDataSent 1200].

(** 1200 bytes sent and acknowledged without an RTT sample. *)
Definition BbrAckedWithoutRtt : QUIC_CONGESTION_CONTROL_BBR SlidingWindowMax :=
  BbrRun Connection0 Bbr0
    [EvDataSent 1200; EvDataAcknowledged (FirstAck 1200 false false) 0].

(** 10000 bytes sent and acknowledged within 1000 microseconds. *)
Definition BbrFastPath : QUIC_CONGESTION_CONTROL_BBR SlidingWindowMax :=
  BbrRun Connection0 Bbr0
    [EvDataSent 10000; EvDataAcknowledged (FirstAck 10000 true false) 0].

(** 50000 bytes in flight, then a loss of 10000 of them. *)
Definition BbrInFlight : QUIC_CONGESTION_CONTROL_BBR SlidingWindowMax :=
  BbrRun Connection0 Bbr0 [EvDataSent 50000].

Definition LossOf10000 : Loss.QUIC_LOSS_EVENT :=
  {| Loss.LargestPacketNumberLost := 5;
     Loss.LargestSentPacketNumber := 7;
     Loss.NumRetransmittableBytes := 10000;
     Loss.PersistentCongestion := false |}.

Definition Scenario : list BBR_EVENT :=
  [ EvDataSent 50000;
    EvDataLost LossOf10000;
    EvDataAcknowledged (FirstAck 1200 true false) 0;
    EvSetAppLimited 7;
    EvDataInvalidated 1200;
    EvReset false 5000 5000 ].

(** A bandwidth filter holding one sample, which records its insertions. *)
Definition RecordingFilter : BBR_BANDWIDTH_FILTER (Recorded SlidingWindowMax) :=
  {| WindowedMaxFilter :=
       QuicSlidingWindowExtremumUpdateMax
         (QuicSlidingWindowExtremumInitialize kBbrMaxBandwidthFilterLen 3) 20000000 1;
     AppLimited := false;
     AppLimitedExitTarget := 0 |}.

Definition UninitialisedFilter : QUIC_KALMAN_FILTER :=
  QuicKalmanFilterReset (QuicKalmanFilterInitialize 0%float 1%float 0.5%float 1%float).

(** C1 (code at the failing input): after [Initialize] and a first send of
    1200 bytes no RTT sample has been recorded ([MinRtt = UINT64_MAX]) and
    the sender is not blocked, yet with pacing enabled and a valid time
    since the last send [GetSendAllowance] paces: it returns a quarter of the
    window, 3000, and not the free window
    [GetCongestionWindow() - BytesInFlight = 10800].  The test of line 734
    compares [MinRtt] with [UINT32_MAX]. *)
Theorem C1_unset_min_rtt_is_paced :
  MinRtt BbrFirstSend = UINT64_MAX
  /\ MinRttTimestampValid BbrFirstSend = false
  /\ BytesInFlight BbrFirstSend
     < BbrCongestionControlGetCongestionWindow Connection0 BbrFirstSend
  /\ BbrCongestionControlGetCongestionWindow Connection0 BbrFirstSend
     - BytesInFlight BbrFirstSend = 10800
  /\ BbrCongestionControlGetSendAllowance 1000 Connection0 BbrFirstSend 100 true = 3000.
Proof. vm_compute. repeat split. Qed.

(** C2 (code at the failing input): after an acknowledgement that carries
    no RTT sample the bandwidth estimate is non-zero while [MinRtt] is still
    unset ([UINT64_MAX]); [GetTargetCwnd(GAIN_UNIT)] then does not return
    [GAIN_UNIT * initial_cwnd / GAIN_UNIT = 12000] but a value computed from
    the product of the bandwidth and [UINT64_MAX].  The test of line 700
    compares [MinRtt] with [UINT32_MAX]. *)
Theorem C2_unset_min_rtt_is_used_as_rtt :
  MinRtt BbrAckedWithoutRtt = UINT64_MAX
  /\ MinRttTimestampValid BbrAckedWithoutRtt = false
  /\ BbrCongestionControlGetBandwidth BbrAckedWithoutRtt = 9600000
  /\ GAIN_UNIT * InitialCongestionWindow BbrAckedWithoutRtt / GAIN_UNIT = 12000
  /\ BbrCongestionControlGetTargetCwnd BbrAckedWithoutRtt GAIN_UNIT = 3740538556.
Proof. vm_compute. repeat split. Qed.

(** C6 (code at the failing input): with a bandwidth estimate of 80000000
    and the startup pacing gain the pacing rate is 230937500, above the high
    threshold [24 MB/s * BW_UNIT = 192000000]; the code sets the send quantum
    to 65536, where [min(pacing_rate / 1000 / BW_UNIT, 64 KiB)] is 28867.
    Line 816 multiplies the rate by [kMilliSecsInSec]. *)
Theorem C6_quantum_above_high_threshold_is_64k :
  BbrCongestionControlGetBandwidth BbrFastPath = 80000000
  /\ u64 (BbrCongestionControlGetBandwidth BbrFastPath * PacingGain BbrFastPath)
     / GAIN_UNIT = 230937500
  /\ kHighPacingRateThresholdBytesPerSecond * BW_UNIT = 192000000
  /\ SendQuantum BbrFastPath = 65536
  /\ SendQuantum (BbrCongestionControlSetSendQuantum Connection0 BbrFastPath) = 65536
  /\ Z.min (230937500 / 1000 / BW_UNIT) (64 * 1024) = 28867.
Proof. vm_compute. repeat split. Qed.

(** C3 (counterexample): with [initial_window_packets = 1] the congestion
    window right after [Initialize] is one datagram payload, 1200, below
    [min_cwnd = 4800]. *)
Lemma C3_initial_window_below_min :
  BbrCongestionControlGetCongestionWindow Connection0
    (BbrRun Connection0
       (BbrCongestionControlInitialize (W := SlidingWindowMax) 3 Connection0 Settings1 0)
       [])
  < MinCongestionWindow Connection0.
Proof. vm_compute. reflexivity. Qed.

(** Why the loss events must fit: with [2^32 - 1] bytes in flight, a loss of
    1000 bytes followed by a loss of [2^32 - 4800] bytes (both within the
    bytes in flight) wraps the sum of line 1246 to 0 and leaves a recovery
    window of 2799, below [min_cwnd = 4800]. *)
Lemma OnDataLost_sum_wraps_below_min :
  BbrCongestionControlGetCongestionWindow Connection0
    (BbrRun Connection0 Bbr0
       [ EvDataSent 4294967295;
         EvDataLost {| Loss.LargestPacketNumberLost := 1;
                       Loss.LargestSentPacketNumber := 9;
                       Loss.NumRetransmittableBytes := 1000;
                       Loss.PersistentCongestion := false |};
         EvDataLost {| Loss.LargestPacketNumberLost := 8;
                       Loss.LargestSentPacketNumber := 9;
                       Loss.NumRetransmittableBytes := 4294962496;
                       Loss.PersistentCongestion := false |} ])
  = 2799.
Proof. vm_compute. reflexivity. Qed.

(** C5 (counterexample): a loss of 10000 bytes with 50000 in flight, in
    NotRecovery and without persistent congestion, leaves the recovery window
    at 30000; [max(bytes_in_flight, min_cwnd)] is 40000 with the bytes in
    flight after the event and 50000 with those before it. *)
Lemma C5_recovery_window_is_deflated_on_entry :
  RecoveryState BbrInFlight = RECOVERY_STATE_NOT_RECOVERY
  /\ Loss.PersistentCongestion LossOf10000 = false
  /\ RecoveryWindow (BbrCongestionControlOnDataLost Connection0 BbrInFlight LossOf10000)
     = 30000
  /\ RecoveryWindow (BbrCongestionControlOnDataLost Connection0 BbrInFlight LossOf10000)
     <> Z.max (BytesInFlight
                 (BbrCongestionControlOnDataLost Connection0 BbrInFlight LossOf10000))
              (MinCongestionWindow Connection0)
  /\ RecoveryWindow (BbrCongestionControlOnDataLost Connection0 BbrInFlight LossOf10000)
     <> Z.max (BytesInFlight BbrInFlight) (MinCongestionWindow Connection0).
Proof. vm_compute. repeat split; discriminate. Qed.

(** C9 (counterexample): on a filter that was reset (covariance 1, process
    noise 0.5, not initialised) [predict] leaves the covariance at 1 instead
    of [1 + 0.5]. *)
Lemma C9_predict_skips_uninitialised_filter :
  Initialized UninitialisedFilter = false
  /\ Covariance (QuicKalmanFilterPredict UninitialisedFilter)
     <> PrimFloat.add (Covariance UninitialisedFilter) (ProcessNoise UninitialisedFilter).
Proof.
  split; [reflexivity|].
  intros Heq.
  apply (f_equal (fun x => PrimFloat.eqb x 1%float)) in Heq.
  vm_compute in Heq. discriminate.
Qed.

(** ** The theorems at concrete inputs *)

(** C3 at a concrete input: the floor along [Scenario]: a send, a loss, an ack, an app-limited mark, an invalidation and a reset. *)
Lemma C3_witness :
  MinCongestionWindow Connection0 = 4 * DatagramPayloadSize Connection0
  /\ MinCongestionWindow Connection0
     <= BbrCongestionControlGetCongestionWindow Connection0
          (BbrRun Connection0
             (BbrCongestionControlInitialize (W := SlidingWindowMax) 3
                Connection0 Settings10 0)
             Scenario).
Proof.
  apply (C3_congestion_window_at_least_min 3 Connection0 Settings10 0 Scenario).
  - unfold is_u16, UINT16_MAX. simpl. lia.
  - vm_compute. discriminate.
  - unfold Scenario. repeat (apply Forall_cons || apply Forall_nil); simpl; try exact I.
    vm_compute. split; discriminate.
Defined.

(** C4 at a concrete input: right after [Initialize] (Startup, NotRecovery) the window is the stored one. *)
Lemma C4_witness :
  BbrCongestionControlGetCongestionWindow Connection0 Bbr0 = CongestionWindow Bbr0.
Proof.
  destruct (C4_get_congestion_window_cases Connection0 Bbr0)
    as (_ & _ & Hplain & _).
  apply Hplain.
  - vm_compute. discriminate.
  - reflexivity.
Defined.

(** C5 at a concrete input: the loss of 10000 bytes with 50000 in flight. *)
Lemma C5_witness :
  RecoveryState (BbrCongestionControlOnDataLost Connection0 BbrInFlight LossOf10000)
  = RECOVERY_STATE_CONSERVATIVE
  /\ RecoveryWindow (BbrCongestionControlOnDataLost Connection0 BbrInFlight LossOf10000)
     = Z.max (Z.max (50000 - 10000) (MinCongestionWindow Connection0) - 10000)
             (MinCongestionWindow Connection0).
Proof.
  pose proof (C5_loss_enters_conservative_recovery
                Connection0 BbrInFlight LossOf10000 eq_refl eq_refl) as Hloss.
  cbv zeta in Hloss.
  destruct Hloss as (Hstate & _ & _ & _ & _ & _ & Hwindow).
  split; [exact Hstate|].
  destruct Hwindow as [Hbif Hrw].
  - vm_compute. split; discriminate.
  - vm_compute. split; discriminate.
  - vm_compute. discriminate.
  - rewrite Hrw, Hbif. reflexivity.
Defined.

(** C8 at a concrete input: an implicit ack with 50000 bytes in flight leaves them in flight. *)
Lemma C8_witness :
  BytesInFlight
    (fst (BbrCongestionControlOnDataAcknowledged
            Connection0 BbrInFlight (FirstAck 1200 true true) 0))
  = BytesInFlight BbrInFlight.
Proof.
  pose proof (C8_implicit_ack_only_updates_cwnd
                Connection0 BbrInFlight (FirstAck 1200 true true) 0 eq_refl) as Hframe.
  cbv zeta in Hframe.
  destruct Hframe as (_ & _ & _ & Hbif & _).
  exact Hbif.
Defined.

(** C9 at a concrete input: covariance 1 and process noise 0.5 on an initialised filter give 1.5. *)
Lemma C9_witness :
  Covariance (QuicKalmanFilterPredict
                (QuicKalmanFilterInitialize 0%float 1%float 0.5%float 1%float))
  = 1.5%float.
Proof.
  destruct (C9_predict_adds_process_noise_when_initialised
              (QuicKalmanFilterInitialize 0%float 1%float 0.5%float 1%float))
    as [Hinit _].
  destruct (Hinit eq_refl) as [Hcov _].
  rewrite Hcov. reflexivity.
Defined.

(** C10 at a concrete input: the allowance right after [Initialize]. *)
Lemma C10_witness :
  BbrCongestionControlGetSendAllowance 1000 Connection0 Bbr0 0 true
  <= BbrCongestionControlGetCongestionWindow Connection0 Bbr0 - BytesInFlight Bbr0.
Proof.
  apply (C10_send_allowance_within_window 1000 Connection0 Bbr0 0 true).
  vm_compute. reflexivity.
Defined.

(** * Further properties of the controller

    The fields of the state fall into groups by the blocks of the ack path
    that assign them.  [Core] collects the fields that only the first line
    of the path, the min-RTT block, the recovery block and the startup-exit
    block assign; [Phase] the fields of the phase machine, which only the
    gain cycle and the transitions assign. *)

(** Case analysis on every test of the goal. *)
Ltac case_tests :=
  repeat match goal with
         | |- context [if ?c then _ else _] => destruct c
         | |- context [match ?o with Some _ => _ | None => _ end] => destruct o
         end.

Section BbrFrames.

Context {W : Type} `{SlidingWindowExtremum W}.

Local Notation "'BBR'" := (QUIC_CONGESTION_CONTROL_BBR W).

Definition Core (Bbr : BBR) : Z * bool * Z * Z * RECOVERY_STATE * Z * bool :=
  (BytesInFlight Bbr, EndOfRecoveryValid Bbr, EndOfRecovery Bbr, Exemptions Bbr,
   RecoveryState Bbr, MinRtt Bbr, BtlbwFound Bbr).

Definition Phase (Bbr : BBR) : BBR_STATE * Z * Z * Z :=
  (BbrState Bbr, PacingGain Bbr, CwndGain Bbr, PacingCycleIndex Bbr).

(** The state on which the recovery block runs (lines 885-975 done), and
    the [NewRoundTrip] flag computed on the way. *)
Definition AckRoundState (Bbr : BBR) (AckEvent : Ack.QUIC_ACK_EVENT) : BBR * bool :=
  AckUpdateRoundTrip
    (AckUpdateMinRtt
       (set_BytesInFlight
          (u32 (BytesInFlight Bbr - Ack.NumRetransmittableBytes AckEvent)) Bbr)
       AckEvent)
    AckEvent.

Definition AckBeforeRecovery (Bbr : BBR) (AckEvent : Ack.QUIC_ACK_EVENT) : BBR :=
  let Bbr3 := fst (AckRoundState Bbr AckEvent) in
  AckTrackRecentDeliveryRate
    (set_BandwidthFilter
       (BbrBandwidthFilterOnPacketAcked
          (BandwidthFilter Bbr3) AckEvent (RoundTripCounter Bbr3)) Bbr3)
    AckEvent (Ack.AckedPackets AckEvent).

(** The state on which the transitions run (lines 885-1027 done). *)
Definition AckBeforeTransitions
  (Connection : QUIC_CONNECTION) (Bbr : BBR) (AckEvent : Ack.QUIC_ACK_EVENT) : BBR :=
  AckCheckStartupExit
    (AckAdvancePacingGainCycle
       (fst (BbrCongestionControlUpdateAckAggregation
               (AckUpdateRecovery Connection (AckBeforeRecovery Bbr AckEvent) AckEvent
                  (snd (AckRoundState Bbr AckEvent)))
               AckEvent))
       AckEvent (BytesInFlight Bbr))
    (snd (AckRoundState Bbr AckEvent))
    (match Ack.AckedPackets AckEvent with
     | [] => false
     | _ :: _ => Ack.IsLargestAckedPacketAppLimited AckEvent
     end).

(** The explicit path of [OnDataAcknowledged] as the composition of its
    stages. *)
Lemma OnDataAcknowledged_stages
  (Connection : QUIC_CONNECTION) (Bbr : BBR) (AckEvent : Ack.QUIC_ACK_EVENT) (r : Z) :
  Ack.IsImplicit AckEvent = false ->
  fst (BbrCongestionControlOnDataAcknowledged Connection Bbr AckEvent r)
  = BbrCongestionControlUpdateCongestionWindow Connection
      (AckTransitions Connection (AckBeforeTransitions Connection Bbr AckEvent)
         AckEvent (snd (AckRoundState Bbr AckEvent)) r)
      (Ack.NumTotalAckedRetransmittableBytes AckEvent)
      (Ack.NumRetransmittableBytes AckEvent).
Proof.
  intros Himplicit.
  unfold BbrCongestionControlOnDataAcknowledged, AckBeforeTransitions,
    AckBeforeRecovery, AckRoundState.
  rewrite Himplicit. cbv zeta.
  destruct (AckUpdateRoundTrip _ AckEvent) as [Bbr3 NewRoundTrip].
  reflexivity.
Qed.

Ltac kept := intros; unfold Core, Phase; case_tests; reflexivity.

Lemma UpdateCongestionWindow_core (Connection : QUIC_CONNECTION) (Bbr : BBR) (t a : Z) :
  Core (BbrCongestionControlUpdateCongestionWindow Connection Bbr t a) = Core Bbr.
Proof.
  rewrite (UpdateCongestionWindow_assigns Connection Bbr t a). reflexivity.
Qed.

Lemma UpdateCongestionWindow_phase (Connection : QUIC_CONNECTION) (Bbr : BBR) (t a : Z) :
  Phase (BbrCongestionControlUpdateCongestionWindow Connection Bbr t a) = Phase Bbr.
Proof.
  rewrite (UpdateCongestionWindow_assigns Connection Bbr t a). reflexivity.
Qed.

Lemma HandleAckInProbeRtt_core
  (Connection : QUIC_CONNECTION) (Bbr : BBR) (n : bool) (l t r : Z) :
  Core (BbrCongestionControlHandleAckInProbeRtt Connection Bbr n l t r) = Core Bbr.
Proof. unfold BbrCongestionControlHandleAckInProbeRtt. kept. Qed.

Lemma AckTransitions_core
  (Connection : QUIC_CONNECTION) (Bbr : BBR) (AckEvent : Ack.QUIC_ACK_EVENT)
  (n : bool) (r : Z) :
  Core (AckTransitions Connection Bbr AckEvent n r) = Core Bbr.
Proof.
  unfold AckTransitions. cbv zeta.
  repeat match goal with
         | |- Core (if ?c then _ else _) = _ => destruct c
         | |- Core (BbrCongestionControlHandleAckInProbeRtt _ _ _ _ _ _) = _ =>
             rewrite HandleAckInProbeRtt_core
         | |- Core (set_ExitingQuiescence _ ?b) = _ =>
             change (Core b = Core Bbr)
         | |- Core (BbrCongestionControlTransitToProbeRtt ?b _) = _ =>
             change (Core b = Core Bbr)
         | |- Core (BbrCongestionControlTransitToProbeBw ?b _ _) = _ =>
             change (Core b = Core Bbr)
         | |- Core (BbrCongestionControlTransitToDrain ?b) = _ =>
             change (Core b = Core Bbr)
         end; reflexivity.
Qed.

Lemma AckCheckStartupExit_core (Bbr : BBR) (n a : bool) :
  let Bbr' := AckCheckStartupExit Bbr n a in
  BytesInFlight Bbr' = BytesInFlight Bbr
  /\ EndOfRecoveryValid Bbr' = EndOfRecoveryValid Bbr
  /\ EndOfRecovery Bbr' = EndOfRecovery Bbr
  /\ Exemptions Bbr' = Exemptions Bbr
  /\ RecoveryState Bbr' = RecoveryState Bbr
  /\ MinRtt Bbr' = MinRtt Bbr
  /\ (BtlbwFound Bbr = true -> BtlbwFound Bbr' = true)
  /\ Phase Bbr' = Phase Bbr.
Proof.
  unfold AckCheckStartupExit, Phase. cbv zeta.
  destruct (BtlbwFound Bbr) eqn:Hfound; cbn [negb andb].
  - repeat split; auto.
  - case_tests; repeat split; intros; discriminate.
Qed.

Lemma AckAdvancePacingGainCycle_core
  (Bbr : BBR) (AckEvent : Ack.QUIC_ACK_EVENT) (p : Z) :
  Core (AckAdvancePacingGainCycle Bbr AckEvent p) = Core Bbr.
Proof.
  unfold AckAdvancePacingGainCycle.
  destruct (BBR_STATE_eqb (BbrState Bbr) BBR_STATE_PROBE_BW); [|reflexivity].
  cbv zeta.
  match goal with
  | |- Core (if ?c then _ else _) = _ => destruct c
  end; reflexivity.
Qed.

Lemma UpdateAckAggregation_core (Bbr : BBR) (AckEvent : Ack.QUIC_ACK_EVENT) :
  Core (fst (BbrCongestionControlUpdateAckAggregation Bbr AckEvent)) = Core Bbr
  /\ Phase (fst (BbrCongestionControlUpdateAckAggregation Bbr AckEvent)) = Phase Bbr.
Proof. unfold BbrCongestionControlUpdateAckAggregation. split; kept. Qed.

Lemma AckUpdateRecovery_core
  (Connection : QUIC_CONNECTION) (Bbr : BBR) (AckEvent : Ack.QUIC_ACK_EVENT) (n : bool) :
  let Bbr' := AckUpdateRecovery Connection Bbr AckEvent n in
  BytesInFlight Bbr' = BytesInFlight Bbr
  /\ EndOfRecoveryValid Bbr' = EndOfRecoveryValid Bbr
  /\ EndOfRecovery Bbr' = EndOfRecovery Bbr
  /\ Exemptions Bbr' = Exemptions Bbr
  /\ MinRtt Bbr' = MinRtt Bbr
  /\ BtlbwFound Bbr' = BtlbwFound Bbr
  /\ Phase Bbr' = Phase Bbr.
Proof.
  unfold AckUpdateRecovery, BbrCongestionControlUpdateRecoveryWindow, Phase. cbv zeta.
  case_tests; repeat split.
Qed.

Lemma AckTrackRecentDeliveryRate_core
  (AckEvent : Ack.QUIC_ACK_EVENT) (pkts : list Packet.QUIC_SENT_PACKET_METADATA) :
  forall Bbr : BBR,
    Core (AckTrackRecentDeliveryRate Bbr AckEvent pkts) = Core Bbr
    /\ Phase (AckTrackRecentDeliveryRate Bbr AckEvent pkts) = Phase Bbr.
Proof.
  induction pkts as [|pkt rest IH]; intros Bbr; simpl.
  - split; reflexivity.
  - repeat match goal with
           | |- context [if ?c then _ else _] => destruct c
           end;
      try (destruct (IH Bbr) as [-> ->]; split; reflexivity);
      try (split; reflexivity);
      match goal with
      | |- Core (AckTrackRecentDeliveryRate ?b _ _) = _ /\ _ =>
          destruct (IH b) as [-> ->]; split; reflexivity
      end.
Qed.

Lemma AckRoundState_core (Bbr : BBR) (AckEvent : Ack.QUIC_ACK_EVENT) :
  let Bbr' := fst (AckRoundState Bbr AckEvent) in
  BytesInFlight Bbr'
  = u32 (BytesInFlight Bbr - Ack.NumRetransmittableBytes AckEvent)
  /\ EndOfRecoveryValid Bbr' = EndOfRecoveryValid Bbr
  /\ EndOfRecovery Bbr' = EndOfRecovery Bbr
  /\ Exemptions Bbr' = Exemptions Bbr
  /\ RecoveryState Bbr' = RecoveryState Bbr
  /\ BtlbwFound Bbr' = BtlbwFound Bbr
  /\ Phase Bbr' = Phase Bbr
  /\ MinRtt Bbr'
     = MinRtt (AckUpdateMinRtt
                 (set_BytesInFlight
                    (u32 (BytesInFlight Bbr - Ack.NumRetransmittableBytes AckEvent)) Bbr)
                 AckEvent).
Proof.
  unfold AckRoundState, AckUpdateRoundTrip, AckUpdateMinRtt, Phase. cbv zeta.
  case_tests; repeat split.
Qed.

Lemma AckBeforeRecovery_core (Bbr : BBR) (AckEvent : Ack.QUIC_ACK_EVENT) :
  Core (AckBeforeRecovery Bbr AckEvent) = Core (fst (AckRoundState Bbr AckEvent))
  /\ Phase (AckBeforeRecovery Bbr AckEvent) = Phase (fst (AckRoundState Bbr AckEvent)).
Proof.
  unfold AckBeforeRecovery. cbv zeta.
  match goal with
  | |- Core (AckTrackRecentDeliveryRate ?b ?a ?l) = _ /\ _ =>
      destruct (AckTrackRecentDeliveryRate_core a l b) as [-> ->]
  end.
  split; reflexivity.
Qed.

Lemma Core_fields (a b : BBR) :
  Core a = Core b ->
  BytesInFlight a = BytesInFlight b
  /\ EndOfRecoveryValid a = EndOfRecoveryValid b
  /\ EndOfRecovery a = EndOfRecovery b
  /\ Exemptions a = Exemptions b
  /\ RecoveryState a = RecoveryState b
  /\ MinRtt a = MinRtt b
  /\ BtlbwFound a = BtlbwFound b.
Proof.
  unfold Core. intros Heq. injection Heq as H1 H2 H3 H4 H5 H6 H7.
  repeat split; assumption.
Qed.

(** What an explicit acknowledgement does to the [Core] fields. *)
Lemma OnDataAcknowledged_core
  (Connection : QUIC_CONNECTION) (Bbr : BBR) (AckEvent : Ack.QUIC_ACK_EVENT) (r : Z) :
  Ack.IsImplicit AckEvent = false ->
  let Bbr' := fst (BbrCongestionControlOnDataAcknowledged Connection Bbr AckEvent r) in
  BytesInFlight Bbr'
  = u32 (BytesInFlight Bbr - Ack.NumRetransmittableBytes AckEvent)
  /\ EndOfRecoveryValid Bbr' = EndOfRecoveryValid Bbr
  /\ EndOfRecovery Bbr' = EndOfRecovery Bbr
  /\ Exemptions Bbr' = Exemptions Bbr
  /\ MinRtt Bbr'
     = MinRtt (AckUpdateMinRtt
                 (set_BytesInFlight
                    (u32 (BytesInFlight Bbr - Ack.NumRetransmittableBytes AckEvent)) Bbr)
                 AckEvent)
  /\ RecoveryState Bbr'
     = RecoveryState
         (AckUpdateRecovery Connection (AckBeforeRecovery Bbr AckEvent) AckEvent
            (snd (AckRoundState Bbr AckEvent)))
  /\ (BtlbwFound Bbr = true -> BtlbwFound Bbr' = true).
Proof.
  intros Himplicit Bbr'. subst Bbr'.
  rewrite (OnDataAcknowledged_stages Connection Bbr AckEvent r Himplicit).
  match goal with
  | |- context [BbrCongestionControlUpdateCongestionWindow
                  ?c (AckTransitions ?c ?b ?a ?n ?r) ?t ?k] =>
      pose proof (Core_fields _ _
                    (eq_trans (UpdateCongestionWindow_core c (AckTransitions c b a n r) t k)
                              (AckTransitions_core c b a n r)))
        as (T1 & T2 & T3 & T4 & T5 & T6 & T7)
  end.
  rewrite T1, T2, T3, T4, T5, T6, T7. clear T1 T2 T3 T4 T5 T6 T7.
  unfold AckBeforeTransitions.
  match goal with
  | |- context [AckCheckStartupExit ?b ?n ?a] =>
      pose proof (AckCheckStartupExit_core b n a) as (S1 & S2 & S3 & S4 & S5 & S6 & S7 & _)
  end.
  cbv zeta in S1, S2, S3, S4, S5, S6, S7.
  rewrite S1, S2, S3, S4, S5, S6. clear S1 S2 S3 S4 S5 S6.
  match goal with
  | H : BtlbwFound (AckAdvancePacingGainCycle ?b ?a ?p) = true -> _ |- _ =>
      pose proof (Core_fields _ _ (AckAdvancePacingGainCycle_core b a p))
        as (A1 & A2 & A3 & A4 & A5 & A6 & A7)
  end.
  rewrite A1, A2, A3, A4, A5, A6 in *. rewrite A7 in S7. clear A1 A2 A3 A4 A5 A6 A7.
  match goal with
  | H : BtlbwFound (fst (BbrCongestionControlUpdateAckAggregation ?b ?a)) = true -> _ |- _ =>
      pose proof (Core_fields _ _ (proj1 (UpdateAckAggregation_core b a)))
        as (A1 & A2 & A3 & A4 & A5 & A6 & A7)
  end.
  rewrite A1, A2, A3, A4, A5, A6 in *. rewrite A7 in S7. clear A1 A2 A3 A4 A5 A6 A7.
  pose proof (AckUpdateRecovery_core Connection (AckBeforeRecovery Bbr AckEvent) AckEvent
                (snd (AckRoundState Bbr AckEvent)))
    as (R1 & R2 & R3 & R4 & R5 & R6 & _).
  cbv zeta in R1, R2, R3, R4, R5, R6.
  rewrite R1, R2, R3, R4, R5. rewrite R6 in S7. clear R1 R2 R3 R4 R5 R6.
  pose proof (Core_fields _ _ (proj1 (AckBeforeRecovery_core Bbr AckEvent)))
    as (B1 & B2 & B3 & B4 & _ & B6 & B7).
  rewrite B1, B2, B3, B4, B6. rewrite B7 in S7. clear B1 B2 B3 B4 B6 B7.
  pose proof (AckRoundState_core Bbr AckEvent) as (C1 & C2 & C3 & C4 & _ & C6 & _ & C8).
  cbv zeta in C1, C2, C3, C4, C6, C8.
  rewrite C1, C2, C3, C4, C8. rewrite C6 in S7.
  repeat split; try reflexivity. exact S7.
Qed.

End BbrFrames.

(** ** Bytes in flight, exemptions and sendability *)

Section BbrAccounting.

Context {W : Type} `{SlidingWindowExtremum W}.
Variable QUIC_SEND_PACING_INTERVAL : Z.

Local Notation "'BBR'" := (QUIC_CONGESTION_CONTROL_BBR W).

(** The bytes handed to [OnDataSent] along a sequence of events. *)
Fixpoint BytesSent (evs : list BBR_EVENT) : Z :=
  match evs with
  | [] => 0
  | EvDataSent n :: rest => n + BytesSent rest
  | _ :: rest => BytesSent rest
  end.

(** The preconditions that bbr.c asserts on byte counts
    ([CXPLAT_DBG_ASSERT(Bbr->BytesInFlight >= ...)], lines 566, 887, 1159):
    what an event takes out of flight is in flight. *)
Definition EventRespects (Bbr : BBR) (ev : BBR_EVENT) : Prop :=
  match ev with
  | EvDataSent n => 0 <= n
  | EvDataInvalidated n => 0 <= n <= BytesInFlight Bbr
  | EvDataAcknowledged AckEvent _ =>
      Ack.IsImplicit AckEvent = true
      \/ 0 <= Ack.NumRetransmittableBytes AckEvent <= BytesInFlight Bbr
  | EvDataLost LossEvent =>
      0 <= Loss.NumRetransmittableBytes LossEvent <= BytesInFlight Bbr
  | _ => True
  end.

Fixpoint RunRespects
  (Connection : QUIC_CONNECTION) (Bbr : BBR) (evs : list BBR_EVENT) : Prop :=
  match evs with
  | [] => True
  | ev :: rest =>
      EventRespects Bbr ev /\ RunRespects Connection (BbrStep Connection Bbr ev) rest
  end.

(** What each event does to [BytesInFlight]: a send adds its bytes; an
    invalidation, an explicit acknowledgement and a loss subtract theirs (all
    in 32 bits); a full reset zeroes it; an implicit acknowledgement, a
    partial reset, [SetExemption], [SetAppLimited] and a spurious-congestion
    report leave it alone. *)
Lemma BbrStep_bytes_in_flight :
  forall (Connection : QUIC_CONNECTION) (Bbr : BBR) (ev : BBR_EVENT),
    BytesInFlight (BbrStep Connection Bbr ev)
    = match ev with
      | EvDataSent n => u32 (BytesInFlight Bbr + n)
      | EvDataInvalidated n => u32 (BytesInFlight Bbr - n)
      | EvDataAcknowledged AckEvent _ =>
          if Ack.IsImplicit AckEvent then BytesInFlight Bbr
          else u32 (BytesInFlight Bbr - Ack.NumRetransmittableBytes AckEvent)
      | EvDataLost LossEvent =>
          u32 (BytesInFlight Bbr - Loss.NumRetransmittableBytes LossEvent)
      | EvReset FullReset _ _ => if FullReset then 0 else BytesInFlight Bbr
      | _ => BytesInFlight Bbr
      end.
Proof.
  intros Connection Bbr ev. destruct ev; unfold BbrStep.
  - reflexivity.
  - unfold BbrCongestionControlOnDataSent. case_tests; reflexivity.
  - reflexivity.
  - destruct (Ack.IsImplicit AckEvent) eqn:Himplicit.
    + unfold BbrCongestionControlOnDataAcknowledged. rewrite Himplicit. cbn [fst].
      rewrite (UpdateCongestionWindow_assigns Connection Bbr). reflexivity.
    + apply (OnDataAcknowledged_core Connection Bbr AckEvent RandomValue Himplicit).
  - unfold BbrCongestionControlOnDataLost. cbv zeta.
    destruct (negb (BbrCongestionControlInRecovery _)); case_tests; reflexivity.
  - reflexivity.
  - unfold BbrCongestionControlSetAppLimited. case_tests; reflexivity.
  - unfold BbrCongestionControlReset. destruct FullReset; reflexivity.
Qed.

Lemma BbrStep_bytes_in_flight_bound
  (Connection : QUIC_CONNECTION) (Bbr : BBR) (ev : BBR_EVENT) (sent : Z) :
  0 <= BytesInFlight Bbr <= sent ->
  EventRespects Bbr ev ->
  0 <= BytesInFlight (BbrStep Connection Bbr ev) <= sent + BytesSent [ev].
Proof.
  intros Hb Hev. rewrite BbrStep_bytes_in_flight.
  destruct ev; simpl in *;
    try match goal with
        | |- context [u32 ?x] =>
            pose proof (u32_range x); pose proof (u32_le x)
        end;
    try lia.
  - destruct (Ack.IsImplicit AckEvent); [lia|].
    destruct Hev as [Hev | Hev]; [discriminate|].
    pose proof (u32_range (BytesInFlight Bbr - Ack.NumRetransmittableBytes AckEvent)).
    pose proof (u32_le (BytesInFlight Bbr - Ack.NumRetransmittableBytes AckEvent)).
    lia.
  - destruct FullReset; lia.
Qed.

(** X2: along every sequence of events that respects the asserted
    preconditions, [BytesInFlight] stays between 0 and what was in flight at
    the start plus the bytes handed to [OnDataSent] since; after
    [Initialize] it never exceeds the bytes sent. *)
Theorem BytesInFlight_at_most_sent :
  forall (Connection : QUIC_CONNECTION) (evs : list BBR_EVENT) (Bbr : BBR),
    0 <= BytesInFlight Bbr ->
    RunRespects Connection Bbr evs ->
    0 <= BytesInFlight (BbrRun Connection Bbr evs)
      <= BytesInFlight Bbr + BytesSent evs.
Proof.
  intros Connection evs.
  assert (Hgen : forall (Bbr : BBR) (sent : Z),
             0 <= BytesInFlight Bbr <= sent ->
             RunRespects Connection Bbr evs ->
             0 <= BytesInFlight (BbrRun Connection Bbr evs) <= sent + BytesSent evs).
  { induction evs as [|ev rest IH]; intros Bbr sent Hb Hrun.
    - unfold BbrRun. simpl. lia.
    - cbn [RunRespects] in Hrun. destruct Hrun as [Hev Hrest].
      pose proof (BbrStep_bytes_in_flight_bound Connection Bbr ev sent Hb Hev) as Hstep.
      specialize (IH (BbrStep Connection Bbr ev) (sent + BytesSent [ev]) Hstep Hrest).
      assert (Hsum : BytesSent (ev :: rest) = BytesSent [ev] + BytesSent rest)
        by (destruct ev; simpl; lia).
      unfold BbrRun in *. cbn [fold_left]. rewrite Hsum, Z.add_assoc. exact IH. }
  intros Bbr Hb Hrun. apply Hgen; [lia | exact Hrun].
Qed.

(** X3: a send followed by the invalidation of the same bytes restores
    [BytesInFlight].  When the 32-bit sum of the bytes in flight and the
    bytes sent does not wrap, the invalidation finds its precondition met
    (the bytes it takes out of flight are in flight, the assertion of
    line 566) and leaves [BytesInFlight] as it was before the send. *)
Theorem Send_then_invalidate_restores_bytes_in_flight :
  forall (Connection : QUIC_CONNECTION) (Bbr : BBR) (n : Z),
    0 <= BytesInFlight Bbr ->
    0 <= n ->
    BytesInFlight Bbr + n <= UINT32_MAX ->
    let Sent := BbrCongestionControlOnDataSent Bbr n in
    n <= BytesInFlight Sent
    /\ BytesInFlight (fst (BbrCongestionControlOnDataInvalidated Connection Sent n))
       = BytesInFlight Bbr.
Proof.
  intros Connection Bbr n Hb Hn Hfit Sent. subst Sent.
  pose proof (BbrStep_bytes_in_flight Connection Bbr (EvDataSent n)) as Hsent.
  cbn [BbrStep] in Hsent.
  rewrite u32_small in Hsent by (unfold is_u32; lia).
  split; [rewrite Hsent; lia|].
  change (u32 (BytesInFlight (BbrCongestionControlOnDataSent Bbr n) - n)
          = BytesInFlight Bbr).
  rewrite Hsent.
  replace (BytesInFlight Bbr + n - n) with (BytesInFlight Bbr) by lia.
  apply u32_small. unfold is_u32. lia.
Qed.

(** X4: [SetExemption(n)] followed by [k] sends leaves [max(n - k, 0)]
    exemptions: each send consumes one exemption while there is one, and the
    count never goes below zero. *)
Theorem Exemptions_after_sends :
  forall (Connection : QUIC_CONNECTION) (k : nat) (Bbr : BBR) (n bytes : Z),
    is_u8 n ->
    Exemptions
      (BbrRun Connection (BbrCongestionControlSetExemption Bbr n)
         (repeat (EvDataSent bytes) k))
    = Z.max (n - Z.of_nat k) 0.
Proof.
  intros Connection k.
  assert (Hgen : forall (Bbr : BBR) (bytes : Z),
             is_u8 (Exemptions Bbr) ->
             Exemptions (BbrRun Connection Bbr (repeat (EvDataSent bytes) k))
             = Z.max (Exemptions Bbr - Z.of_nat k) 0).
  { induction k as [|k IH]; intros Bbr bytes Hn.
    - unfold BbrRun, is_u8 in *. simpl. lia.
    - unfold BbrRun in *. cbn [repeat fold_left BbrStep].
      assert (Hstep : Exemptions (BbrCongestionControlOnDataSent Bbr bytes)
                      = Z.max (Exemptions Bbr - 1) 0).
      { unfold BbrCongestionControlOnDataSent, is_u8 in *. cbv zeta.
        destruct ((BytesInFlight Bbr =? 0) && BbrCongestionControlIsAppLimited Bbr);
          match goal with
          | |- context [if BytesInFlightMax ?b <? BytesInFlight ?b' then _ else _] =>
              destruct (BytesInFlightMax b <? BytesInFlight b')
          end; cbn;
          destruct (Z.gtb_spec (Exemptions Bbr) 0); cbn;
          unfold u8; rewrite ?Z.mod_small; lia. }
      rewrite IH; rewrite Hstep; unfold is_u8 in *; lia. }
  intros Bbr n bytes Hn. apply Hgen. exact Hn.
Qed.

(** X5: the two sendability queries agree: when [CanSend] says no,
    [GetSendAllowance] is 0; and while an exemption is left [CanSend] says
    yes even with the window full. *)
Theorem CanSend_and_send_allowance_agree :
  forall (Connection : QUIC_CONNECTION) (Bbr : BBR)
         (TimeSinceLastSend : Z) (TimeSinceLastSendValid : bool),
    (BbrCongestionControlCanSend Connection Bbr = false ->
     BbrCongestionControlGetSendAllowance QUIC_SEND_PACING_INTERVAL
       Connection Bbr TimeSinceLastSend TimeSinceLastSendValid = 0)
    /\ (0 < Exemptions Bbr -> BbrCongestionControlCanSend Connection Bbr = true)
    /\ (BbrCongestionControlCanSend Connection Bbr = true ->
        Exemptions Bbr <= 0 ->
        BytesInFlight Bbr < BbrCongestionControlGetCongestionWindow Connection Bbr).
Proof.
  intros Connection Bbr t valid.
  unfold BbrCongestionControlCanSend, BbrCongestionControlGetSendAllowance. cbv zeta.
  destruct (Z.ltb_spec (BytesInFlight Bbr)
              (BbrCongestionControlGetCongestionWindow Connection Bbr));
    destruct (Z.gtb_spec (Exemptions Bbr) 0);
    destruct (Z.geb_spec (BytesInFlight Bbr)
                (BbrCongestionControlGetCongestionWindow Connection Bbr));
    cbn [orb]; repeat split; intros; try reflexivity; try discriminate; lia.
Qed.

End BbrAccounting.

(** ** The recovery sub-machine *)

Section BbrRecovery.

Context {W : Type} `{SlidingWindowExtremum W}.

Local Notation "'BBR'" := (QUIC_CONGESTION_CONTROL_BBR W).

Lemma AckRoundState_new_round (Bbr : BBR) (AckEvent : Ack.QUIC_ACK_EVENT) :
  snd (AckRoundState Bbr AckEvent)
  = negb (EndOfRoundTripValid Bbr) || (EndOfRoundTrip Bbr <? Ack.LargestAck AckEvent).
Proof.
  unfold AckRoundState, AckUpdateRoundTrip.
  match goal with
  | |- context [AckUpdateMinRtt ?b ?a] =>
      assert (Hv : EndOfRoundTripValid (AckUpdateMinRtt b a) = EndOfRoundTripValid Bbr)
        by (unfold AckUpdateMinRtt; case_tests; reflexivity);
      assert (He : EndOfRoundTrip (AckUpdateMinRtt b a) = EndOfRoundTrip Bbr)
        by (unfold AckUpdateMinRtt; case_tests; reflexivity)
  end.
  rewrite Hv, He.
  destruct (negb (EndOfRoundTripValid Bbr)
            || (EndOfRoundTrip Bbr <? Ack.LargestAck AckEvent)); reflexivity.
Qed.

Lemma AckUpdateRecovery_state
  (Connection : QUIC_CONNECTION) (Bbr : BBR) (AckEvent : Ack.QUIC_ACK_EVENT) (n : bool) :
  RecoveryState (AckUpdateRecovery Connection Bbr AckEvent n)
  = match RecoveryState Bbr with
    | RECOVERY_STATE_NOT_RECOVERY => RECOVERY_STATE_NOT_RECOVERY
    | s =>
        if negb (Ack.HasLoss AckEvent) && (EndOfRecovery Bbr <? Ack.LargestAck AckEvent)
        then RECOVERY_STATE_NOT_RECOVERY
        else if n then RECOVERY_STATE_GROWTH else s
    end.
Proof.
  unfold AckUpdateRecovery, BbrCongestionControlInRecovery,
    BbrCongestionControlUpdateRecoveryWindow.
  destruct (RecoveryState Bbr) eqn:Hstate; cbn; [exact Hstate| |];
    destruct n; cbn;
    destruct (negb (Ack.HasLoss AckEvent)
              && (EndOfRecovery Bbr <? Ack.LargestAck AckEvent)); cbn;
    rewrite ?Hstate; cbn; rewrite ?Hstate; reflexivity.
Qed.

Lemma OnDataAcknowledged_recovery_state
  (Connection : QUIC_CONNECTION) (Bbr : BBR)
  (AckEvent : Ack.QUIC_ACK_EVENT) (RandomValue : Z) :
  Ack.IsImplicit AckEvent = false ->
  RecoveryState
    (fst (BbrCongestionControlOnDataAcknowledged Connection Bbr AckEvent RandomValue))
  = match RecoveryState Bbr with
    | RECOVERY_STATE_NOT_RECOVERY => RECOVERY_STATE_NOT_RECOVERY
    | s =>
        if negb (Ack.HasLoss AckEvent) && (EndOfRecovery Bbr <? Ack.LargestAck AckEvent)
        then RECOVERY_STATE_NOT_RECOVERY
        else if negb (EndOfRoundTripValid Bbr)
                || (EndOfRoundTrip Bbr <? Ack.LargestAck AckEvent)
             then RECOVERY_STATE_GROWTH else s
    end.
Proof.
  intros Himplicit.
  pose proof (OnDataAcknowledged_core Connection Bbr AckEvent RandomValue Himplicit)
    as (_ & _ & _ & _ & _ & Hstate & _).
  cbv zeta in Hstate.
  rewrite AckUpdateRecovery_state, AckRoundState_new_round in Hstate.
  pose proof (Core_fields _ _ (proj1 (AckBeforeRecovery_core Bbr AckEvent)))
    as (_ & _ & B3 & _ & B5 & _).
  pose proof (AckRoundState_core Bbr AckEvent) as (_ & _ & C3 & _ & C5 & _).
  cbv zeta in C3, C5.
  rewrite B3, B5, C3, C5 in Hstate. exact Hstate.
Qed.

(** X6: what an explicit acknowledgement does to the recovery state.  It
    never enters recovery.  In recovery it leaves for NotRecovery exactly
    when the ack reports no loss and acknowledges a packet beyond
    [EndOfRecovery]; otherwise the state becomes Growth if the ack starts a
    new round and is kept if it does not. *)
Theorem Ack_recovery_transitions :
  forall (Connection : QUIC_CONNECTION) (Bbr : BBR)
         (AckEvent : Ack.QUIC_ACK_EVENT) (RandomValue : Z),
    Ack.IsImplicit AckEvent = false ->
    let Bbr' :=
      fst (BbrCongestionControlOnDataAcknowledged Connection Bbr AckEvent RandomValue) in
    let NewRoundTrip :=
      negb (EndOfRoundTripValid Bbr)
      || (EndOfRoundTrip Bbr <? Ack.LargestAck AckEvent) in
    (RecoveryState Bbr = RECOVERY_STATE_NOT_RECOVERY ->
     RecoveryState Bbr' = RECOVERY_STATE_NOT_RECOVERY)
    /\ (RecoveryState Bbr <> RECOVERY_STATE_NOT_RECOVERY ->
        Ack.HasLoss AckEvent = false ->
        EndOfRecovery Bbr < Ack.LargestAck AckEvent ->
        RecoveryState Bbr' = RECOVERY_STATE_NOT_RECOVERY)
    /\ (RecoveryState Bbr <> RECOVERY_STATE_NOT_RECOVERY ->
        Ack.HasLoss AckEvent = true \/ Ack.LargestAck AckEvent <= EndOfRecovery Bbr ->
        RecoveryState Bbr'
        = if NewRoundTrip then RECOVERY_STATE_GROWTH else RecoveryState Bbr).
Proof.
  intros Connection Bbr AckEvent r Himplicit Bbr' NewRoundTrip.
  pose proof (OnDataAcknowledged_recovery_state Connection Bbr AckEvent r Himplicit)
    as Hstate.
  fold Bbr' NewRoundTrip in Hstate. rewrite Hstate.
  repeat split.
  - intros ->. reflexivity.
  - intros Hin Hloss Hbeyond. apply Z.ltb_lt in Hbeyond. rewrite Hloss, Hbeyond.
    destruct (RecoveryState Bbr); [congruence| |]; reflexivity.
  - intros Hin Hstay.
    assert (Hcond : negb (Ack.HasLoss AckEvent)
                    && (EndOfRecovery Bbr <? Ack.LargestAck AckEvent) = false).
    { destruct Hstay as [-> | Hle]; [reflexivity|].
      apply Z.ltb_ge in Hle. rewrite Hle. apply andb_false_r. }
    rewrite Hcond.
    destruct (RecoveryState Bbr); [congruence| |]; destruct NewRoundTrip; reflexivity.
Qed.

Lemma OnDataLost_marks
  (Connection : QUIC_CONNECTION) (Bbr : BBR) (LossEvent : Loss.QUIC_LOSS_EVENT) :
  let Bbr' := BbrCongestionControlOnDataLost Connection Bbr LossEvent in
  EndOfRecoveryValid Bbr' = true
  /\ EndOfRecovery Bbr' = Loss.LargestSentPacketNumber LossEvent
  /\ RecoveryState Bbr'
     = match RecoveryState Bbr with
       | RECOVERY_STATE_NOT_RECOVERY => RECOVERY_STATE_CONSERVATIVE
       | s => s
       end
  /\ CongestionWindow Bbr' = CongestionWindow Bbr
  /\ BbrState Bbr' = BbrState Bbr.
Proof.
  unfold BbrCongestionControlOnDataLost, BbrCongestionControlInRecovery. cbv zeta. cbn.
  destruct (RecoveryState Bbr) eqn:Hstate; cbn;
    destruct (Loss.PersistentCongestion LossEvent); cbn;
    rewrite ?Hstate; repeat split.
Qed.

(** X7: a loss event always leaves the controller in recovery: from
    NotRecovery it enters Conservative, and Conservative and Growth are kept.
    With [PersistentCongestion] set the recovery window becomes [min_cwnd]
    whatever it was, and (the stored window being at least [min_cwnd]) so
    does the congestion window the controller reports. *)
Theorem Loss_keeps_recovery_and_persistent_congestion_collapses_window :
  forall (Connection : QUIC_CONNECTION) (Bbr : BBR) (LossEvent : Loss.QUIC_LOSS_EVENT),
    let Bbr' := BbrCongestionControlOnDataLost Connection Bbr LossEvent in
    RecoveryState Bbr' <> RECOVERY_STATE_NOT_RECOVERY
    /\ RecoveryState Bbr'
       = match RecoveryState Bbr with
         | RECOVERY_STATE_NOT_RECOVERY => RECOVERY_STATE_CONSERVATIVE
         | s => s
         end
    /\ (Loss.PersistentCongestion LossEvent = true ->
        RecoveryWindow Bbr' = MinCongestionWindow Connection
        /\ (MinCongestionWindow Connection <= CongestionWindow Bbr ->
            BbrCongestionControlGetCongestionWindow Connection Bbr'
            = MinCongestionWindow Connection)).
Proof.
  intros Connection Bbr LossEvent Bbr'.
  pose proof (OnDataLost_marks Connection Bbr LossEvent)
    as (_ & _ & Hstate & Hcwnd & Hphase).
  cbv zeta in Hstate, Hcwnd, Hphase. fold Bbr' in Hstate, Hcwnd, Hphase.
  split; [rewrite Hstate; destruct (RecoveryState Bbr); discriminate|].
  split; [exact Hstate|].
  intros Hpersistent.
  assert (Hwindow : RecoveryWindow Bbr' = MinCongestionWindow Connection).
  { subst Bbr'. unfold BbrCongestionControlOnDataLost. cbv zeta.
    destruct (negb (BbrCongestionControlInRecovery _));
      rewrite Hpersistent; reflexivity. }
  split; [exact Hwindow|].
  intros Hfloor.
  unfold BbrCongestionControlGetCongestionWindow, BbrCongestionControlInRecovery.
  rewrite Hwindow, Hcwnd, CXPLAT_MIN_min.
  destruct (BBR_STATE_eqb (BbrState Bbr') BBR_STATE_PROBE_RTT); [reflexivity|].
  rewrite Hstate. destruct (RecoveryState Bbr); cbn; lia.
Qed.

(** X8: a loss event that arrives in recovery, without persistent
    congestion, keeps the round marker ([EndOfRoundTrip] and its validity),
    moves [EndOfRecovery] to the event's largest sent packet number and
    deflates the recovery window by the lost bytes, down to [min_cwnd] at
    most, when the 32-bit sum of the lost bytes and [min_cwnd] does not
    wrap. *)
Theorem Loss_in_recovery_deflates_window :
  forall (Connection : QUIC_CONNECTION) (Bbr : BBR) (LossEvent : Loss.QUIC_LOSS_EVENT),
    RecoveryState Bbr <> RECOVERY_STATE_NOT_RECOVERY ->
    Loss.PersistentCongestion LossEvent = false ->
    is_u32 (RecoveryWindow Bbr) ->
    0 <= Loss.NumRetransmittableBytes LossEvent ->
    Loss.NumRetransmittableBytes LossEvent + MinCongestionWindow Connection
    <= UINT32_MAX ->
    let Bbr' := BbrCongestionControlOnDataLost Connection Bbr LossEvent in
    EndOfRoundTrip Bbr' = EndOfRoundTrip Bbr
    /\ EndOfRoundTripValid Bbr' = EndOfRoundTripValid Bbr
    /\ EndOfRecovery Bbr' = Loss.LargestSentPacketNumber LossEvent
    /\ RecoveryWindow Bbr'
       = Z.max (RecoveryWindow Bbr - Loss.NumRetransmittableBytes LossEvent)
               (MinCongestionWindow Connection).
Proof.
  intros Connection Bbr LossEvent Hin Hpersistent Hrw Hlost Hfit Bbr'. subst Bbr'.
  pose proof (MinCongestionWindow_range Connection) as Hmin.
  unfold is_u32, UINT32_MAX in *.
  unfold BbrCongestionControlOnDataLost, BbrCongestionControlInRecovery. cbv zeta. cbn.
  rewrite Hpersistent.
  rewrite (u32_small (Loss.NumRetransmittableBytes LossEvent
                      + MinCongestionWindow Connection))
    by (unfold is_u32, UINT32_MAX; lia).
  destruct (RecoveryState Bbr); [congruence| |]; cbn;
    (destruct (Z.gtb_spec (RecoveryWindow Bbr)
                 (Loss.NumRetransmittableBytes LossEvent
                  + MinCongestionWindow Connection));
     [rewrite u32_small by (unfold is_u32, UINT32_MAX; lia)|];
     repeat split; lia).
Qed.

(** In recovery the mark [EndOfRecoveryValid] is set: the condition that
    line 978 asserts. *)
Definition RecoveryMarked (Bbr : BBR) : Prop :=
  RecoveryState Bbr <> RECOVERY_STATE_NOT_RECOVERY -> EndOfRecoveryValid Bbr = true.

Lemma BbrStep_recovery_marked
  (Connection : QUIC_CONNECTION) (Bbr : BBR) (ev : BBR_EVENT) :
  RecoveryMarked Bbr -> RecoveryMarked (BbrStep Connection Bbr ev).
Proof.
  unfold RecoveryMarked. intros Hm. destruct ev; unfold BbrStep.
  - exact Hm.
  - unfold BbrCongestionControlOnDataSent. cbv zeta. case_tests; exact Hm.
  - exact Hm.
  - destruct (Ack.IsImplicit AckEvent) eqn:Himplicit.
    + unfold BbrCongestionControlOnDataAcknowledged. rewrite Himplicit. cbn [fst].
      rewrite (UpdateCongestionWindow_assigns Connection Bbr). exact Hm.
    + pose proof (OnDataAcknowledged_core Connection Bbr AckEvent RandomValue Himplicit)
        as (_ & Hvalid & _).
      pose proof (OnDataAcknowledged_recovery_state
                    Connection Bbr AckEvent RandomValue Himplicit) as Hstate.
      cbv zeta in Hvalid. rewrite Hvalid. intros Hin. apply Hm.
      intros Hnot. apply Hin. rewrite Hstate, Hnot. reflexivity.
  - intros _. apply (OnDataLost_marks Connection Bbr LossEvent).
  - exact Hm.
  - unfold BbrCongestionControlSetAppLimited. case_tests; exact Hm.
  - unfold BbrCongestionControlReset. destruct FullReset; cbn; congruence.
Qed.

End BbrRecovery.

(** ** Phases and their gains *)

Section BbrPhases.

Context {W : Type} `{SlidingWindowExtremum W}.

Local Notation "'BBR'" := (QUIC_CONGESTION_CONTROL_BBR W).

(** The gains each phase runs with: the values its [TransitTo] function
    assigns.  [TransitToProbeRtt] assigns no window gain, so ProbeRTT keeps
    the one of the phase it was entered from. *)
Definition PhaseGains (Bbr : BBR) : Prop :=
  match BbrState Bbr with
  | BBR_STATE_STARTUP => PacingGain Bbr = kHighGain /\ CwndGain Bbr = kHighGain
  | BBR_STATE_DRAIN => PacingGain Bbr = kDrainGain /\ CwndGain Bbr = kHighGain
  | BBR_STATE_PROBE_BW =>
      0 <= PacingCycleIndex Bbr < GAIN_CYCLE_LENGTH
      /\ PacingGain Bbr = kPacingGain (PacingCycleIndex Bbr)
      /\ CwndGain Bbr = kCwndGain
  | BBR_STATE_PROBE_RTT =>
      PacingGain Bbr = GAIN_UNIT
      /\ (CwndGain Bbr = kHighGain \/ CwndGain Bbr = kCwndGain)
  end.

Lemma PhaseGains_same (a b : BBR) : Phase a = Phase b -> PhaseGains a -> PhaseGains b.
Proof.
  unfold Phase, PhaseGains. intros Heq. injection Heq as -> -> -> ->. exact (fun x => x).
Qed.

Lemma kPacingGain_range (i : Z) :
  0 <= i < GAIN_CYCLE_LENGTH ->
  GAIN_UNIT * 3 / 4 <= kPacingGain i <= GAIN_UNIT * 5 / 4
  /\ (i <> 1 -> GAIN_UNIT <= kPacingGain i).
Proof.
  unfold GAIN_CYCLE_LENGTH. intros Hi.
  assert (Hcases : i = 0 \/ i = 1 \/ i = 2 \/ i = 3 \/ i = 4 \/ i = 5 \/ i = 6 \/ i = 7)
    by lia.
  destruct Hcases as [->|[->|[->|[->|[->|[->|[->| ->]]]]]]]; vm_compute;
    repeat split; intros; try discriminate; congruence.
Qed.

Lemma ProbeBw_start_index (r : Z) :
  let i := (r mod (GAIN_CYCLE_LENGTH - 1) + 2) mod GAIN_CYCLE_LENGTH in
  0 <= i < GAIN_CYCLE_LENGTH /\ i <> 1.
Proof.
  unfold GAIN_CYCLE_LENGTH. cbv zeta.
  change (8 - 1) with 7.
  pose proof (Z.mod_pos_bound r 7 ltac:(lia)) as Hr.
  split; [apply Z.mod_pos_bound; lia|].
  destruct (Z.eq_dec (r mod 7) 6) as [-> | Hne]; [vm_compute; discriminate|].
  rewrite Z.mod_small by lia. lia.
Qed.

(** X1: entering ProbeBW.  Whatever the random draw, the cycle index lies in
    [0, 8) and is not 1 (the condition asserted after the draw), so the
    phase never starts on the 3/4 gain: the pacing gain is the table entry of
    the index and at least [GAIN_UNIT]; the window gain is [kCwndGain] and
    the cycle starts at the event time. *)
Theorem TransitToProbeBw_never_starts_on_low_gain :
  forall (Bbr : BBR) (CongestionEventTime RandomValue : Z),
    let Bbr' := BbrCongestionControlTransitToProbeBw Bbr CongestionEventTime RandomValue in
    BbrState Bbr' = BBR_STATE_PROBE_BW
    /\ 0 <= PacingCycleIndex Bbr' < GAIN_CYCLE_LENGTH
    /\ PacingCycleIndex Bbr' <> 1
    /\ PacingGain Bbr' = kPacingGain (PacingCycleIndex Bbr')
    /\ GAIN_UNIT <= PacingGain Bbr' <= GAIN_UNIT * 5 / 4
    /\ CwndGain Bbr' = kCwndGain
    /\ CycleStart Bbr' = CongestionEventTime.
Proof.
  intros Bbr t r Bbr'.
  pose proof (ProbeBw_start_index r) as (Hrange & Hnot1). cbv zeta in Hrange, Hnot1.
  pose proof (kPacingGain_range _ Hrange) as (Hgain & Hhigh).
  subst Bbr'. unfold BbrCongestionControlTransitToProbeBw. cbn.
  repeat split; try tauto; try lia.
Qed.

Lemma TransitToProbeBw_gains (Bbr : BBR) (t r : Z) :
  PhaseGains (BbrCongestionControlTransitToProbeBw Bbr t r).
Proof.
  pose proof (ProbeBw_start_index r) as (Hrange & _). cbv zeta in Hrange.
  unfold PhaseGains, BbrCongestionControlTransitToProbeBw. cbn.
  repeat split; tauto.
Qed.

Lemma TransitToDrain_gains (Bbr : BBR) : PhaseGains (BbrCongestionControlTransitToDrain Bbr).
Proof. unfold PhaseGains. cbn. split; reflexivity. Qed.

Lemma TransitToStartup_gains (Bbr : BBR) :
  PhaseGains (BbrCongestionControlTransitToStartup Bbr).
Proof. unfold PhaseGains. cbn. split; reflexivity. Qed.

Lemma TransitToProbeRtt_gains (Bbr : BBR) (l : Z) :
  PhaseGains Bbr -> PhaseGains (BbrCongestionControlTransitToProbeRtt Bbr l).
Proof.
  unfold PhaseGains. cbn. destruct (BbrState Bbr); intuition.
Qed.

Ltac gains_step Bbr Hg :=
  repeat match goal with
         | |- PhaseGains (if ?c then _ else _) => destruct c
         | |- PhaseGains (BbrCongestionControlTransitToProbeBw _ _ _) =>
             apply TransitToProbeBw_gains
         | |- PhaseGains (BbrCongestionControlTransitToDrain _) =>
             apply TransitToDrain_gains
         | |- PhaseGains (BbrCongestionControlTransitToStartup _) =>
             apply TransitToStartup_gains
         | |- PhaseGains (BbrCongestionControlTransitToProbeRtt _ _) =>
             apply TransitToProbeRtt_gains
         end;
  try exact Hg;
  try (apply (PhaseGains_same Bbr); [reflexivity | exact Hg]).

Lemma HandleAckInProbeRtt_gains
  (Connection : QUIC_CONNECTION) (Bbr : BBR) (n : bool) (l t r : Z) :
  PhaseGains Bbr ->
  PhaseGains (BbrCongestionControlHandleAckInProbeRtt Connection Bbr n l t r).
Proof.
  intros Hg. unfold BbrCongestionControlHandleAckInProbeRtt. cbv zeta.
  gains_step Bbr Hg.
Qed.

Lemma AckTransitions_gains
  (Connection : QUIC_CONNECTION) (Bbr : BBR) (AckEvent : Ack.QUIC_ACK_EVENT)
  (n : bool) (r : Z) :
  PhaseGains Bbr -> PhaseGains (AckTransitions Connection Bbr AckEvent n r).
Proof.
  intros Hg. unfold AckTransitions. cbv zeta.
  repeat match goal with
         | |- PhaseGains (if ?c then _ else _) => destruct c
         | |- PhaseGains (BbrCongestionControlHandleAckInProbeRtt _ _ _ _ _ _) =>
             apply HandleAckInProbeRtt_gains
         | |- PhaseGains (set_ExitingQuiescence _ ?b) =>
             apply (PhaseGains_same b); [reflexivity|]
         | |- PhaseGains (BbrCongestionControlTransitToProbeBw _ _ _) =>
             apply TransitToProbeBw_gains
         | |- PhaseGains (BbrCongestionControlTransitToDrain _) =>
             apply TransitToDrain_gains
         | |- PhaseGains (BbrCongestionControlTransitToProbeRtt _ _) =>
             apply TransitToProbeRtt_gains
         end; exact Hg.
Qed.

Lemma AckAdvancePacingGainCycle_gains
  (Bbr : BBR) (AckEvent : Ack.QUIC_ACK_EVENT) (p : Z) :
  PhaseGains Bbr -> PhaseGains (AckAdvancePacingGainCycle Bbr AckEvent p).
Proof.
  intros Hg. unfold AckAdvancePacingGainCycle.
  destruct (BBR_STATE_eqb (BbrState Bbr) BBR_STATE_PROBE_BW) eqn:Hstate; [|exact Hg].
  apply BBR_STATE_eqb_eq in Hstate. cbv zeta.
  match goal with
  | |- PhaseGains (if ?c then _ else _) => destruct c
  end; [|exact Hg].
  unfold PhaseGains in *. cbn. rewrite Hstate in *.
  destruct Hg as (_ & _ & Hcwnd).
  repeat split; try exact Hcwnd; apply Z.mod_pos_bound; reflexivity.
Qed.

Lemma AckBeforeTransitions_gains
  (Connection : QUIC_CONNECTION) (Bbr : BBR) (AckEvent : Ack.QUIC_ACK_EVENT) :
  PhaseGains Bbr -> PhaseGains (AckBeforeTransitions Connection Bbr AckEvent).
Proof.
  intros Hg. unfold AckBeforeTransitions.
  match goal with
  | |- PhaseGains (AckCheckStartupExit ?b ?n ?a) =>
      pose proof (AckCheckStartupExit_core b n a) as (_ & _ & _ & _ & _ & _ & _ & Hphase);
      cbv zeta in Hphase; apply (PhaseGains_same b); [symmetry; exact Hphase|];
      clear Hphase
  end.
  apply AckAdvancePacingGainCycle_gains.
  match goal with
  | |- PhaseGains (fst (BbrCongestionControlUpdateAckAggregation ?b ?a)) =>
      apply (PhaseGains_same b);
      [symmetry; exact (proj2 (UpdateAckAggregation_core b a))|]
  end.
  match goal with
  | |- PhaseGains (AckUpdateRecovery ?c ?b ?a ?n) =>
      pose proof (AckUpdateRecovery_core c b a n) as (_ & _ & _ & _ & _ & _ & Hphase);
      cbv zeta in Hphase; apply (PhaseGains_same b); [symmetry; exact Hphase|];
      clear Hphase
  end.
  apply (PhaseGains_same (fst (AckRoundState Bbr AckEvent)));
    [symmetry; exact (proj2 (AckBeforeRecovery_core Bbr AckEvent))|].
  pose proof (AckRoundState_core Bbr AckEvent) as (_ & _ & _ & _ & _ & _ & Hphase & _).
  cbv zeta in Hphase.
  apply (PhaseGains_same Bbr); [symmetry; exact Hphase | exact Hg].
Qed.

Lemma BbrStep_gains (Connection : QUIC_CONNECTION) (Bbr : BBR) (ev : BBR_EVENT) :
  PhaseGains Bbr -> PhaseGains (BbrStep Connection Bbr ev).
Proof.
  intros Hg. destruct ev; unfold BbrStep.
  - exact Hg.
  - unfold BbrCongestionControlOnDataSent. cbv zeta. case_tests; exact Hg.
  - exact Hg.
  - destruct (Ack.IsImplicit AckEvent) eqn:Himplicit.
    + unfold BbrCongestionControlOnDataAcknowledged. rewrite Himplicit. cbn [fst].
      apply (PhaseGains_same Bbr); [|exact Hg].
      symmetry. apply UpdateCongestionWindow_phase.
    + rewrite (OnDataAcknowledged_stages Connection Bbr AckEvent RandomValue Himplicit).
      match goal with
      | |- PhaseGains (BbrCongestionControlUpdateCongestionWindow ?c ?b ?t ?a) =>
          apply (PhaseGains_same b);
          [symmetry; apply UpdateCongestionWindow_phase|]
      end.
      apply AckTransitions_gains, AckBeforeTransitions_gains, Hg.
  - unfold BbrCongestionControlOnDataLost, BbrCongestionControlInRecovery. cbv zeta.
    case_tests; exact Hg.
  - exact Hg.
  - unfold BbrCongestionControlSetAppLimited. cbv zeta. case_tests; exact Hg.
  - unfold PhaseGains, BbrCongestionControlReset. destruct FullReset; cbn;
      split; reflexivity.
Qed.

Lemma BbrRun_gains
  (Capacity : Z) (Connection : QUIC_CONNECTION) (Settings : QUIC_SETTINGS_INTERNAL)
  (TimeUs : Z) (evs : list BBR_EVENT) :
  PhaseGains
    (BbrRun Connection
       (BbrCongestionControlInitialize (W := W) Capacity Connection Settings TimeUs) evs).
Proof.
  unfold BbrRun.
  assert (Hinit : PhaseGains
                    (BbrCongestionControlInitialize
                       (W := W) Capacity Connection Settings TimeUs))
    by (unfold PhaseGains; cbn; split; reflexivity).
  revert Hinit.
  generalize (BbrCongestionControlInitialize
                (W := W) Capacity Connection Settings TimeUs).
  induction evs as [|ev rest IH]; intros b Hb; [exact Hb|].
  cbn [fold_left]. apply IH, BbrStep_gains, Hb.
Qed.

Lemma PhaseGains_range (Bbr : BBR) :
  PhaseGains Bbr ->
  kDrainGain <= PacingGain Bbr <= kHighGain
  /\ (CwndGain Bbr = kHighGain \/ CwndGain Bbr = kCwndGain).
Proof.
  intros Hg. unfold PhaseGains in Hg.
  assert (Hhigh : kHighGain = 739) by reflexivity.
  assert (Hdrain : kDrainGain = 88) by reflexivity.
  assert (Hunit : GAIN_UNIT = 256) by reflexivity.
  destruct (BbrState Bbr).
  - destruct Hg as (Hp & Hc). rewrite Hp. split; [lia | left; exact Hc].
  - destruct Hg as (Hp & Hc). rewrite Hp. split; [lia | left; exact Hc].
  - destruct Hg as (Hrange & Hp & Hc).
    pose proof (kPacingGain_range _ Hrange) as (Hgain & _).
    rewrite Hunit in Hgain. change (256 * 3 / 4) with 192 in Hgain.
    change (256 * 5 / 4) with 320 in Hgain.
    rewrite Hp. split; [lia | right; exact Hc].
  - destruct Hg as (Hp & Hc). rewrite Hp. split; [lia | exact Hc].
Qed.

End BbrPhases.

(** ** Invariants of every run *)

Section BbrRunInvariants.

Context {W : Type} `{SlidingWindowExtremum W}.

Local Notation "'BBR'" := (QUIC_CONGESTION_CONTROL_BBR W).

(** Startup lasts exactly until the bottleneck bandwidth is found; Drain and
    ProbeBW are entered only once it is. *)
Definition StartupUntilFound (Bbr : BBR) : Prop :=
  match BbrState Bbr with
  | BBR_STATE_STARTUP => BtlbwFound Bbr = false
  | BBR_STATE_DRAIN | BBR_STATE_PROBE_BW => BtlbwFound Bbr = true
  | BBR_STATE_PROBE_RTT => True
  end.

Lemma StartupUntilFound_same (a b : BBR) :
  BbrState b = BbrState a -> BtlbwFound b = BtlbwFound a ->
  StartupUntilFound a -> StartupUntilFound b.
Proof. unfold StartupUntilFound. intros -> ->. exact (fun x => x). Qed.

Lemma HandleAckInProbeRtt_found
  (Connection : QUIC_CONNECTION) (Bbr : BBR) (n : bool) (l t r : Z) :
  StartupUntilFound Bbr ->
  StartupUntilFound (BbrCongestionControlHandleAckInProbeRtt Connection Bbr n l t r).
Proof.
  intros Hinv. unfold BbrCongestionControlHandleAckInProbeRtt. cbv zeta.
  repeat match goal with
         | |- StartupUntilFound (if BtlbwFound ?b then _ else _) =>
             let Hf := fresh "Hf" in
             destruct (BtlbwFound b) eqn:Hf;
             [ unfold StartupUntilFound; cbn; cbn in Hf; exact Hf
             | unfold StartupUntilFound; cbn; cbn in Hf; exact Hf ]
         | |- StartupUntilFound (if ?c then _ else _) => destruct c
         end;
    exact Hinv.
Qed.

Lemma AckTransitions_found
  (Connection : QUIC_CONNECTION) (Bbr : BBR) (AckEvent : Ack.QUIC_ACK_EVENT)
  (n : bool) (r : Z) :
  (BbrState Bbr <> BBR_STATE_STARTUP -> StartupUntilFound Bbr) ->
  StartupUntilFound (AckTransitions Connection Bbr AckEvent n r).
Proof.
  intros Hweak. unfold AckTransitions. cbv zeta.
  match goal with
  | |- context [BbrCongestionControlTransitToProbeBw ?b _ _] => set (x1 := b)
  end.
  assert (H1 : StartupUntilFound x1).
  { subst x1. destruct (BbrState Bbr) eqn:Hstate; cbn [BBR_STATE_eqb andb];
      try (apply Hweak; discriminate).
    destruct (BtlbwFound Bbr) eqn:Hfound.
    - unfold StartupUntilFound. cbn. exact Hfound.
    - unfold StartupUntilFound. rewrite Hstate. exact Hfound. }
  clearbody x1. clear Hweak.
  match goal with
  | |- context [BbrCongestionControlTransitToProbeRtt ?b _] => set (x2 := b)
  end.
  assert (H2 : StartupUntilFound x2).
  { subst x2. destruct (BbrState x1) eqn:Hstate; cbn [BBR_STATE_eqb andb];
      try exact H1.
    match goal with
    | |- StartupUntilFound (if ?c then _ else _) => destruct c
    end; [|exact H1].
    unfold StartupUntilFound in *. rewrite Hstate in H1. cbn. exact H1. }
  clearbody x2.
  match goal with
  | |- context [set_ExitingQuiescence false ?b] => set (x3 := b)
  end.
  assert (H3 : StartupUntilFound (set_ExitingQuiescence false x3)).
  { apply (StartupUntilFound_same x3); [reflexivity | reflexivity |].
    subst x3.
    match goal with
    | |- StartupUntilFound (if ?c then _ else _) => destruct c
    end; [exact I | exact H2]. }
  clearbody x3.
  match goal with
  | |- StartupUntilFound (if ?c then _ else _) => destruct c
  end; [apply HandleAckInProbeRtt_found|]; exact H3.
Qed.

Lemma AckAdvancePacingGainCycle_state
  (Bbr : BBR) (AckEvent : Ack.QUIC_ACK_EVENT) (p : Z) :
  BbrState (AckAdvancePacingGainCycle Bbr AckEvent p) = BbrState Bbr.
Proof.
  unfold AckAdvancePacingGainCycle.
  destruct (BBR_STATE_eqb (BbrState Bbr) BBR_STATE_PROBE_BW); [|reflexivity].
  cbv zeta.
  match goal with
  | |- BbrState (if ?c then _ else _) = _ => destruct c
  end; reflexivity.
Qed.

Lemma Phase_state (a b : BBR) : Phase a = Phase b -> BbrState a = BbrState b.
Proof. unfold Phase. intros Heq. injection Heq as -> _ _ _. reflexivity. Qed.

Lemma AckBeforeStartupExit_found
  (Connection : QUIC_CONNECTION) (Bbr : BBR) (AckEvent : Ack.QUIC_ACK_EVENT) :
  let x :=
    AckAdvancePacingGainCycle
      (fst (BbrCongestionControlUpdateAckAggregation
              (AckUpdateRecovery Connection (AckBeforeRecovery Bbr AckEvent) AckEvent
                 (snd (AckRoundState Bbr AckEvent)))
              AckEvent))
      AckEvent (BytesInFlight Bbr) in
  BbrState x = BbrState Bbr /\ BtlbwFound x = BtlbwFound Bbr.
Proof.
  cbv zeta.
  rewrite AckAdvancePacingGainCycle_state.
  match goal with
  | |- context [AckAdvancePacingGainCycle ?b ?a ?p] =>
      pose proof (Core_fields _ _ (AckAdvancePacingGainCycle_core b a p))
        as (_ & _ & _ & _ & _ & _ & ->)
  end.
  match goal with
  | |- context [BbrCongestionControlUpdateAckAggregation ?b ?a] =>
      pose proof (UpdateAckAggregation_core b a) as (Hcore & Hphase);
      apply Core_fields in Hcore; destruct Hcore as (_ & _ & _ & _ & _ & _ & ->);
      rewrite (Phase_state _ _ Hphase); clear Hphase
  end.
  match goal with
  | |- context [AckUpdateRecovery ?c ?b ?a ?n] =>
      pose proof (AckUpdateRecovery_core c b a n) as (_ & _ & _ & _ & _ & -> & Hphase);
      cbv zeta in Hphase; rewrite (Phase_state _ _ Hphase); clear Hphase
  end.
  pose proof (AckBeforeRecovery_core Bbr AckEvent) as (Hcore & Hphase).
  apply Core_fields in Hcore. destruct Hcore as (_ & _ & _ & _ & _ & _ & ->).
  rewrite (Phase_state _ _ Hphase). clear Hphase.
  pose proof (AckRoundState_core Bbr AckEvent) as (_ & _ & _ & _ & _ & -> & Hphase & _).
  cbv zeta in Hphase. rewrite (Phase_state _ _ Hphase).
  split; reflexivity.
Qed.

Lemma BbrStep_found (Connection : QUIC_CONNECTION) (Bbr : BBR) (ev : BBR_EVENT) :
  StartupUntilFound Bbr -> StartupUntilFound (BbrStep Connection Bbr ev).
Proof.
  intros Hinv. destruct ev; unfold BbrStep.
  - exact Hinv.
  - unfold BbrCongestionControlOnDataSent. cbv zeta. case_tests; exact Hinv.
  - exact Hinv.
  - destruct (Ack.IsImplicit AckEvent) eqn:Himplicit.
    + unfold BbrCongestionControlOnDataAcknowledged. rewrite Himplicit. cbn [fst].
      rewrite (UpdateCongestionWindow_assigns Connection Bbr). exact Hinv.
    + rewrite (OnDataAcknowledged_stages Connection Bbr AckEvent RandomValue Himplicit).
      match goal with
      | |- StartupUntilFound (BbrCongestionControlUpdateCongestionWindow ?c ?b ?t ?a) =>
          apply (StartupUntilFound_same b);
          [ apply Phase_state, UpdateCongestionWindow_phase
          | apply (Core_fields _ _ (UpdateCongestionWindow_core c b t a)) |]
      end.
      apply AckTransitions_found. intros Hstate.
      unfold AckBeforeTransitions in *.
      pose proof (AckBeforeStartupExit_found Connection Bbr AckEvent) as (Hs & Hf).
      cbv zeta in Hs, Hf.
      match goal with
      | |- StartupUntilFound (AckCheckStartupExit ?b ?n ?a) =>
          pose proof (AckCheckStartupExit_core b n a)
            as (_ & _ & _ & _ & _ & _ & Hmono & Hphase);
          cbv zeta in Hmono, Hphase; apply Phase_state in Hphase
      end.
      rewrite Hphase, Hs in Hstate. rewrite Hf in Hmono.
      unfold StartupUntilFound in *. rewrite Hphase, Hs.
      destruct (BbrState Bbr); try congruence; auto.
  - unfold BbrCongestionControlOnDataLost, BbrCongestionControlInRecovery. cbv zeta.
    case_tests; exact Hinv.
  - exact Hinv.
  - unfold BbrCongestionControlSetAppLimited. cbv zeta. case_tests; exact Hinv.
  - unfold StartupUntilFound, BbrCongestionControlReset. destruct FullReset; reflexivity.
Qed.

(** X10: Startup lasts exactly until the bottleneck bandwidth is found.
    After [Initialize] and any sequence of events the controller is in
    Startup only with [BtlbwFound] clear, and in Drain or ProbeBW only with
    it set: the ack that finds the bandwidth leaves Startup at once, and
    ProbeRTT is left for ProbeBW when the bandwidth is known and for Startup
    when it is not. *)
Theorem Startup_lasts_until_bandwidth_found :
  forall (Capacity : Z) (Connection : QUIC_CONNECTION)
         (Settings : QUIC_SETTINGS_INTERNAL) (TimeUs : Z) (evs : list BBR_EVENT),
    let Bbr : BBR :=
      BbrRun Connection
        (BbrCongestionControlInitialize Capacity Connection Settings TimeUs) evs in
    match BbrState Bbr with
    | BBR_STATE_STARTUP => BtlbwFound Bbr = false
    | BBR_STATE_DRAIN | BBR_STATE_PROBE_BW => BtlbwFound Bbr = true
    | BBR_STATE_PROBE_RTT => True
    end.
Proof.
  intros Capacity Connection Settings TimeUs evs Bbr. subst Bbr. unfold BbrRun.
  change (StartupUntilFound
            (fold_left (BbrStep Connection) evs
               (BbrCongestionControlInitialize
                  (W := W) Capacity Connection Settings TimeUs))).
  assert (Hinit : StartupUntilFound
                    (BbrCongestionControlInitialize
                       (W := W) Capacity Connection Settings TimeUs))
    by reflexivity.
  revert Hinit.
  generalize (BbrCongestionControlInitialize
                (W := W) Capacity Connection Settings TimeUs).
  induction evs as [|ev rest IH]; intros b Hb; [exact Hb|].
  cbn [fold_left]. apply IH, BbrStep_found, Hb.
Qed.

(** X11: in recovery the end of recovery is known.  After [Initialize] and
    any sequence of events, a controller that is in recovery has
    [EndOfRecoveryValid] set, the condition the ack path asserts before it
    compares [EndOfRecovery] with the largest acknowledged packet number. *)
Theorem In_recovery_end_of_recovery_is_valid :
  forall (Capacity : Z) (Connection : QUIC_CONNECTION)
         (Settings : QUIC_SETTINGS_INTERNAL) (TimeUs : Z) (evs : list BBR_EVENT),
    let Bbr : BBR :=
      BbrRun Connection
        (BbrCongestionControlInitialize Capacity Connection Settings TimeUs) evs in
    RecoveryState Bbr <> RECOVERY_STATE_NOT_RECOVERY ->
    EndOfRecoveryValid Bbr = true.
Proof.
  intros Capacity Connection Settings TimeUs evs Bbr. subst Bbr. unfold BbrRun.
  change (RecoveryMarked
            (fold_left (BbrStep Connection) evs
               (BbrCongestionControlInitialize
                  (W := W) Capacity Connection Settings TimeUs))).
  assert (Hinit : RecoveryMarked
                    (BbrCongestionControlInitialize
                       (W := W) Capacity Connection Settings TimeUs))
    by (intros Hin; exfalso; apply Hin; reflexivity).
  revert Hinit.
  generalize (BbrCongestionControlInitialize
                (W := W) Capacity Connection Settings TimeUs).
  induction evs as [|ev rest IH]; intros b Hb; [exact Hb|].
  cbn [fold_left]. apply IH, BbrStep_recovery_marked, Hb.
Qed.

End BbrRunInvariants.

(** ** What one acknowledgement does *)

Section BbrAckEffects.

Context {W : Type} `{SlidingWindowExtremum W}.

Local Notation "'BBR'" := (QUIC_CONGESTION_CONTROL_BBR W).

(** X12: the min-RTT filter on an explicit acknowledgement.  Without an RTT
    sample [MinRtt] is kept.  With a sample it becomes the smaller of the
    stored value and the sample while the stored value has not expired, and
    the sample itself, even when larger, once the stored value is older than
    the expiration time; so it is never above the newest sample. *)
Theorem Ack_min_rtt_is_running_minimum_until_expiry :
  forall (Connection : QUIC_CONNECTION) (Bbr : BBR)
         (AckEvent : Ack.QUIC_ACK_EVENT) (RandomValue : Z),
    Ack.IsImplicit AckEvent = false ->
    let Bbr' :=
      fst (BbrCongestionControlOnDataAcknowledged Connection Bbr AckEvent RandomValue) in
    let Expired :=
      MinRttTimestampValid Bbr
      && CxPlatTimeAtOrBefore64
           (u64 (MinRttTimestamp Bbr + kBbrMinRttExpirationInMicroSecs))
           (Ack.TimeNow AckEvent) in
    (Ack.MinRttValid AckEvent = false -> MinRtt Bbr' = MinRtt Bbr)
    /\ (Ack.MinRttValid AckEvent = true -> Expired = true ->
        MinRtt Bbr' = Ack.MinRtt AckEvent)
    /\ (Ack.MinRttValid AckEvent = true -> Expired = false ->
        MinRtt Bbr' = Z.min (MinRtt Bbr) (Ack.MinRtt AckEvent))
    /\ (Ack.MinRttValid AckEvent = true -> MinRtt Bbr' <= Ack.MinRtt AckEvent).
Proof.
  intros Connection Bbr AckEvent r Himplicit Bbr' Expired.
  pose proof (OnDataAcknowledged_core Connection Bbr AckEvent r Himplicit)
    as (_ & _ & _ & _ & Hrtt & _).
  cbv zeta in Hrtt. fold Bbr' in Hrtt. rewrite Hrtt. clear Hrtt.
  unfold AckUpdateMinRtt. cbn.
  fold Expired.
  assert (Hexp : (if MinRttTimestampValid Bbr
                  then CxPlatTimeAtOrBefore64
                         (u64 (MinRttTimestamp Bbr + kBbrMinRttExpirationInMicroSecs))
                         (Ack.TimeNow AckEvent)
                  else false) = Expired)
    by (subst Expired; destruct (MinRttTimestampValid Bbr); reflexivity).
  destruct (Ack.MinRttValid AckEvent); cbn; rewrite ?Hexp.
  - destruct Expired; cbn.
    + repeat split; intros; try discriminate; try reflexivity; lia.
    + destruct (Z.gtb_spec (MinRtt Bbr) (Ack.MinRtt AckEvent)); cbn;
        repeat split; intros; try discriminate; lia.
  - repeat split; intros; try discriminate; reflexivity.
Qed.

(** X13: leaving ProbeRTT.  An ack handled in ProbeRTT leaves the phase
    exactly when the ProbeRTT timer had been armed before this ack, a round
    trip has been seen since (before, or with this ack) and the timer's end
    time is at or before the ack time; the phase left for is ProbeBW when the
    bottleneck bandwidth is known and Startup otherwise, and the min-RTT
    timestamp is renewed to the ack time.  The ack that arms the timer sets
    it to the ack time plus [kProbeRttTimeInUs] and never leaves.  The
    bandwidth filter is marked app-limited in every case. *)
Theorem ProbeRtt_is_left_when_timer_and_round_are_done :
  forall (Connection : QUIC_CONNECTION) (Bbr : BBR) (NewRoundTrip : bool)
         (LargestSentPacketNumber AckTime RandomValue : Z),
    BbrState Bbr = BBR_STATE_PROBE_RTT ->
    let Bbr' :=
      BbrCongestionControlHandleAckInProbeRtt
        Connection Bbr NewRoundTrip LargestSentPacketNumber AckTime RandomValue in
    BbrState Bbr'
    = (if ProbeRttEndTimeValid Bbr
          && (ProbeRttRoundValid Bbr || NewRoundTrip)
          && CxPlatTimeAtOrBefore64 (ProbeRttEndTime Bbr) AckTime
       then if BtlbwFound Bbr then BBR_STATE_PROBE_BW else BBR_STATE_STARTUP
       else BBR_STATE_PROBE_RTT)
    /\ (BbrState Bbr' <> BBR_STATE_PROBE_RTT ->
        MinRttTimestampValid Bbr' = true /\ MinRttTimestamp Bbr' = AckTime)
    /\ (ProbeRttEndTimeValid Bbr = false ->
        ProbeRttEndTimeValid Bbr' = true ->
        ProbeRttEndTime Bbr' = u64 (AckTime + kProbeRttTimeInUs))
    /\ AppLimited (BandwidthFilter Bbr') = true
    /\ AppLimitedExitTarget (BandwidthFilter Bbr') = LargestSentPacketNumber.
Proof.
  intros Connection Bbr n l t r Hstate Bbr'. subst Bbr'.
  unfold BbrCongestionControlHandleAckInProbeRtt. cbv zeta.
  cbn [ProbeRttEndTimeValid ProbeRttRoundValid ProbeRttEndTime BytesInFlight
       set_BandwidthFilter BandwidthFilter].
  destruct (ProbeRttEndTimeValid Bbr) eqn:Harmed; cbn [negb andb].
  - destruct (ProbeRttRoundValid Bbr) eqn:Hround; destruct n;
      cbn -[CxPlatTimeAtOrBefore64]; rewrite ?Hround; cbn [andb orb];
      destruct (CxPlatTimeAtOrBefore64 (ProbeRttEndTime Bbr) t);
      destruct (BtlbwFound Bbr) eqn:Hfound;
      cbn; rewrite ?Hstate, ?Hfound;
      repeat split; intros; try discriminate; try reflexivity; congruence.
  - match goal with
    | |- context [if ?c then _ else _] => destruct c
    end; cbn; rewrite ?Hstate, ?Harmed;
      repeat split; intros; try discriminate; try reflexivity; congruence.
Qed.

Lemma GetTargetCwnd_nonneg (Bbr : BBR) (Gain : Z) :
  0 <= BbrCongestionControlGetTargetCwnd Bbr Gain.
Proof.
  unfold BbrCongestionControlGetTargetCwnd. cbv zeta.
  destruct (_ || _); apply u32_range.
Qed.

Lemma UpdateCongestionWindow_growth
  (Connection : QUIC_CONNECTION) (Bbr : BBR) (TotalBytesAcked AckedBytes : Z) :
  0 <= AckedBytes ->
  0 <= CongestionWindow Bbr ->
  CongestionWindow Bbr + AckedBytes <= UINT32_MAX ->
  let Bbr' := BbrCongestionControlUpdateCongestionWindow
                Connection Bbr TotalBytesAcked AckedBytes in
  CongestionWindow Bbr'
  <= Z.max (CongestionWindow Bbr + AckedBytes) (MinCongestionWindow Connection)
  /\ (BtlbwFound Bbr = false -> CongestionWindow Bbr <= CongestionWindow Bbr')
  /\ (BbrState Bbr <> BBR_STATE_PROBE_RTT ->
      MinCongestionWindow Connection <= CongestionWindow Bbr').
Proof.
  intros Hacked Hcwnd Hfit. cbv zeta.
  unfold BbrCongestionControlUpdateCongestionWindow.
  destruct (BBR_STATE_eqb (BbrState Bbr) BBR_STATE_PROBE_RTT) eqn:Hstate.
  - apply BBR_STATE_eqb_eq in Hstate. repeat split; try lia. congruence.
  - cbv zeta.
    assert (Hq : forall b : BBR,
               CongestionWindow (BbrCongestionControlSetSendQuantum Connection b)
               = CongestionWindow b
               /\ BtlbwFound (BbrCongestionControlSetSendQuantum Connection b)
                  = BtlbwFound b)
      by (intros b; unfold BbrCongestionControlSetSendQuantum; cbv zeta;
          case_tests; split; reflexivity).
    destruct (Hq Bbr) as (Hq1 & Hq2).
    cbn [CongestionWindow set_CongestionWindow]. rewrite Hq1, Hq2.
    rewrite CXPLAT_MAX_max.
    unfold UINT32_MAX in Hfit.
    assert (Hsum : u32 (CongestionWindow Bbr + u32 AckedBytes)
                   = CongestionWindow Bbr + AckedBytes).
    { rewrite (u32_small AckedBytes) by (unfold is_u32, UINT32_MAX; lia).
      apply u32_small. unfold is_u32, UINT32_MAX. lia. }
    destruct (BtlbwFound Bbr).
    + match goal with
      | |- context [CXPLAT_MIN ?T _] =>
          assert (HT : 0 <= T)
            by (destruct (QuicSlidingWindowExtremumGet _);
                [apply u64_range | apply GetTargetCwnd_nonneg]);
          generalize dependent T
      end.
      intros T HT. rewrite CXPLAT_MIN_min.
      rewrite (u64_small (CongestionWindow Bbr + AckedBytes))
        by (unfold is_u64, UINT64_MAX; lia).
      rewrite u32_small by (unfold is_u32, UINT32_MAX; lia).
      repeat split; intros; try discriminate; lia.
    + match goal with
      | |- context [if ?c then _ else _] => destruct c
      end; rewrite ?Hsum; repeat split; intros; lia.
Qed.

Lemma AckTransitions_cwnd
  (Connection : QUIC_CONNECTION) (Bbr : BBR) (AckEvent : Ack.QUIC_ACK_EVENT) (r : Z) :
  CongestionWindow
    (AckTransitions Connection (AckBeforeTransitions Connection Bbr AckEvent)
       AckEvent (snd (AckRoundState Bbr AckEvent)) r)
  = CongestionWindow Bbr.
Proof.
  rewrite (proj1 (AckTransitions_windows _ _ _ _ _)).
  unfold AckBeforeTransitions.
  rewrite (proj1 (AckCheckStartupExit_windows _ _ _)).
  rewrite (proj1 (AckAdvancePacingGainCycle_windows _ _ _)).
  rewrite (proj1 (UpdateAckAggregation_windows _ _)).
  assert (Hrec : forall (b : BBR) (n : bool),
             CongestionWindow (AckUpdateRecovery Connection b AckEvent n)
             = CongestionWindow b)
    by (intros b n; unfold AckUpdateRecovery, BbrCongestionControlUpdateRecoveryWindow;
        cbv zeta; case_tests; reflexivity).
  rewrite Hrec. unfold AckBeforeRecovery. cbv zeta.
  rewrite (proj1 (AckTrackRecentDeliveryRate_windows _ _ _)).
  cbn [CongestionWindow set_BandwidthFilter].
  unfold AckRoundState.
  rewrite (proj1 (AckUpdateRoundTrip_windows _ _)).
  rewrite (proj1 (AckUpdateMinRtt_windows _ _)).
  reflexivity.
Qed.

(** X14: how far one acknowledgement moves the congestion window.  When
    the 32-bit sum of the window and the acked bytes does not wrap, the
    window after the ack is at most the larger of that sum and [min_cwnd]:
    it grows by no more than the bytes acknowledged.  While the bottleneck
    bandwidth has not been found (after this ack's startup check) it does
    not shrink either; and outside ProbeRTT it is at least [min_cwnd]. *)
Theorem Ack_grows_window_by_at_most_acked_bytes :
  forall (Connection : QUIC_CONNECTION) (Bbr : BBR)
         (AckEvent : Ack.QUIC_ACK_EVENT) (RandomValue : Z),
    0 <= Ack.NumRetransmittableBytes AckEvent ->
    0 <= CongestionWindow Bbr ->
    CongestionWindow Bbr + Ack.NumRetransmittableBytes AckEvent <= UINT32_MAX ->
    let Bbr' :=
      fst (BbrCongestionControlOnDataAcknowledged Connection Bbr AckEvent RandomValue) in
    CongestionWindow Bbr'
    <= Z.max (CongestionWindow Bbr + Ack.NumRetransmittableBytes AckEvent)
             (MinCongestionWindow Connection)
    /\ (BtlbwFound Bbr' = false -> CongestionWindow Bbr <= CongestionWindow Bbr')
    /\ (BbrState Bbr' <> BBR_STATE_PROBE_RTT ->
        MinCongestionWindow Connection <= CongestionWindow Bbr').
Proof.
  intros Connection Bbr AckEvent r Hacked Hcwnd Hfit Bbr'. subst Bbr'.
  destruct (Ack.IsImplicit AckEvent) eqn:Himplicit.
  - unfold BbrCongestionControlOnDataAcknowledged. rewrite Himplicit. cbn [fst].
    pose proof (UpdateCongestionWindow_growth Connection Bbr
                  (Ack.NumTotalAckedRetransmittableBytes AckEvent)
                  (Ack.NumRetransmittableBytes AckEvent) Hacked Hcwnd Hfit)
      as (Hup & Hkeep & Hmin).
    cbv zeta in Hup, Hkeep, Hmin.
    rewrite (Phase_state _ _ (UpdateCongestionWindow_phase _ _ _ _)).
    destruct (Core_fields _ _ (UpdateCongestionWindow_core Connection Bbr
                (Ack.NumTotalAckedRetransmittableBytes AckEvent)
                (Ack.NumRetransmittableBytes AckEvent)))
      as (_ & _ & _ & _ & _ & _ & ->).
    repeat split; assumption.
  - rewrite (OnDataAcknowledged_stages Connection Bbr AckEvent r Himplicit).
    pose proof (AckTransitions_cwnd Connection Bbr AckEvent r) as Hsame.
    match goal with
    | |- context [BbrCongestionControlUpdateCongestionWindow ?c ?b ?t ?a] =>
        pose proof (UpdateCongestionWindow_growth c b t a) as Hgrow;
        rewrite (Phase_state _ _ (UpdateCongestionWindow_phase c b t a));
        destruct (Core_fields _ _ (UpdateCongestionWindow_core c b t a))
          as (_ & _ & _ & _ & _ & _ & ->)
    end.
    cbv zeta in Hgrow. rewrite Hsame in Hgrow.
    exact (Hgrow Hacked Hcwnd Hfit).
Qed.

Lemma BandwidthFilterOnPackets_flags
  (AckEvent : Ack.QUIC_ACK_EVENT) (RttCounter : Z)
  (pkts : list Packet.QUIC_SENT_PACKET_METADATA) :
  forall b : BBR_BANDWIDTH_FILTER W,
    let b' :=
      fold_left
        (fun b AckedPacket => BbrBandwidthFilterOnOnePacket b AckEvent RttCounter AckedPacket)
        pkts b in
    AppLimited b' = AppLimited b
    /\ AppLimitedExitTarget b' = AppLimitedExitTarget b.
Proof.
  induction pkts as [|pkt rest IH]; intros b; cbn [fold_left]; [split; reflexivity|].
  cbv zeta in IH |- *.
  destruct (IH (BbrBandwidthFilterOnOnePacket b AckEvent RttCounter pkt)) as (-> & ->).
  unfold BbrBandwidthFilterOnOnePacket.
  destruct (PacketDeliveryRate AckEvent pkt); [|split; reflexivity].
  cbv zeta. destruct (_ || _); split; reflexivity.
Qed.

(** X15: the app-limited mark of the bandwidth filter under an ack.  The
    filter never becomes app-limited by an ack; an app-limited filter stops
    being so exactly when the ack's largest acknowledged packet number is
    beyond the exit target; the exit target itself is never changed. *)
Theorem Ack_ends_app_limited_period_beyond_exit_target :
  forall (b : BBR_BANDWIDTH_FILTER W) (AckEvent : Ack.QUIC_ACK_EVENT) (RttCounter : Z),
    let b' := BbrBandwidthFilterOnPacketAcked b AckEvent RttCounter in
    AppLimited b'
    = AppLimited b && negb (AppLimitedExitTarget b <? Ack.LargestAck AckEvent)
    /\ AppLimitedExitTarget b' = AppLimitedExitTarget b.
Proof.
  intros b AckEvent RttCounter. cbv zeta.
  unfold BbrBandwidthFilterOnPacketAcked. cbv zeta.
  match goal with
  | |- context [fold_left ?f ?l ?x] =>
      destruct (BandwidthFilterOnPackets_flags AckEvent RttCounter l x) as (Ha & Ht)
  end.
  cbv zeta in Ha, Ht. rewrite Ha, Ht.
  destruct (AppLimited b) eqn:Hlimited;
    destruct (AppLimitedExitTarget b <? Ack.LargestAck AckEvent);
    cbn; rewrite ?Hlimited; split; reflexivity.
Qed.

End BbrAckEffects.

(** ** The Kalman filter over sequences of operations *)

Section KalmanRuns.

Inductive KALMAN_OP : Type :=
| KalmanUpdate (Measurement : float)
| KalmanPredict
| KalmanReset.

Definition KalmanStep (Filter : QUIC_KALMAN_FILTER) (op : KALMAN_OP) : QUIC_KALMAN_FILTER :=
  match op with
  | KalmanUpdate Measurement => QuicKalmanFilterUpdate Filter Measurement
  | KalmanPredict => QuicKalmanFilterPredict Filter
  | KalmanReset => QuicKalmanFilterReset Filter
  end.

Definition KalmanRun (Filter : QUIC_KALMAN_FILTER) (ops : list KALMAN_OP)
  : QUIC_KALMAN_FILTER :=
  fold_left KalmanStep ops Filter.

Lemma KalmanStep_noise (Filter : QUIC_KALMAN_FILTER) (op : KALMAN_OP) :
  ProcessNoise (KalmanStep Filter op) = ProcessNoise Filter
  /\ MeasurementNoise (KalmanStep Filter op) = MeasurementNoise Filter.
Proof.
  destruct op; cbn [KalmanStep];
    unfold QuicKalmanFilterUpdate, QuicKalmanFilterPredict, QuicKalmanFilterReset;
    destruct (Initialized Filter); split; reflexivity.
Qed.

(** X16: the two noise parameters are constants of a filter: no sequence of
    updates, predictions and resets changes [ProcessNoise] or
    [MeasurementNoise]. *)
Theorem Kalman_noise_parameters_are_constant :
  forall (Filter : QUIC_KALMAN_FILTER) (ops : list KALMAN_OP),
    ProcessNoise (KalmanRun Filter ops) = ProcessNoise Filter
    /\ MeasurementNoise (KalmanRun Filter ops) = MeasurementNoise Filter.
Proof.
  intros Filter ops. revert Filter. unfold KalmanRun.
  induction ops as [|op rest IH]; intros Filter; cbn [fold_left]; [split; reflexivity|].
  destruct (IH (KalmanStep Filter op)) as (-> & ->). apply KalmanStep_noise.
Qed.

(** X17: a reset filter reports 0 and then adopts the first measurement as
    it is: after [Reset] the estimate is 0 whatever the state was, the next
    [Update] makes the estimate the measurement and the covariance the
    measurement noise, and predictions in between change nothing. *)
Theorem Kalman_reset_then_first_measurement :
  forall (Filter : QUIC_KALMAN_FILTER) (Measurement : float) (n : nat),
    let Cold := KalmanRun (QuicKalmanFilterReset Filter) (repeat KalmanPredict n) in
    let Warm := QuicKalmanFilterUpdate Cold Measurement in
    QuicKalmanFilterGetEstimate Cold = 0%float
    /\ Cold = QuicKalmanFilterReset Filter
    /\ QuicKalmanFilterGetEstimate Warm = Measurement
    /\ Covariance Warm = MeasurementNoise Filter
    /\ Initialized Warm = true.
Proof.
  intros Filter Measurement n.
  assert (Hcold : KalmanRun (QuicKalmanFilterReset Filter) (repeat KalmanPredict n)
                  = QuicKalmanFilterReset Filter).
  { unfold KalmanRun. induction n as [|n IH]; [reflexivity|].
    cbn [repeat fold_left KalmanStep]. exact IH. }
  cbv zeta. rewrite Hcold. repeat split.
Qed.

(** X18: the covariance floor.  After [Update] on an initialised filter the
    covariance is not below [1e-9]: the comparison [Covariance < 1e-9] of the
    code is false on the stored value, for every state and measurement (a
    covariance that is not a number is left as it is, the comparison being
    false on it too). *)
Theorem Kalman_update_covariance_not_below_floor :
  forall (Filter : QUIC_KALMAN_FILTER) (Measurement : float),
    Initialized Filter = true ->
    PrimFloat.ltb
      (Covariance (QuicKalmanFilterUpdate Filter Measurement)) kMinCovariance
    = false.
Proof.
  intros Filter Measurement Hinit.
  unfold QuicKalmanFilterUpdate. rewrite Hinit. cbn [negb Covariance].
  match goal with
  | |- PrimFloat.ltb (if ?c then _ else _) _ = false => destruct c eqn:Hlow
  end.
  - vm_compute. reflexivity.
  - exact Hlow.
Qed.

End KalmanRuns.

(** ** The packet-level logger *)

Lemma ArrayUpdate_length (E : Type) (f : E -> E) (Array : list E) :
  forall Index : nat, length (ArrayUpdate Array Index f) = length Array.
Proof.
  induction Array as [|x rest IH]; intros [|n]; cbn; try reflexivity.
  rewrite IH. reflexivity.
Qed.

Lemma ArrayUpdate_nth (E : Type) (f : E -> E) (d : E) (Array : list E) :
  forall Index i : nat,
    (Index < length Array)%nat ->
    nth i (ArrayUpdate Array Index f) d
    = if Nat.eqb i Index then f (nth i Array d) else nth i Array d.
Proof.
  induction Array as [|x rest IH]; intros [|n] [|i] Hlt; cbn in *; try lia;
    try reflexivity.
  apply IH. lia.
Qed.

Lemma div_next (c r : Z) :
  0 < r -> (c + 1) / r = c / r + (if (c + 1) mod r =? 0 then 1 else 0).
Proof.
  intros Hr.
  pose proof (Z.div_mod c r ltac:(lia)) as Hc.
  pose proof (Z.mod_pos_bound c r Hr) as Hcm.
  destruct (Z.eq_dec (c mod r) (r - 1)) as [Hlast | Hnot].
  - assert (Hm : (c + 1) mod r = 0)
      by (symmetry; apply (Z.mod_unique (c + 1) r (c / r + 1) 0); lia).
    rewrite Hm. cbn.
    symmetry. apply (Z.div_unique (c + 1) r (c / r + 1) 0); lia.
  - assert (Hm : (c + 1) mod r = c mod r + 1)
      by (symmetry; apply (Z.mod_unique (c + 1) r (c / r) (c mod r + 1)); lia).
    rewrite Hm. destruct (Z.eqb_spec (c mod r + 1) 0); [lia|].
    rewrite Z.add_0_r.
    symmetry. apply (Z.div_unique (c + 1) r (c / r) (c mod r + 1)); lia.
Qed.

Section PacketLoggingProperties.

Context {W : Type} `{SlidingWindowExtremum W}.

(** The calls that record an event. *)
Inductive LOG_CALL : Type :=
| LogPacketSent (Cc : QUIC_CONGESTION_CONTROL W) (PacketNumber PacketSize TimeUs : Z)
| LogPacketAcknowledged (Cc : QUIC_CONGESTION_CONTROL W) (PacketNumber PacketSize AckTime : Z)
| LogPacketLost (Cc : QUIC_CONGESTION_CONTROL W) (PacketNumber PacketSize TimeUs : Z)
| LogStateChange (Cc : QUIC_CONGESTION_CONTROL W) (OldState NewState : BBR_STATE_NAME)
    (TimeUs : Z).

Definition LogStep
  (s : LOG_GLOBALS * option Logger.BBR_PACKET_LOGGER) (c : LOG_CALL)
  : LOG_GLOBALS * option Logger.BBR_PACKET_LOGGER :=
  match c with
  | LogPacketSent Cc n size t =>
      BbrPacketLevelLoggingRecordPacketSent (fst s) (snd s) Cc n size t
  | LogPacketAcknowledged Cc n size t =>
      BbrPacketLevelLoggingRecordPacketAcknowledged (fst s) (snd s) Cc n size t
  | LogPacketLost Cc n size t =>
      BbrPacketLevelLoggingRecordPacketLost (fst s) (snd s) Cc n size t
  | LogStateChange Cc old new t =>
      BbrPacketLevelLoggingRecordStateChange (fst s) (snd s) Cc old new t
  end.

Definition LogRun
  (s : LOG_GLOBALS * option Logger.BBR_PACKET_LOGGER) (cs : list LOG_CALL)
  : LOG_GLOBALS * option Logger.BBR_PACKET_LOGGER :=
  fold_left LogStep cs s.

(** The function a call applies to the entry it writes. *)
Definition LogFill (c : LOG_CALL) : Log.BBR_PACKET_LOG_ENTRY -> Log.BBR_PACKET_LOG_ENTRY :=
  match c with
  | LogPacketSent Cc n size t =>
      fun Entry => ExtractBbrStateInfo Cc (EntryBasic t BBR_PACKET_EVENT_SENT n size Entry)
  | LogPacketAcknowledged Cc n size t =>
      fun Entry =>
        ExtractBbrStateInfo Cc (EntryBasic t BBR_PACKET_EVENT_ACKNOWLEDGED n size Entry)
  | LogPacketLost Cc n size t =>
      fun Entry => ExtractBbrStateInfo Cc (EntryBasic t BBR_PACKET_EVENT_LOST n size Entry)
  | LogStateChange Cc old new t =>
      fun Entry =>
        ExtractBbrStateInfo Cc (EntryBasic t BBR_PACKET_EVENT_STATE_CHANGE 0 0 Entry)
  end.

(** The entry a call writes: nothing of the slot's old content is kept. *)
Definition LogEntryOf (c : LOG_CALL) : Log.BBR_PACKET_LOG_ENTRY := LogFill c ZeroEntry.

Lemma LogFill_overwrites (c : LOG_CALL) (Entry : Log.BBR_PACKET_LOG_ENTRY) :
  LogFill c Entry = LogEntryOf c.
Proof. destruct c; reflexivity. Qed.

Lemma LogStep_record (s : LOG_GLOBALS * option Logger.BBR_PACKET_LOGGER) (c : LOG_CALL) :
  LogStep s c = LogRecord (fst s) (snd s) (LogFill c).
Proof. destruct c; reflexivity. Qed.

(** The ring holds the history [h] of written entries: the slot of the
    [k]-th written entry, for the last [MaxEntries] of them, is
    [k mod MaxEntries]. *)
Definition Holds (Max : Z) (L : Logger.BBR_PACKET_LOGGER)
  (h : list Log.BBR_PACKET_LOG_ENTRY) : Prop :=
  Logger.Enabled L = true
  /\ Logger.MaxEntries L = Max
  /\ Logger.CurrentIndex L = Z.of_nat (length h) mod Max
  /\ Logger.TotalEntries L = Z.min (Z.of_nat (length h)) Max
  /\ exists Array,
       Logger.Entries L = Some Array
       /\ Z.of_nat (length Array) = Max
       /\ forall k : Z,
            0 <= k -> Z.of_nat (length h) - Max <= k < Z.of_nat (length h) ->
            nth (Z.to_nat (k mod Max)) Array ZeroEntry = nth (Z.to_nat k) h ZeroEntry.

Definition EffectiveMaxEntries (MaxEntries : Z) : Z :=
  if MaxEntries =? 0 then BBR_PACKET_LOG_DEFAULT_MAX_ENTRIES else MaxEntries.

Lemma EffectiveMaxEntries_pos (MaxEntries : Z) :
  0 <= MaxEntries -> 0 < EffectiveMaxEntries MaxEntries.
Proof.
  unfold EffectiveMaxEntries, BBR_PACKET_LOG_DEFAULT_MAX_ENTRIES.
  destruct (Z.eqb_spec MaxEntries 0); lia.
Qed.

Lemma Initialize_holds (L0 : Logger.BBR_PACKET_LOGGER) (MaxEntries : Z) :
  0 <= MaxEntries ->
  exists L,
    BbrPacketLevelLoggingInitialize (Some L0) MaxEntries true
    = (QUIC_STATUS_SUCCESS, Some L)
    /\ Holds (EffectiveMaxEntries MaxEntries) L [].
Proof.
  intros Hm. pose proof (EffectiveMaxEntries_pos MaxEntries Hm) as Hpos.
  unfold BbrPacketLevelLoggingInitialize. cbn [negb].
  fold (EffectiveMaxEntries MaxEntries).
  eexists. split; [reflexivity|].
  unfold Holds. cbn.
  repeat split; try (rewrite Z.mod_0_l; lia); try lia.
  eexists. split; [reflexivity|]. split.
  - rewrite repeat_length. lia.
  - intros k Hk Hrange. lia.
Qed.

Lemma Write_holds
  (Max : Z) (L : Logger.BBR_PACKET_LOGGER) (h : list Log.BBR_PACKET_LOG_ENTRY)
  (Array : list Log.BBR_PACKET_LOG_ENTRY) (c : LOG_CALL) :
  0 < Max <= UINT32_MAX ->
  Holds Max L h ->
  Logger.Entries L = Some Array ->
  Holds Max
    {| Logger.Enabled := Logger.Enabled L;
       Logger.MaxEntries := Logger.MaxEntries L;
       Logger.CurrentIndex := u32 (Logger.CurrentIndex L + 1) mod Logger.MaxEntries L;
       Logger.TotalEntries :=
         if Logger.TotalEntries L <? Logger.MaxEntries L
         then u32 (Logger.TotalEntries L + 1) else Logger.TotalEntries L;
       Logger.Entries :=
         Some (ArrayUpdate Array (Z.to_nat (Logger.CurrentIndex L)) (LogFill c)) |}
    (h ++ [LogEntryOf c]).
Proof.
  unfold UINT32_MAX. intros HMax (Hen & Hmax & Hidx & Htotal & arr & Harr & Hlen & Hslots) HA.
  rewrite Harr in HA. injection HA as <-.
  pose proof (Z.mod_pos_bound (Z.of_nat (length h)) Max ltac:(lia)) as Hbound.
  unfold Holds. cbn [Logger.Enabled Logger.MaxEntries Logger.CurrentIndex
                     Logger.TotalEntries Logger.Entries].
  rewrite length_app. cbn [length]. rewrite Nat2Z.inj_add. cbn [Z.of_nat Pos.of_succ_nat].
  rewrite Hmax, Hidx, Htotal.
  split; [exact Hen|]. split; [reflexivity|]. split.
  { rewrite u32_small by (unfold is_u32, UINT32_MAX; lia).
    apply Zplus_mod_idemp_l. }
  split.
  { destruct (Z.ltb_spec (Z.min (Z.of_nat (length h)) Max) Max);
      [rewrite u32_small by (unfold is_u32, UINT32_MAX; lia)|]; lia. }
  eexists. split; [reflexivity|]. split; [rewrite ArrayUpdate_length; exact Hlen|].
  intros k Hk Hrange.
  pose proof (Z.mod_pos_bound k Max ltac:(lia)) as Hkbound.
  rewrite ArrayUpdate_nth by lia.
  destruct (Nat.eqb_spec (Z.to_nat (k mod Max))
              (Z.to_nat (Z.of_nat (length h) mod Max))) as [Heq | Hne].
  - assert (Hmod : k mod Max = Z.of_nat (length h) mod Max) by lia.
    assert (Hk_last : k = Z.of_nat (length h)).
    { destruct (Z.eq_dec k (Z.of_nat (length h))) as [|Hlt]; [assumption|exfalso].
      assert (Hdiff : (Z.of_nat (length h) - k) mod Max = 0)
        by (rewrite Zminus_mod, Hmod, Z.sub_diag; apply Z.mod_0_l; lia).
      rewrite Z.mod_small in Hdiff by lia. lia. }
    rewrite LogFill_overwrites, Hk_last, Nat2Z.id. symmetry. apply nth_middle.
  - assert (k <> Z.of_nat (length h)) by (intros ->; apply Hne; reflexivity).
    rewrite app_nth1 by lia. apply Hslots; lia.
Qed.

Lemma LogStep_holds
  (Max : Z) (g : LOG_GLOBALS) (L : Logger.BBR_PACKET_LOGGER)
  (h : list Log.BBR_PACKET_LOG_ENTRY) (c : LOG_CALL) :
  0 < Max <= UINT32_MAX ->
  Holds Max L h ->
  exists L',
    LogStep (g, Some L) c = (fst (ShouldLogPacket g), Some L')
    /\ Holds Max L'
         (if snd (ShouldLogPacket g) then h ++ [LogEntryOf c] else h).
Proof.
  intros HMax Hholds. rewrite LogStep_record. cbn [fst snd]. unfold LogRecord.
  destruct Hholds as (Hen & Hrest).
  pose proof Hrest as (_ & _ & _ & arr & Harr & _).
  assert (Hguard : negb (Logger.Enabled L) = false) by (rewrite Hen; reflexivity).
  rewrite Harr, Hguard.
  destruct (ShouldLogPacket g) as [g' Should]. cbn [fst snd].
  destruct Should; cbn [negb].
  - eexists. split; [reflexivity|].
    apply Write_holds; [exact HMax | split; assumption | exact Harr].
  - exists L. split; [reflexivity | split; assumption].
Qed.

Lemma PrintAll_holds
  (Max : Z) (L : Logger.BBR_PACKET_LOGGER) (h : list Log.BBR_PACKET_LOG_ENTRY) :
  0 < Max <= 2 ^ 31 ->
  Holds Max L h ->
  BbrPacketLevelLoggingPrintAll (Some L)
  = Some (skipn (length h - Z.to_nat Max)%nat h).
Proof.
  intros HMax (Hen & Hmax & Hidx & Htotal & arr & Harr & Hlen & Hslots).
  pose proof (Z.mod_pos_bound (Z.of_nat (length h)) Max ltac:(lia)) as Hbound.
  unfold BbrPacketLevelLoggingPrintAll. rewrite Harr, Hen. cbn [negb]. cbv zeta.
  f_equal. rewrite Hmax, Hidx, Htotal.
  apply (nth_ext _ _ ZeroEntry ZeroEntry).
  - rewrite length_map, length_seq, length_skipn. lia.
  - intros i Hi. rewrite length_map, length_seq in Hi.
    match goal with
    | |- nth i (map ?F _) _ = _ => set (Slot := F)
    end.
    rewrite (nth_indep _ ZeroEntry (Slot O))
      by (rewrite length_map, length_seq; exact Hi).
    rewrite map_nth, seq_nth by exact Hi. cbn [Nat.add]. subst Slot. cbv beta.
    rewrite nth_skipn.
    destruct (Z.eqb_spec (Z.min (Z.of_nat (length h)) Max) Max) as [Hfull | Hpart].
    + rewrite u32_small by (unfold is_u32, UINT32_MAX; lia).
      rewrite Zplus_mod_idemp_l.
      replace ((Z.of_nat (length h) + Z.of_nat i) mod Max)
        with ((Z.of_nat (length h) - Max + Z.of_nat i) mod Max).
      * rewrite Hslots by lia. f_equal. lia.
      * replace (Z.of_nat (length h) - Max + Z.of_nat i)
          with (Z.of_nat (length h) + Z.of_nat i + (-1) * Max) by lia.
        apply Z.mod_add. lia.
    + rewrite Z.add_0_l, u32_small by (unfold is_u32, UINT32_MAX; lia).
      rewrite Hslots by lia. f_equal. lia.
Qed.

Lemma ShouldLogPacket_globals (g : LOG_GLOBALS) :
  g_LogSamplingRate (fst (ShouldLogPacket g)) = g_LogSamplingRate g
  /\ g_PacketCounter (fst (ShouldLogPacket g)) = u32 (g_PacketCounter g + 1)
  /\ snd (ShouldLogPacket g)
     = (u32 (g_PacketCounter g + 1) mod g_LogSamplingRate g =? 0).
Proof. repeat split. Qed.

Lemma LogRun_holds (Max : Z) :
  0 < Max <= UINT32_MAX ->
  forall (cs : list LOG_CALL) (g : LOG_GLOBALS) (L : Logger.BBR_PACKET_LOGGER)
         (h : list Log.BBR_PACKET_LOG_ENTRY),
    Holds Max L h ->
    exists g' L' h',
      LogRun (g, Some L) cs = (g', Some L')
      /\ Holds Max L' h'
      /\ (g_LogSamplingRate g = 1 -> h' = h ++ map LogEntryOf cs)
      /\ (0 < g_LogSamplingRate g ->
          0 <= g_PacketCounter g ->
          g_PacketCounter g + Z.of_nat (length cs) <= UINT32_MAX ->
          g_PacketCounter g' = g_PacketCounter g + Z.of_nat (length cs)
          /\ Z.of_nat (length h')
             = Z.of_nat (length h)
               + ((g_PacketCounter g + Z.of_nat (length cs)) / g_LogSamplingRate g
                  - g_PacketCounter g / g_LogSamplingRate g)).
Proof.
  intros HMax. induction cs as [|c rest IH]; intros g L h Hholds.
  - exists g, L, h. cbn [LogRun fold_left length map Z.of_nat].
    rewrite app_nil_r, Z.add_0_r, Z.sub_diag, Z.add_0_r.
    split; [reflexivity|]. split; [exact Hholds|]. split; [reflexivity|].
    intros _ _ _. split; reflexivity.
  - destruct (LogStep_holds Max g L h c HMax Hholds) as (L1 & Hstep & Hholds1).
    destruct (ShouldLogPacket_globals g) as (Hrate & Hcounter & Hshould).
    destruct (IH (fst (ShouldLogPacket g)) L1 _ Hholds1)
      as (g' & L' & h' & Hrun & Hholds' & Hall & Hcount).
    exists g', L', h'.
    unfold LogRun in *. cbn [fold_left]. rewrite Hstep.
    split; [exact Hrun|]. split; [exact Hholds'|]. split.
    + intros Hone. rewrite Hrate in Hall. rewrite (Hall Hone), Hshould, Hone.
      rewrite Z.mod_1_r. cbn [Z.eqb map]. rewrite <- app_assoc. reflexivity.
    + intros Hr Hc Hfit. rewrite Hrate, Hcounter in Hcount.
      cbn [length] in Hfit. rewrite Nat2Z.inj_succ in Hfit. unfold UINT32_MAX in Hfit.
      rewrite u32_small in Hcount, Hshould by (unfold is_u32, UINT32_MAX; lia).
      destruct (Hcount Hr ltac:(lia) ltac:(unfold UINT32_MAX; lia)) as (Hc' & Hlen).
      cbn [length]. rewrite Nat2Z.inj_succ.
      split; [lia|].
      rewrite Hlen, Hshould.
      replace (g_PacketCounter g + Z.succ (Z.of_nat (length rest)))
        with (g_PacketCounter g + 1 + Z.of_nat (length rest)) by lia.
      rewrite (div_next (g_PacketCounter g) (g_LogSamplingRate g) Hr).
      destruct ((g_PacketCounter g + 1) mod g_LogSamplingRate g =? 0).
      * rewrite length_app. cbn [length]. lia.
      * lia.
Qed.

(** X19: the ring keeps the newest entries in order.  With the sampling
    rate set to 1, after a successful [Initialize] and any sequence of
    record calls, [PrintAll] prints exactly the entries of the last
    [MaxEntries] calls, oldest first (all of them while fewer than
    [MaxEntries] calls were made); a requested size of 0 means 10000. *)
Theorem Logger_prints_newest_entries_oldest_first :
  forall (L0 : Logger.BBR_PACKET_LOGGER) (MaxEntries : Z) (g : LOG_GLOBALS)
         (cs : list LOG_CALL),
    0 <= MaxEntries <= 2 ^ 31 ->
    g_LogSamplingRate g = 1 ->
    let Max :=
      if MaxEntries =? 0 then BBR_PACKET_LOG_DEFAULT_MAX_ENTRIES else MaxEntries in
    let Logger := snd (BbrPacketLevelLoggingInitialize (Some L0) MaxEntries true) in
    BbrPacketLevelLoggingPrintAll (snd (LogRun (g, Logger) cs))
    = Some (skipn (length cs - Z.to_nat Max)%nat (map LogEntryOf cs)).
Proof.
  intros L0 MaxEntries g cs Hm Hone Max Logger.
  assert (HMax : 0 < Max <= 2 ^ 31).
  { subst Max. unfold BBR_PACKET_LOG_DEFAULT_MAX_ENTRIES.
    destruct (Z.eqb_spec MaxEntries 0); lia. }
  destruct (Initialize_holds L0 MaxEntries ltac:(lia)) as (L & Hinit & Hholds).
  fold Max in Hholds. subst Logger. rewrite Hinit. cbn [snd].
  destruct (LogRun_holds Max ltac:(unfold UINT32_MAX; lia) cs g L [] Hholds)
    as (g' & L' & h' & Hrun & Hholds' & Hall & _).
  rewrite Hrun. cbn [snd]. rewrite (PrintAll_holds Max L' h' HMax Hholds').
  rewrite (Hall Hone). cbn [app]. rewrite length_map. reflexivity.
Qed.

(** X20: sampling stores every r-th call.  With sampling rate [r > 0] and
    the call counter at [c], [n] record calls on a freshly initialised
    logger (the 32-bit counter not wrapping) leave the counter at [c + n]
    and store one entry for each multiple of [r] in [(c, c + n]]:
    [GetStats] reports the smaller of that number and [MaxEntries] as the
    total, and that number modulo [MaxEntries] as the current index. *)
Theorem Logger_stores_every_rth_call :
  forall (L0 : Logger.BBR_PACKET_LOGGER) (MaxEntries : Z) (g : LOG_GLOBALS)
         (cs : list LOG_CALL),
    0 <= MaxEntries <= UINT32_MAX ->
    0 < g_LogSamplingRate g ->
    0 <= g_PacketCounter g ->
    g_PacketCounter g + Z.of_nat (length cs) <= UINT32_MAX ->
    let Max :=
      if MaxEntries =? 0 then BBR_PACKET_LOG_DEFAULT_MAX_ENTRIES else MaxEntries in
    let Logger := snd (BbrPacketLevelLoggingInitialize (Some L0) MaxEntries true) in
    let Stored :=
      (g_PacketCounter g + Z.of_nat (length cs)) / g_LogSamplingRate g
      - g_PacketCounter g / g_LogSamplingRate g in
    g_PacketCounter (fst (LogRun (g, Logger) cs))
    = g_PacketCounter g + Z.of_nat (length cs)
    /\ BbrPacketLevelLoggingGetStats (snd (LogRun (g, Logger) cs))
       = Some (Z.min Stored Max, Stored mod Max).
Proof.
  intros L0 MaxEntries g cs Hm Hr Hc Hfit Max Logger Stored.
  assert (HMax : 0 < Max <= UINT32_MAX).
  { subst Max. unfold BBR_PACKET_LOG_DEFAULT_MAX_ENTRIES, UINT32_MAX in *.
    destruct (Z.eqb_spec MaxEntries 0); lia. }
  destruct (Initialize_holds L0 MaxEntries ltac:(lia)) as (L & Hinit & Hholds).
  fold Max in Hholds. subst Logger. rewrite Hinit. cbn [snd].
  destruct (LogRun_holds Max HMax cs g L [] Hholds)
    as (g' & L' & h' & Hrun & Hholds' & _ & Hcount).
  destruct (Hcount Hr Hc Hfit) as (Hcounter & Hlen).
  cbn [length Z.of_nat] in Hlen. rewrite Z.add_0_l in Hlen. fold Stored in Hlen.
  rewrite Hrun. cbn [fst snd]. split; [exact Hcounter|].
  destruct Hholds' as (_ & _ & Hidx & Htotal & _).
  unfold BbrPacketLevelLoggingGetStats. rewrite Hidx, Htotal, Hlen. reflexivity.
Qed.

(** X21: [Clear] brings the logger back to its state after [Initialize]:
    whatever was recorded, with any sampling rate above 0 (the record calls
    divide by the rate), the entries are zeroed and both indices are 0
    again, the size and the enabled flag being kept. *)
Theorem Logger_clear_restores_initial_state :
  forall (L0 : Logger.BBR_PACKET_LOGGER) (MaxEntries : Z) (g : LOG_GLOBALS)
         (cs : list LOG_CALL),
    0 <= MaxEntries <= UINT32_MAX ->
    0 < g_LogSamplingRate g ->
    let Logger := snd (BbrPacketLevelLoggingInitialize (Some L0) MaxEntries true) in
    BbrPacketLevelLoggingClear (snd (LogRun (g, Logger) cs)) = Logger.
Proof.
  intros L0 MaxEntries g cs Hm _ Logger.
  pose (Max := EffectiveMaxEntries MaxEntries).
  assert (HMax : 0 < Max <= UINT32_MAX).
  { subst Max. unfold EffectiveMaxEntries, BBR_PACKET_LOG_DEFAULT_MAX_ENTRIES,
      UINT32_MAX in *.
    destruct (Z.eqb_spec MaxEntries 0); lia. }
  destruct (Initialize_holds L0 MaxEntries ltac:(lia)) as (L & Hinit & Hholds).
  fold Max in Hholds. subst Logger. rewrite Hinit. cbn [snd].
  destruct (LogRun_holds Max HMax cs g L [] Hholds)
    as (g' & L' & h' & Hrun & Hholds' & _).
  rewrite Hrun. cbn [snd].
  destruct Hholds' as (Hen & Hmax & _ & _ & arr & Harr & _).
  unfold BbrPacketLevelLoggingClear. rewrite Harr, Hen, Hmax.
  unfold BbrPacketLevelLoggingInitialize in Hinit. cbn [negb] in Hinit.
  fold (EffectiveMaxEntries MaxEntries) in Hinit. fold Max in Hinit.
  injection Hinit as <-. reflexivity.
Qed.

Lemma LogRun_off (g : LOG_GLOBALS) (Logger : option Logger.BBR_PACKET_LOGGER)
  (cs : list LOG_CALL) :
  match Logger with
  | None => True
  | Some L => Logger.Enabled L = false \/ Logger.Entries L = None
  end ->
  LogRun (g, Logger) cs = (g, Logger).
Proof.
  intros Hoff. unfold LogRun. induction cs as [|c rest IH]; [reflexivity|].
  cbn [fold_left]. rewrite LogStep_record. cbn [fst snd].
  assert (Hstep : LogRecord g Logger (LogFill c) = (g, Logger)).
  { unfold LogRecord. destruct Logger as [L|]; [|reflexivity].
    destruct (Logger.Entries L); [|reflexivity].
    destruct Hoff as [-> | Hnone]; [reflexivity | discriminate]. }
  rewrite Hstep. exact IH.
Qed.

(** X22: a logger that is off ignores every call.  After [Cleanup], after
    an [Initialize] whose allocation failed (which returns
    [QUIC_STATUS_OUT_OF_MEMORY]), and for a NULL logger (on which
    [Initialize] returns [QUIC_STATUS_INVALID_PARAMETER]), record calls
    change neither the logger nor the sampling counter, and [PrintAll]
    prints no entry. *)
Theorem Logger_off_ignores_calls :
  forall (Logger : option Logger.BBR_PACKET_LOGGER) (L0 : Logger.BBR_PACKET_LOGGER)
         (MaxEntries : Z) (g : LOG_GLOBALS) (cs : list LOG_CALL),
    let Failed := BbrPacketLevelLoggingInitialize (Some L0) MaxEntries false in
    let Closed := BbrPacketLevelLoggingCleanup Logger in
    fst Failed = QUIC_STATUS_OUT_OF_MEMORY
    /\ BbrPacketLevelLoggingInitialize None MaxEntries true
       = (QUIC_STATUS_INVALID_PARAMETER, None)
    /\ LogRun (g, snd Failed) cs = (g, snd Failed)
    /\ LogRun (g, Closed) cs = (g, Closed)
    /\ LogRun (g, None) cs = (g, None)
    /\ BbrPacketLevelLoggingPrintAll (snd Failed) = None
    /\ BbrPacketLevelLoggingPrintAll Closed = None
    /\ BbrPacketLevelLoggingPrintAll None = None.
Proof.
  intros Logger L0 MaxEntries g cs Failed Closed.
  split; [reflexivity|]. split; [reflexivity|].
  split; [apply LogRun_off; right; reflexivity|].
  split; [apply LogRun_off; subst Closed; destruct Logger; [right; reflexivity | exact I]|].
  split; [apply LogRun_off; exact I|].
  split; [reflexivity|].
  split; [subst Closed; destruct Logger; reflexivity | reflexivity].
Qed.

(** X23: the logged loss rate is in basis points.  When the lost packets
    are among the sent ones (and their count times 10000 fits 64 bits),
    the [LossRate] that [ExtractBbrStateInfo] logs is
    [lost * 10000 / sent], between 0 and 10000, and 0 when nothing was
    sent; the four fields set by the caller are kept. *)
Theorem Logged_loss_rate_is_in_basis_points :
  forall (Cc : QUIC_CONGESTION_CONTROL W) (Entry : Log.BBR_PACKET_LOG_ENTRY),
    0 <= SendStats.SuspectedLostPackets (Send Cc) <= SendStats.TotalPackets (Send Cc) ->
    SendStats.SuspectedLostPackets (Send Cc) * 10000 <= UINT64_MAX ->
    let Logged := ExtractBbrStateInfo Cc Entry in
    0 <= Log.LossRate Logged <= 10000
    /\ Log.LossRate Logged
       = (if SendStats.TotalPackets (Send Cc) =? 0 then 0
          else SendStats.SuspectedLostPackets (Send Cc) * 10000
               / SendStats.TotalPackets (Send Cc))
    /\ Log.Timestamp Logged = Log.Timestamp Entry
    /\ Log.EventType Logged = Log.EventType Entry
    /\ Log.PacketNumber Logged = Log.PacketNumber Entry
    /\ Log.PacketSize Logged = Log.PacketSize Entry.
Proof.
  intros Cc Entry Hlost Hfit Logged. subst Logged.
  unfold ExtractBbrStateInfo. cbv zeta. cbn [Log.LossRate Log.Timestamp Log.EventType
                                            Log.PacketNumber Log.PacketSize].
  set (sent := SendStats.TotalPackets (Send Cc)) in *.
  set (lost := SendStats.SuspectedLostPackets (Send Cc)) in *.
  assert (Hrate : sent > 0 -> 0 <= lost * 10000 / sent <= 10000).
  { intros Hsent. split; [apply Z.div_pos; lia|].
    apply Z.div_le_upper_bound; lia. }
  rewrite (u64_small (lost * 10000)) by (unfold is_u64; lia).
  destruct (Z.gtb_spec sent 0) as [Hsent | Hzero].
  - rewrite u32_small by (unfold is_u32, UINT32_MAX; lia).
    destruct (Z.eqb_spec sent 0); [lia|]. repeat split; lia.
  - assert (sent = 0) as -> by lia. cbn. repeat split; lia.
Qed.

End PacketLoggingProperties.

(** ** Unblocking reports and the entry into ProbeRTT *)

Section BbrEdges.

Context {W : Type} `{SlidingWindowExtremum W}.

Local Notation "'BBR'" := (QUIC_CONGESTION_CONTROL_BBR W).

Lemma UpdateBlockedState_edge
  (Connection : QUIC_CONNECTION) (Bbr : BBR) (PreviousCanSendState : bool) :
  BbrCongestionControlUpdateBlockedState Connection Bbr PreviousCanSendState
  = negb PreviousCanSendState && BbrCongestionControlCanSend Connection Bbr.
Proof.
  unfold BbrCongestionControlUpdateBlockedState.
  destruct PreviousCanSendState, (BbrCongestionControlCanSend Connection Bbr);
    reflexivity.
Qed.

(** X24: the unblocking report is edge-triggered.  [OnDataInvalidated] and
    [OnDataAcknowledged] (implicit or not) return TRUE exactly when the
    sender could not send before the call and can send after it: never
    while it stays able to send, and never when it stays or becomes
    blocked. *)
Theorem Unblocked_is_reported_only_on_the_edge :
  forall (Connection : QUIC_CONNECTION) (Bbr : BBR)
         (NumRetransmittableBytes : Z) (AckEvent : Ack.QUIC_ACK_EVENT) (RandomValue : Z),
    let Invalidated :=
      BbrCongestionControlOnDataInvalidated Connection Bbr NumRetransmittableBytes in
    let Acked :=
      BbrCongestionControlOnDataAcknowledged Connection Bbr AckEvent RandomValue in
    snd Invalidated
    = negb (BbrCongestionControlCanSend Connection Bbr)
      && BbrCongestionControlCanSend Connection (fst Invalidated)
    /\ snd Acked
       = negb (BbrCongestionControlCanSend Connection Bbr)
         && BbrCongestionControlCanSend Connection (fst Acked).
Proof.
  intros Connection Bbr n AckEvent r. cbv zeta. split.
  - unfold BbrCongestionControlOnDataInvalidated. cbn [fst snd].
    apply UpdateBlockedState_edge.
  - unfold BbrCongestionControlOnDataAcknowledged. cbv zeta.
    destruct (Ack.IsImplicit AckEvent).
    + cbn [fst snd]. apply UpdateBlockedState_edge.
    + destruct (AckUpdateRoundTrip _ AckEvent) as [Bbr1 NewRoundTrip].
      cbn [fst snd]. apply UpdateBlockedState_edge.
Qed.

(** The two flags that decide the entry into ProbeRTT. *)
Definition Idle (Bbr : BBR) : bool * bool := (ExitingQuiescence Bbr, RttSampleExpired Bbr).

Lemma AckTrackRecentDeliveryRate_idle
  (AckEvent : Ack.QUIC_ACK_EVENT) (pkts : list Packet.QUIC_SENT_PACKET_METADATA) :
  forall Bbr : BBR, Idle (AckTrackRecentDeliveryRate Bbr AckEvent pkts) = Idle Bbr.
Proof.
  induction pkts as [|pkt rest IH]; intros Bbr; simpl; [reflexivity|].
  repeat match goal with
         | |- context [if ?c then _ else _] => destruct c
         end;
    try (rewrite IH; reflexivity); reflexivity.
Qed.

Lemma AckBeforeTransitions_idle
  (Connection : QUIC_CONNECTION) (Bbr : BBR) (AckEvent : Ack.QUIC_ACK_EVENT) :
  Idle (AckBeforeTransitions Connection Bbr AckEvent)
  = (ExitingQuiescence Bbr,
     if Ack.MinRttValid AckEvent
     then MinRttTimestampValid Bbr
          && CxPlatTimeAtOrBefore64
               (u64 (MinRttTimestamp Bbr + kBbrMinRttExpirationInMicroSecs))
               (Ack.TimeNow AckEvent)
     else RttSampleExpired Bbr).
Proof.
  unfold AckBeforeTransitions.
  assert (Hexit : forall (b : BBR) n a, Idle (AckCheckStartupExit b n a) = Idle b)
    by (intros; unfold AckCheckStartupExit; cbv zeta; case_tests; reflexivity).
  assert (Hcycle : forall (b : BBR) p, Idle (AckAdvancePacingGainCycle b AckEvent p) = Idle b).
  { intros. unfold AckAdvancePacingGainCycle.
    destruct (BBR_STATE_eqb (BbrState b) BBR_STATE_PROBE_BW); [|reflexivity].
    cbv zeta.
    match goal with
    | |- Idle (if ?c then _ else _) = _ => destruct c
    end; reflexivity. }
  assert (Hagg : forall b : BBR,
             Idle (fst (BbrCongestionControlUpdateAckAggregation b AckEvent)) = Idle b)
    by (intros; unfold BbrCongestionControlUpdateAckAggregation; cbv zeta;
        case_tests; reflexivity).
  assert (Hrec : forall (b : BBR) n,
             Idle (AckUpdateRecovery Connection b AckEvent n) = Idle b)
    by (intros; unfold AckUpdateRecovery, BbrCongestionControlUpdateRecoveryWindow;
        cbv zeta; case_tests; reflexivity).
  rewrite Hexit, Hcycle, Hagg, Hrec.
  unfold AckBeforeRecovery. cbv zeta. rewrite AckTrackRecentDeliveryRate_idle.
  change (Idle (set_BandwidthFilter ?f ?b)) with (Idle b).
  assert (Hround : forall b : BBR, Idle (fst (AckUpdateRoundTrip b AckEvent)) = Idle b)
    by (intros; unfold AckUpdateRoundTrip; case_tests; reflexivity).
  unfold AckRoundState. rewrite Hround.
  unfold AckUpdateMinRtt. cbv zeta.
  destruct (Ack.MinRttValid AckEvent); [|reflexivity].
  cbn [MinRttTimestampValid MinRttTimestamp set_BytesInFlight].
  destruct (MinRttTimestampValid Bbr); cbn [andb];
    match goal with
    | |- Idle (if ?c then _ else _) = _ => destruct c
    end; reflexivity.
Qed.

Lemma HandleAckInProbeRtt_unarmed
  (Connection : QUIC_CONNECTION) (Bbr : BBR) (n : bool) (l t r : Z) :
  ProbeRttEndTimeValid Bbr = false ->
  BbrState (BbrCongestionControlHandleAckInProbeRtt Connection Bbr n l t r)
  = BbrState Bbr.
Proof.
  intros Hunarmed. unfold BbrCongestionControlHandleAckInProbeRtt. cbv zeta.
  cbn [ProbeRttEndTimeValid set_BandwidthFilter]. rewrite Hunarmed. cbn [negb andb].
  match goal with
  | |- BbrState (if ?c then _ else _) = _ => destruct c
  end; reflexivity.
Qed.

Lemma HandleAckInProbeRtt_quiescence
  (Connection : QUIC_CONNECTION) (Bbr : BBR) (n : bool) (l t r : Z) :
  ExitingQuiescence (BbrCongestionControlHandleAckInProbeRtt Connection Bbr n l t r)
  = ExitingQuiescence Bbr.
Proof.
  unfold BbrCongestionControlHandleAckInProbeRtt. cbv zeta. case_tests; reflexivity.
Qed.

Lemma AckTransitions_probe_rtt_entry
  (Connection : QUIC_CONNECTION) (Bbr : BBR) (AckEvent : Ack.QUIC_ACK_EVENT)
  (n : bool) (r : Z) :
  BbrState Bbr <> BBR_STATE_PROBE_RTT ->
  let Bbr' := AckTransitions Connection Bbr AckEvent n r in
  (BbrState Bbr' = BBR_STATE_PROBE_RTT
   <-> ExitingQuiescence Bbr = false /\ RttSampleExpired Bbr = true)
  /\ ExitingQuiescence Bbr' = false.
Proof.
  intros Hstate. cbv zeta. unfold AckTransitions. cbv zeta.
  match goal with
  | |- context [BbrCongestionControlTransitToProbeBw ?b _ _] => set (x1 := b)
  end.
  assert (H1 : BbrState x1 <> BBR_STATE_PROBE_RTT /\ Idle x1 = Idle Bbr).
  { subst x1. destruct (_ && _);
      [split; [discriminate | reflexivity] | split; [exact Hstate | reflexivity]]. }
  clearbody x1.
  match goal with
  | |- context [BbrCongestionControlTransitToProbeRtt ?b _] => set (x2 := b)
  end.
  assert (H2 : BbrState x2 <> BBR_STATE_PROBE_RTT /\ Idle x2 = Idle x1).
  { subst x2. destruct (_ && _);
      [split; [discriminate | reflexivity] | split; [tauto | reflexivity]]. }
  clearbody x2.
  destruct H1 as (_ & I1). destruct H2 as (S2 & I2). rewrite I1 in I2. clear I1 x1.
  unfold Idle in I2. injection I2 as Hq He.
  assert (Hnot : BBR_STATE_eqb (BbrState x2) BBR_STATE_PROBE_RTT = false)
    by (destruct (BbrState x2); try reflexivity; congruence).
  rewrite Hnot, Hq, He. cbn [negb andb].
  destruct (negb (ExitingQuiescence Bbr) && RttSampleExpired Bbr) eqn:Hgate.
  - apply andb_prop in Hgate. destruct Hgate as (Hidle & Hexpired).
    apply negb_true_iff in Hidle.
    match goal with
    | |- context [if ?c then BbrCongestionControlHandleAckInProbeRtt _ _ _ _ _ _ else _] =>
        change c with true
    end.
    cbv iota.
    rewrite HandleAckInProbeRtt_unarmed by reflexivity.
    rewrite HandleAckInProbeRtt_quiescence.
    split; [split; [intros _; split; assumption | intros _; reflexivity] | reflexivity].
  - match goal with
    | |- context [if ?c then BbrCongestionControlHandleAckInProbeRtt _ _ _ _ _ _ else _] =>
        change c with (BBR_STATE_eqb (BbrState x2) BBR_STATE_PROBE_RTT)
    end.
    rewrite Hnot.
    split; [split|reflexivity].
    + intros Hin. exfalso. apply S2. exact Hin.
    + intros (Hidle & Hexpired). rewrite Hidle, Hexpired in Hgate. discriminate.
Qed.

Lemma UpdateCongestionWindow_quiescence
  (Connection : QUIC_CONNECTION) (Bbr : BBR) (t a : Z) :
  ExitingQuiescence (BbrCongestionControlUpdateCongestionWindow Connection Bbr t a)
  = ExitingQuiescence Bbr.
Proof.
  rewrite (UpdateCongestionWindow_assigns Connection Bbr t a). reflexivity.
Qed.

Lemma AckTransitions_quiescence
  (Connection : QUIC_CONNECTION) (Bbr : BBR) (AckEvent : Ack.QUIC_ACK_EVENT)
  (n : bool) (r : Z) :
  ExitingQuiescence (AckTransitions Connection Bbr AckEvent n r) = false.
Proof.
  unfold AckTransitions. cbv zeta.
  match goal with
  | |- ExitingQuiescence (if ?c then _ else _) = _ => destruct c
  end; [rewrite HandleAckInProbeRtt_quiescence|]; reflexivity.
Qed.

(** X25: the entry into ProbeRTT.  Every explicit acknowledgement clears
    [ExitingQuiescence], in whatever phase it finds the controller.  One
    that finds it in a phase other than ProbeRTT moves it to ProbeRTT
    exactly when the sender is not exiting quiescence and the min-RTT sample
    has expired: with an RTT sample in the ack, when the stored min-RTT
    timestamp is valid and older than the expiration time; without one,
    when the expired flag was still set (as it is after [Initialize] and
    [Reset]). *)
Theorem Ack_enters_probe_rtt_when_min_rtt_expired :
  forall (Connection : QUIC_CONNECTION) (Bbr : BBR)
         (AckEvent : Ack.QUIC_ACK_EVENT) (RandomValue : Z),
    Ack.IsImplicit AckEvent = false ->
    let Bbr' :=
      fst (BbrCongestionControlOnDataAcknowledged Connection Bbr AckEvent RandomValue) in
    let Expired :=
      if Ack.MinRttValid AckEvent
      then MinRttTimestampValid Bbr
           && CxPlatTimeAtOrBefore64
                (u64 (MinRttTimestamp Bbr + kBbrMinRttExpirationInMicroSecs))
                (Ack.TimeNow AckEvent)
      else RttSampleExpired Bbr in
    ExitingQuiescence Bbr' = false
    /\ (BbrState Bbr <> BBR_STATE_PROBE_RTT ->
        (BbrState Bbr' = BBR_STATE_PROBE_RTT
         <-> ExitingQuiescence Bbr = false /\ Expired = true)).
Proof.
  intros Connection Bbr AckEvent r Himplicit Bbr' Expired. subst Bbr'.
  rewrite (OnDataAcknowledged_stages Connection Bbr AckEvent r Himplicit).
  rewrite UpdateCongestionWindow_quiescence.
  rewrite (Phase_state _ _ (UpdateCongestionWindow_phase _ _ _ _)).
  split; [apply AckTransitions_quiescence|].
  intros Hstate.
  pose proof (AckBeforeTransitions_idle Connection Bbr AckEvent) as Hidle.
  fold Expired in Hidle. unfold Idle in Hidle. injection Hidle as Hq He.
  assert (Hs : BbrState (AckBeforeTransitions Connection Bbr AckEvent) = BbrState Bbr).
  { unfold AckBeforeTransitions.
    match goal with
    | |- BbrState (AckCheckStartupExit ?b ?n ?a) = _ =>
        pose proof (AckCheckStartupExit_core b n a) as (_ & _ & _ & _ & _ & _ & _ & Hphase);
        cbv zeta in Hphase; rewrite (Phase_state _ _ Hphase)
    end.
    apply (AckBeforeStartupExit_found Connection Bbr AckEvent). }
  pose proof (AckTransitions_probe_rtt_entry Connection
                (AckBeforeTransitions Connection Bbr AckEvent) AckEvent
                (snd (AckRoundState Bbr AckEvent)) r) as Hentry.
  cbv zeta in Hentry. rewrite Hs, Hq, He in Hentry.
  exact (proj1 (Hentry Hstate)).
Qed.

End BbrEdges.

(** ** The window gain in ProbeRTT *)

Section BbrProbeRttGain.

Context {W : Type} `{SlidingWindowExtremum W}.

Local Notation "'BBR'" := (QUIC_CONGESTION_CONTROL_BBR W).

(** The phase an explicit ack has reached when lines 1038-1042 test for the
    entry into ProbeRTT: the phase it found, moved on by the Startup-to-Drain
    and Drain-to-ProbeBW transitions of lines 1029-1036. *)
Definition PhaseBeforeProbeRtt
  (Connection : QUIC_CONNECTION) (Bbr : BBR) (AckEvent : Ack.QUIC_ACK_EVENT)
  : BBR_STATE :=
  let Reached := AckBeforeTransitions Connection Bbr AckEvent in
  let Phase1 :=
    if BBR_STATE_eqb (BbrState Reached) BBR_STATE_STARTUP && BtlbwFound Reached
    then BBR_STATE_DRAIN else BbrState Reached in
  if BBR_STATE_eqb Phase1 BBR_STATE_DRAIN
     && (BytesInFlight Reached
         <=? BbrCongestionControlGetTargetCwnd Reached GAIN_UNIT)
  then BBR_STATE_PROBE_BW else Phase1.

Lemma Phase_window_gain (a b : BBR) : Phase a = Phase b -> CwndGain a = CwndGain b.
Proof. unfold Phase. intros Heq. injection Heq as _ _ -> _. reflexivity. Qed.

Lemma HandleAckInProbeRtt_unarmed_phase
  (Connection : QUIC_CONNECTION) (Bbr : BBR) (n : bool) (l t r : Z) :
  ProbeRttEndTimeValid Bbr = false ->
  Phase (BbrCongestionControlHandleAckInProbeRtt Connection Bbr n l t r) = Phase Bbr.
Proof.
  intros Hunarmed. unfold BbrCongestionControlHandleAckInProbeRtt. cbv zeta.
  cbn [ProbeRttEndTimeValid set_BandwidthFilter]. rewrite Hunarmed. cbn [negb andb].
  match goal with
  | |- Phase (if ?c then _ else _) = _ => destruct c
  end; reflexivity.
Qed.

Lemma HandleAckInProbeRtt_stays
  (Connection : QUIC_CONNECTION) (Bbr : BBR) (n : bool) (l t r : Z) :
  BbrState (BbrCongestionControlHandleAckInProbeRtt Connection Bbr n l t r)
  = BBR_STATE_PROBE_RTT ->
  CwndGain (BbrCongestionControlHandleAckInProbeRtt Connection Bbr n l t r)
  = CwndGain Bbr.
Proof.
  unfold BbrCongestionControlHandleAckInProbeRtt. cbv zeta.
  case_tests; intros Hstays; try reflexivity; cbn in Hstays; discriminate.
Qed.

Lemma AckBeforeTransitions_state
  (Connection : QUIC_CONNECTION) (Bbr : BBR) (AckEvent : Ack.QUIC_ACK_EVENT) :
  BbrState (AckBeforeTransitions Connection Bbr AckEvent) = BbrState Bbr.
Proof.
  unfold AckBeforeTransitions.
  match goal with
  | |- BbrState (AckCheckStartupExit ?b ?n ?a) = _ =>
      pose proof (AckCheckStartupExit_core b n a) as (_ & _ & _ & _ & _ & _ & _ & Hphase);
      cbv zeta in Hphase; rewrite (Phase_state _ _ Hphase)
  end.
  apply (AckBeforeStartupExit_found Connection Bbr AckEvent).
Qed.

Lemma PhaseGains_window_gain (Bbr : BBR) :
  PhaseGains Bbr ->
  BbrState Bbr <> BBR_STATE_PROBE_RTT ->
  CwndGain Bbr
  = if BBR_STATE_eqb (BbrState Bbr) BBR_STATE_PROBE_BW then kCwndGain else kHighGain.
Proof.
  unfold PhaseGains. destruct (BbrState Bbr); cbn; intros Hg Hstate;
    try tauto; congruence.
Qed.

Lemma AckTransitions_entry_gain
  (Connection : QUIC_CONNECTION) (Bbr : BBR) (AckEvent : Ack.QUIC_ACK_EVENT)
  (n : bool) (r : Z) :
  PhaseGains Bbr ->
  BbrState Bbr <> BBR_STATE_PROBE_RTT ->
  BbrState (AckTransitions Connection Bbr AckEvent n r) = BBR_STATE_PROBE_RTT ->
  let Phase1 :=
    if BBR_STATE_eqb (BbrState Bbr) BBR_STATE_STARTUP && BtlbwFound Bbr
    then BBR_STATE_DRAIN else BbrState Bbr in
  let Phase2 :=
    if BBR_STATE_eqb Phase1 BBR_STATE_DRAIN
       && (BytesInFlight Bbr <=? BbrCongestionControlGetTargetCwnd Bbr GAIN_UNIT)
    then BBR_STATE_PROBE_BW else Phase1 in
  CwndGain (AckTransitions Connection Bbr AckEvent n r)
  = if BBR_STATE_eqb Phase2 BBR_STATE_PROBE_BW then kCwndGain else kHighGain.
Proof.
  intros Hgains Hstate. cbv zeta. unfold AckTransitions. cbv zeta.
  match goal with
  | |- context [BbrCongestionControlTransitToProbeBw ?b _ _] => set (x1 := b)
  end.
  set (Phase1 := if BBR_STATE_eqb (BbrState Bbr) BBR_STATE_STARTUP && BtlbwFound Bbr
                 then BBR_STATE_DRAIN else BbrState Bbr).
  assert (H1 : PhaseGains x1 /\ BbrState x1 = Phase1
               /\ BytesInFlight x1 = BytesInFlight Bbr
               /\ BbrCongestionControlGetTargetCwnd x1 GAIN_UNIT
                  = BbrCongestionControlGetTargetCwnd Bbr GAIN_UNIT).
  { subst x1 Phase1.
    destruct (BBR_STATE_eqb (BbrState Bbr) BBR_STATE_STARTUP && BtlbwFound Bbr).
    - split; [apply TransitToDrain_gains | repeat split].
    - split; [exact Hgains | repeat split]. }
  assert (Hnot1 : Phase1 <> BBR_STATE_PROBE_RTT).
  { subst Phase1.
    destruct (BBR_STATE_eqb (BbrState Bbr) BBR_STATE_STARTUP && BtlbwFound Bbr);
      [discriminate | exact Hstate]. }
  clearbody x1 Phase1. destruct H1 as (G1 & S1 & B1 & T1).
  match goal with
  | |- context [BbrCongestionControlTransitToProbeRtt ?b _] => set (x2 := b)
  end.
  rewrite <- B1, <- T1, <- S1.
  set (Phase2 := if BBR_STATE_eqb (BbrState x1) BBR_STATE_DRAIN
                    && (BytesInFlight x1
                        <=? BbrCongestionControlGetTargetCwnd x1 GAIN_UNIT)
                 then BBR_STATE_PROBE_BW else BbrState x1).
  assert (H2 : PhaseGains x2 /\ BbrState x2 = Phase2).
  { subst x2 Phase2.
    destruct (BBR_STATE_eqb (BbrState x1) BBR_STATE_DRAIN
              && (BytesInFlight x1
                  <=? BbrCongestionControlGetTargetCwnd x1 GAIN_UNIT)).
    - split; [apply TransitToProbeBw_gains | reflexivity].
    - split; [exact G1 | reflexivity]. }
  assert (Hnot2 : Phase2 <> BBR_STATE_PROBE_RTT).
  { subst Phase2.
    destruct (BBR_STATE_eqb (BbrState x1) BBR_STATE_DRAIN
              && (BytesInFlight x1
                  <=? BbrCongestionControlGetTargetCwnd x1 GAIN_UNIT));
      [discriminate | rewrite S1; exact Hnot1]. }
  clearbody x2 Phase2. destruct H2 as (G2 & S2). subst Phase2.
  pose proof (PhaseGains_window_gain x2 G2 Hnot2) as Hgain.
  assert (Hnot : BBR_STATE_eqb (BbrState x2) BBR_STATE_PROBE_RTT = false)
    by (destruct (BbrState x2); try reflexivity; congruence).
  rewrite Hnot. cbn [negb andb].
  destruct (negb (ExitingQuiescence x2) && RttSampleExpired x2).
  - match goal with
    | |- context [if ?c then BbrCongestionControlHandleAckInProbeRtt _ _ _ _ _ _ else _] =>
        change c with true
    end.
    cbv iota. intros _.
    match goal with
    | |- CwndGain (BbrCongestionControlHandleAckInProbeRtt ?c ?b ?n ?l ?t ?r) = _ =>
        pose proof (HandleAckInProbeRtt_unarmed_phase c b n l t r eq_refl) as Hphase
    end.
    rewrite (Phase_window_gain _ _ Hphase). exact Hgain.
  - match goal with
    | |- context [if ?c then BbrCongestionControlHandleAckInProbeRtt _ _ _ _ _ _ else _] =>
        change c with (BBR_STATE_eqb (BbrState x2) BBR_STATE_PROBE_RTT)
    end.
    rewrite Hnot. intros Hin. exfalso. apply Hnot2. exact Hin.
Qed.

Lemma AckTransitions_stays_gain
  (Connection : QUIC_CONNECTION) (Bbr : BBR) (AckEvent : Ack.QUIC_ACK_EVENT)
  (n : bool) (r : Z) :
  BbrState Bbr = BBR_STATE_PROBE_RTT ->
  BbrState (AckTransitions Connection Bbr AckEvent n r) = BBR_STATE_PROBE_RTT ->
  CwndGain (AckTransitions Connection Bbr AckEvent n r) = CwndGain Bbr.
Proof.
  intros Hstate. unfold AckTransitions. cbv zeta.
  repeat (rewrite Hstate;
          cbn [BBR_STATE_eqb andb negb BbrState set_ExitingQuiescence]).
  intros Hstays. rewrite (HandleAckInProbeRtt_stays _ _ _ _ _ _ Hstays). reflexivity.
Qed.

Lemma AckBeforeTransitions_window_gain
  (Connection : QUIC_CONNECTION) (Bbr : BBR) (AckEvent : Ack.QUIC_ACK_EVENT) :
  CwndGain (AckBeforeTransitions Connection Bbr AckEvent) = CwndGain Bbr.
Proof.
  pose proof Phase_window_gain as Hphase.
  unfold AckBeforeTransitions.
  match goal with
  | |- CwndGain (AckCheckStartupExit ?b ?n ?a) = _ =>
      pose proof (AckCheckStartupExit_core b n a) as (_ & _ & _ & _ & _ & _ & _ & Hp);
      cbv zeta in Hp; rewrite (Hphase _ _ Hp); clear Hp
  end.
  assert (Hcycle : forall (b : BBR) p,
             CwndGain (AckAdvancePacingGainCycle b AckEvent p) = CwndGain b).
  { intros. unfold AckAdvancePacingGainCycle.
    destruct (BBR_STATE_eqb (BbrState b) BBR_STATE_PROBE_BW); [|reflexivity].
    cbv zeta.
    match goal with
    | |- CwndGain (if ?c then _ else _) = _ => destruct c
    end; reflexivity. }
  rewrite Hcycle.
  match goal with
  | |- CwndGain (fst (BbrCongestionControlUpdateAckAggregation ?b ?a)) = _ =>
      rewrite (Hphase _ _ (proj2 (UpdateAckAggregation_core b a)))
  end.
  match goal with
  | |- CwndGain (AckUpdateRecovery ?c ?b ?a ?n) = _ =>
      pose proof (AckUpdateRecovery_core c b a n) as (_ & _ & _ & _ & _ & _ & Hp);
      cbv zeta in Hp; rewrite (Hphase _ _ Hp); clear Hp
  end.
  rewrite (Hphase _ _ (proj2 (AckBeforeRecovery_core Bbr AckEvent))).
  pose proof (AckRoundState_core Bbr AckEvent) as (_ & _ & _ & _ & _ & _ & Hp & _).
  cbv zeta in Hp. apply (Hphase _ _ Hp).
Qed.

Lemma BbrStep_probe_rtt_gain
  (Connection : QUIC_CONNECTION) (Bbr : BBR) (ev : BBR_EVENT) :
  PhaseGains Bbr ->
  BbrState (BbrStep Connection Bbr ev) = BBR_STATE_PROBE_RTT ->
  (BbrState Bbr = BBR_STATE_PROBE_RTT
   /\ CwndGain (BbrStep Connection Bbr ev) = CwndGain Bbr)
  \/ (exists AckEvent RandomValue,
        ev = EvDataAcknowledged AckEvent RandomValue
        /\ Ack.IsImplicit AckEvent = false
        /\ BbrState Bbr <> BBR_STATE_PROBE_RTT
        /\ CwndGain (BbrStep Connection Bbr ev)
           = if BBR_STATE_eqb (PhaseBeforeProbeRtt Connection Bbr AckEvent)
                  BBR_STATE_PROBE_BW
             then kCwndGain else kHighGain).
Proof.
  intros Hgains. destruct ev; unfold BbrStep.
  - intros Hin. left. split; [exact Hin | reflexivity].
  - unfold BbrCongestionControlOnDataSent. cbv zeta.
    case_tests; intros Hin; left; split; try exact Hin; reflexivity.
  - intros Hin. left. split; [exact Hin | reflexivity].
  - destruct (Ack.IsImplicit AckEvent) eqn:Himplicit.
    + unfold BbrCongestionControlOnDataAcknowledged. rewrite Himplicit. cbn [fst].
      pose proof (UpdateCongestionWindow_phase Connection Bbr
                    (Ack.NumTotalAckedRetransmittableBytes AckEvent)
                    (Ack.NumRetransmittableBytes AckEvent)) as Hphase.
      rewrite (Phase_state _ _ Hphase), (Phase_window_gain _ _ Hphase).
      intros Hin. left. split; [exact Hin | reflexivity].
    + rewrite (OnDataAcknowledged_stages Connection Bbr AckEvent RandomValue Himplicit).
      match goal with
      | |- context [BbrCongestionControlUpdateCongestionWindow ?c ?b ?t ?a] =>
          pose proof (UpdateCongestionWindow_phase c b t a) as Hphase
      end.
      rewrite (Phase_state _ _ Hphase), (Phase_window_gain _ _ Hphase). clear Hphase.
      pose proof (AckBeforeTransitions_state Connection Bbr AckEvent) as Hs.
      pose proof (AckBeforeTransitions_window_gain Connection Bbr AckEvent) as Hc.
      pose proof (AckBeforeTransitions_gains Connection Bbr AckEvent Hgains) as Hg.
      intros Hin.
      destruct (BBR_STATE_eqb (BbrState Bbr) BBR_STATE_PROBE_RTT) eqn:Hstate.
      * apply BBR_STATE_eqb_eq in Hstate. left. split; [exact Hstate|].
        rewrite <- Hc. apply AckTransitions_stays_gain; [|exact Hin].
        rewrite Hs. exact Hstate.
      * assert (Hnot : BbrState Bbr <> BBR_STATE_PROBE_RTT)
          by (intros Heq; rewrite Heq in Hstate; discriminate).
        right. exists AckEvent, RandomValue.
        split; [reflexivity|]. split; [exact Himplicit|]. split; [exact Hnot|].
        apply (AckTransitions_entry_gain Connection _ AckEvent _ RandomValue Hg);
          [rewrite Hs; exact Hnot | exact Hin].
  - unfold BbrCongestionControlOnDataLost, BbrCongestionControlInRecovery. cbv zeta.
    case_tests; intros Hin; left; split; try exact Hin; reflexivity.
  - intros Hin. left. split; [exact Hin | reflexivity].
  - unfold BbrCongestionControlSetAppLimited. cbv zeta.
    case_tests; intros Hin; left; split; try exact Hin; reflexivity.
  - unfold BbrCongestionControlReset. destruct FullReset; cbn; intros Hin; discriminate.
Qed.

(** X9: the gains always belong to the phase.  After [Initialize] and any
    sequence of events, Startup runs with pacing and window gain [kHighGain],
    Drain with pacing gain [kDrainGain] and window gain [kHighGain], ProbeBW
    with a cycle index in [0, 8), the pacing gain of that table entry and
    window gain [kCwndGain], and ProbeRTT with pacing gain [GAIN_UNIT] and
    the window gain of the phase it was entered from: whatever event comes
    next, if the controller is in ProbeRTT after it, then either it was in
    ProbeRTT before and the window gain is kept, or the event is an explicit
    ack that entered ProbeRTT and the window gain is the one of the phase the
    ack had reached ([kCwndGain] for ProbeBW, [kHighGain] for Startup and
    Drain).  So the pacing gain always lies between [kDrainGain] and
    [kHighGain]. *)
Theorem Gains_follow_phase :
  forall (Capacity : Z) (Connection : QUIC_CONNECTION)
         (Settings : QUIC_SETTINGS_INTERNAL) (TimeUs : Z) (evs : list BBR_EVENT),
    let Bbr : BBR :=
      BbrRun Connection
        (BbrCongestionControlInitialize Capacity Connection Settings TimeUs) evs in
    PhaseGains Bbr
    /\ kDrainGain <= PacingGain Bbr <= kHighGain
    /\ (CwndGain Bbr = kHighGain \/ CwndGain Bbr = kCwndGain)
    /\ forall ev : BBR_EVENT,
         let Bbr' := BbrStep Connection Bbr ev in
         BbrState Bbr' = BBR_STATE_PROBE_RTT ->
         (BbrState Bbr = BBR_STATE_PROBE_RTT /\ CwndGain Bbr' = CwndGain Bbr)
         \/ (exists AckEvent RandomValue,
               ev = EvDataAcknowledged AckEvent RandomValue
               /\ Ack.IsImplicit AckEvent = false
               /\ BbrState Bbr <> BBR_STATE_PROBE_RTT
               /\ CwndGain Bbr'
                  = if BBR_STATE_eqb (PhaseBeforeProbeRtt Connection Bbr AckEvent)
                         BBR_STATE_PROBE_BW
                    then kCwndGain else kHighGain).
Proof.
  intros Capacity Connection Settings TimeUs evs Bbr.
  pose proof (BbrRun_gains Capacity Connection Settings TimeUs evs) as Hg.
  fold Bbr in Hg.
  destruct (PhaseGains_range Bbr Hg) as (Hrange & Hcwnd).
  split; [exact Hg|]. split; [exact Hrange|]. split; [exact Hcwnd|].
  intros ev Bbr'. apply BbrStep_probe_rtt_gain. exact Hg.
Qed.

End BbrProbeRttGain.

(** ** Admission to the bandwidth filter, along the loop *)

(** The ack event with another list of acked packets: the event as the loop
    of [BbrBandwidthFilterOnPacketAcked] sees it when the list ends there. *)
Definition AckWithPackets
  (AckEvent : Ack.QUIC_ACK_EVENT) (Packets : list Packet.QUIC_SENT_PACKET_METADATA)
  : Ack.QUIC_ACK_EVENT :=
  {| Ack.TimeNow := Ack.TimeNow AckEvent;
     Ack.LargestAck := Ack.LargestAck AckEvent;
     Ack.LargestSentPacketNumber := Ack.LargestSentPacketNumber AckEvent;
     Ack.AdjustedAckTime := Ack.AdjustedAckTime AckEvent;
     Ack.NumRetransmittableBytes := Ack.NumRetransmittableBytes AckEvent;
     Ack.NumTotalAckedRetransmittableBytes := Ack.NumTotalAckedRetransmittableBytes AckEvent;
     Ack.MinRttValid := Ack.MinRttValid AckEvent;
     Ack.MinRtt := Ack.MinRtt AckEvent;
     Ack.HasLoss := Ack.HasLoss AckEvent;
     Ack.IsImplicit := Ack.IsImplicit AckEvent;
     Ack.IsLargestAckedPacketAppLimited := Ack.IsLargestAckedPacketAppLimited AckEvent;
     Ack.AckedPackets := Packets |}.

Section BbrFilterLoop.

Context {W : Type} `{SlidingWindowExtremum W}.

(** The filter before the loop: line 147 has ended the app-limited period
    if the ack is beyond the exit target. *)
Definition FilterBeforeLoop
  (V : Type) (b : BBR_BANDWIDTH_FILTER V) (AckEvent : Ack.QUIC_ACK_EVENT)
  : BBR_BANDWIDTH_FILTER V :=
  if AppLimited b && (AppLimitedExitTarget b <? Ack.LargestAck AckEvent)
  then set_AppLimited false b else b.

Lemma BandwidthFilterOnPacketAcked_loop
  (V : Type) `{SlidingWindowExtremum V}
  (b : BBR_BANDWIDTH_FILTER V) (AckEvent : Ack.QUIC_ACK_EVENT) (RttCounter : Z)
  (Packets : list Packet.QUIC_SENT_PACKET_METADATA) :
  BbrBandwidthFilterOnPacketAcked b (AckWithPackets AckEvent Packets) RttCounter
  = fold_left
      (fun b AckedPacket => BbrBandwidthFilterOnOnePacket b AckEvent RttCounter AckedPacket)
      Packets (FilterBeforeLoop V b AckEvent).
Proof. reflexivity. Qed.

Lemma AckWithPackets_same (AckEvent : Ack.QUIC_ACK_EVENT) :
  AckWithPackets AckEvent (Ack.AckedPackets AckEvent) = AckEvent.
Proof. destruct AckEvent; reflexivity. Qed.

Lemma FilterBeforeLoop_once
  (V : Type) `{SlidingWindowExtremum V}
  (b : BBR_BANDWIDTH_FILTER V) (AckEvent : Ack.QUIC_ACK_EVENT) (RttCounter : Z)
  (Packets : list Packet.QUIC_SENT_PACKET_METADATA) :
  let Reached :=
    fold_left
      (fun b AckedPacket => BbrBandwidthFilterOnOnePacket b AckEvent RttCounter AckedPacket)
      Packets (FilterBeforeLoop V b AckEvent) in
  FilterBeforeLoop V Reached AckEvent = Reached.
Proof.
  cbv zeta.
  destruct (BandwidthFilterOnPackets_flags
              (W := V) AckEvent RttCounter Packets (FilterBeforeLoop V b AckEvent))
    as (Hlimited & Htarget).
  cbv zeta in Hlimited, Htarget.
  unfold FilterBeforeLoop at 1. rewrite Hlimited, Htarget.
  unfold FilterBeforeLoop.
  destruct (AppLimited b) eqn:Hb;
    destruct (AppLimitedExitTarget b <? Ack.LargestAck AckEvent) eqn:Hbeyond;
    cbn; rewrite ?Hb, ?Hbeyond; reflexivity.
Qed.

Lemma FilterLoop_keeps_insertions
  (AckEvent : Ack.QUIC_ACK_EVENT) (RttCounter : Z)
  (Packets : list Packet.QUIC_SENT_PACKET_METADATA) :
  forall b : BBR_BANDWIDTH_FILTER (Recorded W),
    exists Later,
      Inserted
        (WindowedMaxFilter
           (fold_left
              (fun b AckedPacket =>
                 BbrBandwidthFilterOnOnePacket b AckEvent RttCounter AckedPacket)
              Packets b))
      = Inserted (WindowedMaxFilter b) ++ Later.
Proof.
  induction Packets as [|pkt rest IH]; intros b; cbn [fold_left].
  - exists []. rewrite app_nil_r. reflexivity.
  - destruct (IH (BbrBandwidthFilterOnOnePacket b AckEvent RttCounter pkt))
      as (Later & ->).
    unfold BbrBandwidthFilterOnOnePacket.
    destruct (PacketDeliveryRate AckEvent pkt) as [rate|]; [|exists Later; reflexivity].
    cbv zeta. destruct (_ || _); [|exists Later; reflexivity].
    exists ((rate, RttCounter) :: Later). cbn. rewrite <- app_assoc. reflexivity.
Qed.

(** C7: admission, for every acked packet the loop of
    [BbrBandwidthFilterOnPacketAcked] processes.  Let the ack event's list
    of acked packets be [Before ++ AckedPacket :: After], the packet of
    non-zero length and with a delivery rate.  [Reached] is the filter when
    the loop reaches the packet (the call on the list cut before it),
    [Passed] the filter when the loop has passed it, [Done] the result of
    the call.  The sample [(DeliveryRate, RttCounter)] is inserted into the
    windowed-max filter at that iteration if and only if [DeliveryRate] is
    at least the maximum of [Reached] (0 for an empty filter) or the packet
    is not app-limited; an app-limited sample strictly below that maximum
    leaves the filter as it was.  The call itself is the loop continued
    from [Passed] over [After], and it keeps what was inserted.  The filter
    records its insertions, so "inserted" is observable. *)
Theorem C7_bandwidth_sample_admission :
  forall (b : BBR_BANDWIDTH_FILTER (Recorded W)) (AckEvent : Ack.QUIC_ACK_EVENT)
         (RttCounter : Z) (Before : list Packet.QUIC_SENT_PACKET_METADATA)
         (AckedPacket : Packet.QUIC_SENT_PACKET_METADATA)
         (After : list Packet.QUIC_SENT_PACKET_METADATA) (DeliveryRate : Z),
    Ack.AckedPackets AckEvent = Before ++ AckedPacket :: After ->
    Packet.PacketLength AckedPacket <> 0 ->
    PacketDeliveryRate AckEvent AckedPacket = Some DeliveryRate ->
    let Reached :=
      BbrBandwidthFilterOnPacketAcked b (AckWithPackets AckEvent Before) RttCounter in
    let Passed :=
      BbrBandwidthFilterOnPacketAcked
        b (AckWithPackets AckEvent (Before ++ [AckedPacket])) RttCounter in
    let Done := BbrBandwidthFilterOnPacketAcked b AckEvent RttCounter in
    let CurrentMax :=
      match QuicSlidingWindowExtremumGet (WindowedMaxFilter Reached) with
      | Some Entry => Value Entry
      | None => 0
      end in
    (Inserted (WindowedMaxFilter Passed)
     = Inserted (WindowedMaxFilter Reached) ++ [(DeliveryRate, RttCounter)]
     <-> DeliveryRate >= CurrentMax \/ Packet.IsAppLimited AckedPacket = false)
    /\ (DeliveryRate >= CurrentMax \/ Packet.IsAppLimited AckedPacket = false ->
        WindowedMaxFilter Passed
        = QuicSlidingWindowExtremumUpdateMax
            (WindowedMaxFilter Reached) DeliveryRate RttCounter)
    /\ (DeliveryRate < CurrentMax -> Packet.IsAppLimited AckedPacket = true ->
        Passed = Reached)
    /\ Done
       = BbrBandwidthFilterOnPacketAcked Passed (AckWithPackets AckEvent After) RttCounter
    /\ exists Later,
         Inserted (WindowedMaxFilter Done)
         = Inserted (WindowedMaxFilter Passed) ++ Later.
Proof.
  intros b AckEvent RttCounter Before AckedPacket After DeliveryRate
    Hlist Hlength Hrate Reached Passed Done CurrentMax.
  assert (HPassed : Passed
                    = BbrBandwidthFilterOnOnePacket Reached AckEvent RttCounter AckedPacket).
  { subst Passed Reached. rewrite !BandwidthFilterOnPacketAcked_loop.
    rewrite fold_left_app. reflexivity. }
  assert (HDone : Done
                  = fold_left
                      (fun b AckedPacket =>
                         BbrBandwidthFilterOnOnePacket b AckEvent RttCounter AckedPacket)
                      After Passed).
  { subst Done. rewrite <- (AckWithPackets_same AckEvent) at 1.
    rewrite BandwidthFilterOnPacketAcked_loop, Hlist.
    replace (Before ++ AckedPacket :: After) with ((Before ++ [AckedPacket]) ++ After)
      by (rewrite <- app_assoc; reflexivity).
    rewrite fold_left_app. subst Passed.
    rewrite BandwidthFilterOnPacketAcked_loop. reflexivity. }
  pose proof (BandwidthFilterOnOnePacket_admission
                Reached AckEvent RttCounter AckedPacket DeliveryRate Hlength Hrate)
    as Hone.
  cbv zeta in Hone. fold CurrentMax in Hone. rewrite <- HPassed in Hone.
  destruct Hone as (Hiff & Hin & Hout).
  split; [exact Hiff|]. split; [exact Hin|]. split; [exact Hout|]. split.
  - rewrite HDone, BandwidthFilterOnPacketAcked_loop. f_equal.
    subst Passed. rewrite BandwidthFilterOnPacketAcked_loop.
    symmetry. apply (FilterBeforeLoop_once (Recorded W)).
  - rewrite HDone. apply FilterLoop_keeps_insertions.
Qed.

End BbrFilterLoop.

(** ** The high-water mark of the bytes in flight *)

Section BbrHighWaterMark.

Context {W : Type} `{SlidingWindowExtremum W}.

Local Notation "'BBR'" := (QUIC_CONGESTION_CONTROL_BBR W).

Lemma AckTrackRecentDeliveryRate_in_flight_max
  (AckEvent : Ack.QUIC_ACK_EVENT) (pkts : list Packet.QUIC_SENT_PACKET_METADATA) :
  forall Bbr : BBR,
    BytesInFlightMax (AckTrackRecentDeliveryRate Bbr AckEvent pkts) = BytesInFlightMax Bbr.
Proof.
  induction pkts as [|pkt rest IH]; intros Bbr; simpl; [reflexivity|].
  repeat match goal with
         | |- context [if ?c then _ else _] => destruct c
         end;
    try (rewrite IH; reflexivity); reflexivity.
Qed.

Lemma AckTransitions_in_flight_max
  (Connection : QUIC_CONNECTION) (Bbr : BBR) (AckEvent : Ack.QUIC_ACK_EVENT)
  (n : bool) (r : Z) :
  BytesInFlightMax (AckTransitions Connection Bbr AckEvent n r) = BytesInFlightMax Bbr.
Proof.
  assert (Hprobe : forall (b : BBR) n l t r,
             BytesInFlightMax (BbrCongestionControlHandleAckInProbeRtt Connection b n l t r)
             = BytesInFlightMax b)
    by (intros; unfold BbrCongestionControlHandleAckInProbeRtt; cbv zeta;
        case_tests; reflexivity).
  unfold AckTransitions. cbv zeta.
  repeat match goal with
         | |- BytesInFlightMax (if ?c then _ else _) = _ => destruct c
         | |- BytesInFlightMax (BbrCongestionControlHandleAckInProbeRtt _ _ _ _ _ _) = _ =>
             rewrite Hprobe
         | |- BytesInFlightMax (set_ExitingQuiescence _ ?b) = _ =>
             change (BytesInFlightMax b = BytesInFlightMax Bbr)
         | |- BytesInFlightMax (BbrCongestionControlTransitToProbeRtt ?b _) = _ =>
             change (BytesInFlightMax b = BytesInFlightMax Bbr)
         | |- BytesInFlightMax (BbrCongestionControlTransitToProbeBw ?b _ _) = _ =>
             change (BytesInFlightMax b = BytesInFlightMax Bbr)
         | |- BytesInFlightMax (BbrCongestionControlTransitToDrain ?b) = _ =>
             change (BytesInFlightMax b = BytesInFlightMax Bbr)
         end; reflexivity.
Qed.

Lemma OnDataAcknowledged_in_flight_max
  (Connection : QUIC_CONNECTION) (Bbr : BBR) (AckEvent : Ack.QUIC_ACK_EVENT) (r : Z) :
  BytesInFlightMax (fst (BbrCongestionControlOnDataAcknowledged Connection Bbr AckEvent r))
  = BytesInFlightMax Bbr.
Proof.
  assert (Hcwnd : forall (b : BBR) t a,
             BytesInFlightMax (BbrCongestionControlUpdateCongestionWindow Connection b t a)
             = BytesInFlightMax b)
    by (intros b t a; rewrite (UpdateCongestionWindow_assigns Connection b t a);
        reflexivity).
  destruct (Ack.IsImplicit AckEvent) eqn:Himplicit.
  - unfold BbrCongestionControlOnDataAcknowledged. rewrite Himplicit. cbn [fst].
    apply Hcwnd.
  - rewrite (OnDataAcknowledged_stages Connection Bbr AckEvent r Himplicit).
    rewrite Hcwnd, AckTransitions_in_flight_max.
    unfold AckBeforeTransitions.
    assert (Hexit : forall (b : BBR) n a,
               BytesInFlightMax (AckCheckStartupExit b n a) = BytesInFlightMax b)
      by (intros; unfold AckCheckStartupExit; cbv zeta; case_tests; reflexivity).
    assert (Hcycle : forall (b : BBR) p,
               BytesInFlightMax (AckAdvancePacingGainCycle b AckEvent p)
               = BytesInFlightMax b).
    { intros. unfold AckAdvancePacingGainCycle.
      destruct (BBR_STATE_eqb (BbrState b) BBR_STATE_PROBE_BW); [|reflexivity].
      cbv zeta.
      match goal with
      | |- BytesInFlightMax (if ?c then _ else _) = _ => destruct c
      end; reflexivity. }
    assert (Hagg : forall b : BBR,
               BytesInFlightMax (fst (BbrCongestionControlUpdateAckAggregation b AckEvent))
               = BytesInFlightMax b)
      by (intros; unfold BbrCongestionControlUpdateAckAggregation; cbv zeta;
          case_tests; reflexivity).
    assert (Hrec : forall (b : BBR) n,
               BytesInFlightMax (AckUpdateRecovery Connection b AckEvent n)
               = BytesInFlightMax b)
      by (intros; unfold AckUpdateRecovery, BbrCongestionControlUpdateRecoveryWindow;
          cbv zeta; case_tests; reflexivity).
    assert (Hround : forall b : BBR,
               BytesInFlightMax (fst (AckUpdateRoundTrip b AckEvent)) = BytesInFlightMax b)
      by (intros; unfold AckUpdateRoundTrip; case_tests; reflexivity).
    assert (Hrtt : forall b : BBR,
               BytesInFlightMax (AckUpdateMinRtt b AckEvent) = BytesInFlightMax b)
      by (intros; unfold AckUpdateMinRtt; cbv zeta; case_tests; reflexivity).
    rewrite Hexit, Hcycle, Hagg, Hrec.
    unfold AckBeforeRecovery. cbv zeta.
    rewrite AckTrackRecentDeliveryRate_in_flight_max.
    change (BytesInFlightMax (set_BandwidthFilter ?f ?b)) with (BytesInFlightMax b).
    unfold AckRoundState. rewrite Hround, Hrtt. reflexivity.
Qed.

(** A reset that zeroes the bytes in flight. *)
Definition ResetsAreFull (ev : BBR_EVENT) : Prop :=
  match ev with
  | EvReset FullReset _ _ => FullReset = true
  | _ => True
  end.

Definition HighWaterMark (Bbr : BBR) : Prop :=
  0 <= BytesInFlight Bbr <= BytesInFlightMax Bbr /\ BytesInFlight Bbr <= UINT32_MAX.

Lemma BbrStep_high_water_mark
  (Connection : QUIC_CONNECTION) (Bbr : BBR) (ev : BBR_EVENT) :
  EventRespects Bbr ev -> ResetsAreFull ev ->
  HighWaterMark Bbr -> HighWaterMark (BbrStep Connection Bbr ev).
Proof.
  unfold HighWaterMark, UINT32_MAX. intros Hev Hfull (Hmark & Hfit).
  pose proof (BbrStep_bytes_in_flight Connection Bbr ev) as Hbytes.
  destruct ev; cbn [EventRespects ResetsAreFull] in Hev, Hfull;
    rewrite Hbytes; clear Hbytes; unfold BbrStep.
  - cbn. lia.
  - pose proof (u32_range (BytesInFlight Bbr + NumRetransmittableBytes)) as Hrange.
    unfold UINT32_MAX in Hrange.
    unfold BbrCongestionControlOnDataSent. cbv zeta.
    destruct ((BytesInFlight Bbr =? 0) && BbrCongestionControlIsAppLimited Bbr);
      cbn [BytesInFlight BytesInFlightMax set_BytesInFlight set_ExitingQuiescence];
      match goal with
      | |- context [if ?a <? ?b then _ else _] => destruct (Z.ltb_spec a b)
      end;
      case_tests; cbn; lia.
  - cbn [fst BbrCongestionControlOnDataInvalidated BytesInFlightMax set_BytesInFlight].
    rewrite u32_small by (unfold is_u32, UINT32_MAX; lia). lia.
  - rewrite OnDataAcknowledged_in_flight_max.
    destruct (Ack.IsImplicit AckEvent); [lia|].
    destruct Hev as [Hev | Hev]; [discriminate|].
    rewrite u32_small by (unfold is_u32, UINT32_MAX; lia). lia.
  - assert (Hmax : BytesInFlightMax (BbrCongestionControlOnDataLost Connection Bbr LossEvent)
                   = BytesInFlightMax Bbr)
      by (unfold BbrCongestionControlOnDataLost; cbv zeta;
          destruct (negb (BbrCongestionControlInRecovery _)); case_tests; reflexivity).
    rewrite Hmax. rewrite u32_small by (unfold is_u32, UINT32_MAX; lia). lia.
  - lia.
  - assert (Hmax : BytesInFlightMax
                     (BbrCongestionControlSetAppLimited
                        {| DatagramPayloadSize := DatagramPayloadSize Connection;
                           PacingEnabled := PacingEnabled Connection;
                           NetStatsEventEnabled := NetStatsEventEnabled Connection;
                           LargestSentPacketNumber := LargestSent |} Bbr)
                   = BytesInFlightMax Bbr)
      by (unfold BbrCongestionControlSetAppLimited; cbv zeta; case_tests; reflexivity).
    rewrite Hmax. lia.
  - subst FullReset. unfold BbrCongestionControlReset. cbn.
    pose proof (u32_range
                  (InitialCongestionWindowPackets Bbr * DatagramPayloadSize Connection))
      as Hrange.
    unfold UINT32_MAX in Hrange.
    pose proof (Z.div_pos
                  (u32 (InitialCongestionWindowPackets Bbr * DatagramPayloadSize Connection))
                  2 ltac:(lia) ltac:(lia)).
    lia.
Qed.

(** X26: [BytesInFlightMax] is a high-water mark.  After [Initialize] and
    any sequence of events that respects the asserted byte-count
    preconditions and whose resets are full ones, the bytes in flight never
    exceed what [GetBytesInFlightMax] returns.  (A partial reset keeps the
    bytes in flight and sets the mark to half the initial window.) *)
Theorem BytesInFlightMax_is_high_water_mark :
  forall (Capacity : Z) (Connection : QUIC_CONNECTION)
         (Settings : QUIC_SETTINGS_INTERNAL) (TimeUs : Z) (evs : list BBR_EVENT),
    RunRespects Connection
      (BbrCongestionControlInitialize (W := W) Capacity Connection Settings TimeUs) evs ->
    Forall ResetsAreFull evs ->
    let Bbr : BBR :=
      BbrRun Connection
        (BbrCongestionControlInitialize Capacity Connection Settings TimeUs) evs in
    0 <= BytesInFlight Bbr <= BbrCongestionControlGetBytesInFlightMax Bbr.
Proof.
  intros Capacity Connection Settings TimeUs evs Hrun Hfull Bbr. subst Bbr.
  unfold BbrCongestionControlGetBytesInFlightMax.
  assert (Hinit : HighWaterMark
                    (BbrCongestionControlInitialize
                       (W := W) Capacity Connection Settings TimeUs)).
  { unfold HighWaterMark, UINT32_MAX. cbn.
    pose proof (u32_range (InitialWindowPackets Settings * DatagramPayloadSize Connection))
      as Hrange.
    unfold UINT32_MAX in Hrange.
    pose proof (Z.div_pos
                  (u32 (InitialWindowPackets Settings * DatagramPayloadSize Connection))
                  2 ltac:(lia) ltac:(lia)).
    lia. }
  revert Hrun Hinit.
  generalize (BbrCongestionControlInitialize
                (W := W) Capacity Connection Settings TimeUs).
  unfold BbrRun.
  induction Hfull as [|ev rest Hev Hrest IH]; intros b Hrun Hb.
  - apply Hb.
  - cbn [RunRespects] in Hrun. destruct Hrun as (Hrespects & Hrun).
    cbn [fold_left]. apply IH; [exact Hrun|].
    apply BbrStep_high_water_mark; assumption.
Qed.

End BbrHighWaterMark.


(** ** The further properties at concrete inputs *)

(** A send of 50000 bytes, the loss of 10000 of them, and the
    acknowledgement of the first packet. *)
Definition SendLossAck : list BBR_EVENT :=
  [ EvDataSent 50000;
    EvDataLost LossOf10000;
    EvDataAcknowledged (FirstAck 1200 true false) 0 ].

(** In recovery: 50000 bytes sent, 10000 of them lost. *)
Definition BbrInRecovery : QUIC_CONGESTION_CONTROL_BBR SlidingWindowMax :=
  BbrRun Connection0 Bbr0 [EvDataSent 50000; EvDataLost LossOf10000].

(** What the logger reads: the controller after the fast acknowledgement,
    an RTT sample taken, one packet in ten suspected lost. *)
Definition Cc0 : QUIC_CONGESTION_CONTROL SlidingWindowMax :=
  {| Bbr := BbrFastPath;
     Connection := Connection0;
     Path0 := {| Path.GotFirstRttSample := true;
                 Path.SmoothedRtt := 1000;
                 Path.LatestRttSample := 1000 |};
     Send := {| SendStats.TotalPackets := 10;
                SendStats.SuspectedLostPackets := 1 |} |}.

Definition UnusedLogger : Logger.BBR_PACKET_LOGGER :=
  {| Logger.Enabled := false;
     Logger.MaxEntries := 0;
     Logger.CurrentIndex := 0;
     Logger.TotalEntries := 0;
     Logger.Entries := None |}.

Definition ThreeCalls : list (LOG_CALL (W := SlidingWindowMax)) :=
  [ LogPacketSent Cc0 1 1200 0;
    LogPacketAcknowledged Cc0 1 1200 1000;
    LogPacketLost Cc0 2 1200 2000 ].

Definition LogEveryCall : LOG_GLOBALS :=
  BbrPacketLevelLoggingSetSamplingRate InitialLogGlobals 1.

Definition LogEverySecondCall : LOG_GLOBALS :=
  BbrPacketLevelLoggingSetSamplingRate InitialLogGlobals 2.

(** X2 at a concrete input: 38800 bytes are in flight after [SendLossAck]. *)
Lemma BytesInFlight_at_most_sent_witness :
  0 <= BytesInFlight (BbrRun Connection0 Bbr0 SendLossAck)
    <= BytesInFlight Bbr0 + BytesSent SendLossAck.
Proof.
  apply (BytesInFlight_at_most_sent Connection0 SendLossAck Bbr0).
  - vm_compute. discriminate.
  - unfold SendLossAck. cbn [RunRespects EventRespects].
    repeat split; try (vm_compute; discriminate).
    right. vm_compute. split; discriminate.
Defined.

(** X3 at a concrete input: with 50000 bytes in flight, 1200 more are sent
    and invalidated. *)
Lemma Send_then_invalidate_witness :
  1200 <= BytesInFlight (BbrCongestionControlOnDataSent BbrInFlight 1200)
  /\ BytesInFlight
       (fst (BbrCongestionControlOnDataInvalidated Connection0
               (BbrCongestionControlOnDataSent BbrInFlight 1200) 1200))
     = BytesInFlight BbrInFlight.
Proof.
  apply (Send_then_invalidate_restores_bytes_in_flight Connection0 BbrInFlight 1200).
  - vm_compute. discriminate.
  - lia.
  - vm_compute. discriminate.
Defined.

(** X4 at a concrete input: two exemptions, three sends. *)
Lemma Exemptions_after_sends_witness :
  Exemptions
    (BbrRun Connection0 (BbrCongestionControlSetExemption Bbr0 2)
       (repeat (EvDataSent 1200) 3))
  = 0.
Proof.
  apply (Exemptions_after_sends Connection0 3 Bbr0 2 1200).
  vm_compute. split; discriminate.
Defined.

(** X6 at a concrete input: in Conservative recovery, an ack of a packet
    sent before the loss that starts no new round keeps the state. *)
Lemma Ack_recovery_transitions_witness :
  RecoveryState
    (fst (BbrCongestionControlOnDataAcknowledged
            Connection0 BbrInRecovery (FirstAck 1200 true false) 0))
  = RECOVERY_STATE_CONSERVATIVE.
Proof.
  destruct (Ack_recovery_transitions
              Connection0 BbrInRecovery (FirstAck 1200 true false) 0 eq_refl)
    as (_ & _ & Hstay).
  apply Hstay.
  - vm_compute. discriminate.
  - right. vm_compute. discriminate.
Defined.

(** X8 at a concrete input: a second loss of 10000 bytes deflates the
    recovery window from 30000 to 20000. *)
Lemma Loss_in_recovery_witness :
  RecoveryWindow (BbrCongestionControlOnDataLost Connection0 BbrInRecovery LossOf10000)
  = Z.max (RecoveryWindow BbrInRecovery - 10000) (MinCongestionWindow Connection0).
Proof.
  apply (Loss_in_recovery_deflates_window Connection0 BbrInRecovery LossOf10000).
  - vm_compute. discriminate.
  - reflexivity.
  - vm_compute. split; discriminate.
  - vm_compute. discriminate.
  - vm_compute. discriminate.
Defined.

(** X11 at a concrete input: after a send and a loss. *)
Lemma In_recovery_witness :
  EndOfRecoveryValid
    (BbrRun Connection0
       (BbrCongestionControlInitialize (W := SlidingWindowMax) 3 Connection0 Settings10 0)
       [EvDataSent 50000; EvDataLost LossOf10000])
  = true.
Proof.
  apply (In_recovery_end_of_recovery_is_valid
           3 Connection0 Settings10 0 [EvDataSent 50000; EvDataLost LossOf10000]).
  vm_compute. discriminate.
Defined.

(** X12 at a concrete input: the first RTT sample. *)
Lemma Ack_min_rtt_witness :
  MinRtt
    (fst (BbrCongestionControlOnDataAcknowledged
            Connection0 BbrFirstSend (FirstAck 1200 true false) 0))
  <= 1000.
Proof.
  destruct (Ack_min_rtt_is_running_minimum_until_expiry
              Connection0 BbrFirstSend (FirstAck 1200 true false) 0 eq_refl)
    as (_ & _ & _ & Hupper).
  apply Hupper. reflexivity.
Defined.

(** X13 at a concrete input: the controller that entered ProbeRTT on its
    first ack, at time 1000, leaves it for Startup on an ack that starts a
    round at time 300000. *)
Lemma ProbeRtt_exit_witness :
  BbrState
    (BbrCongestionControlHandleAckInProbeRtt
       Connection0 BbrAckedWithoutRtt true 2 300000 0)
  = BBR_STATE_STARTUP.
Proof.
  destruct (ProbeRtt_is_left_when_timer_and_round_are_done
              Connection0 BbrAckedWithoutRtt true 2 300000 0) as (Hstate & _).
  - reflexivity.
  - rewrite Hstate. reflexivity.
Defined.

(** X14 at a concrete input: the first ack of 1200 bytes. *)
Lemma Ack_grows_window_witness :
  CongestionWindow
    (fst (BbrCongestionControlOnDataAcknowledged
            Connection0 BbrFirstSend (FirstAck 1200 true false) 0))
  <= Z.max (CongestionWindow BbrFirstSend + 1200) (MinCongestionWindow Connection0).
Proof.
  destruct (Ack_grows_window_by_at_most_acked_bytes
              Connection0 BbrFirstSend (FirstAck 1200 true false) 0) as (Hgrow & _).
  - vm_compute. discriminate.
  - vm_compute. discriminate.
  - vm_compute. discriminate.
  - exact Hgrow.
Defined.

(** X18 at a concrete input: state 0, covariance 1, a measurement of 2. *)
Lemma Kalman_covariance_floor_witness :
  PrimFloat.ltb
    (Covariance
       (QuicKalmanFilterUpdate
          (QuicKalmanFilterInitialize 0%float 1%float 0.5%float 1%float) 2%float))
    kMinCovariance
  = false.
Proof.
  apply (Kalman_update_covariance_not_below_floor
           (QuicKalmanFilterInitialize 0%float 1%float 0.5%float 1%float) 2%float).
  reflexivity.
Defined.

(** X19 at a concrete input: three calls into a ring of two entries. *)
Lemma Logger_prints_newest_witness :
  BbrPacketLevelLoggingPrintAll
    (snd (LogRun
            (LogEveryCall, snd (BbrPacketLevelLoggingInitialize (Some UnusedLogger) 2 true))
            ThreeCalls))
  = Some (skipn (3 - Z.to_nat 2)%nat (map LogEntryOf ThreeCalls)).
Proof.
  apply (Logger_prints_newest_entries_oldest_first UnusedLogger 2 LogEveryCall ThreeCalls).
  - vm_compute. split; discriminate.
  - reflexivity.
Defined.

(** X20 at a concrete input: of three calls every second one is stored. *)
Lemma Logger_stores_every_rth_call_witness :
  BbrPacketLevelLoggingGetStats
    (snd (LogRun
            (LogEverySecondCall,
             snd (BbrPacketLevelLoggingInitialize (Some UnusedLogger) 2 true))
            ThreeCalls))
  = Some (1, 1).
Proof.
  destruct (Logger_stores_every_rth_call UnusedLogger 2 LogEverySecondCall ThreeCalls)
    as (_ & Hstats).
  - vm_compute. split; discriminate.
  - reflexivity.
  - vm_compute. discriminate.
  - vm_compute. discriminate.
  - rewrite Hstats. reflexivity.
Defined.

(** X21 at a concrete input: three calls, then [Clear]. *)
Lemma Logger_clear_witness :
  BbrPacketLevelLoggingClear
    (snd (LogRun
            (LogEveryCall, snd (BbrPacketLevelLoggingInitialize (Some UnusedLogger) 2 true))
            ThreeCalls))
  = snd (BbrPacketLevelLoggingInitialize (Some UnusedLogger) 2 true).
Proof.
  apply (Logger_clear_restores_initial_state UnusedLogger 2 LogEveryCall ThreeCalls).
  - vm_compute. split; discriminate.
  - reflexivity.
Defined.

(** X23 at a concrete input: one packet in ten lost is 1000 basis points. *)
Lemma Logged_loss_rate_witness :
  Log.LossRate (ExtractBbrStateInfo Cc0 ZeroEntry) = 1000.
Proof.
  destruct (Logged_loss_rate_is_in_basis_points Cc0 ZeroEntry) as (_ & Hrate & _).
  - vm_compute. split; discriminate.
  - vm_compute. discriminate.
  - rewrite Hrate. reflexivity.
Defined.

(** X25 at a concrete input: the first ack of a connection, carrying no RTT
    sample, finds the expired flag of [Initialize] still set and enters
    ProbeRTT. *)
Lemma Ack_enters_probe_rtt_witness :
  BbrState
    (fst (BbrCongestionControlOnDataAcknowledged
            Connection0 BbrFirstSend (FirstAck 1200 false false) 0))
  = BBR_STATE_PROBE_RTT.
Proof.
  destruct (Ack_enters_probe_rtt_when_min_rtt_expired
              Connection0 BbrFirstSend (FirstAck 1200 false false) 0 eq_refl)
    as (_ & Henter).
  apply Henter.
  - vm_compute. discriminate.
  - split; reflexivity.
Defined.

(** X26 at a concrete input: along [SendLossAck], which ends with 38800
    bytes in flight and a mark of 50000. *)
Lemma BytesInFlightMax_witness :
  0 <= BytesInFlight
         (BbrRun Connection0
            (BbrCongestionControlInitialize (W := SlidingWindowMax) 3
               Connection0 Settings10 0)
            SendLossAck)
    <= BbrCongestionControlGetBytesInFlightMax
         (BbrRun Connection0
            (BbrCongestionControlInitialize (W := SlidingWindowMax) 3
               Connection0 Settings10 0)
            SendLossAck).
Proof.
  apply (BytesInFlightMax_is_high_water_mark 3 Connection0 Settings10 0 SendLossAck).
  - unfold SendLossAck. cbn [RunRespects EventRespects].
    repeat split; try (vm_compute; discriminate).
    right. vm_compute. split; discriminate.
  - unfold SendLossAck. repeat (apply Forall_cons || apply Forall_nil); exact I.
Defined.

(** A second packet, sent at time 500 and not app-limited, and the ack of
    both packets. *)
Definition SecondPacket : Packet.QUIC_SENT_PACKET_METADATA :=
  {| Packet.PacketNumber := 2;
     Packet.PacketLength := 1200;
     Packet.SentTime := 500;
     Packet.TotalBytesSent := 2400;
     Packet.HasLastAckedPacketInfo := false;
     Packet.LastAckedPacketInfo := NoLastAcked;
     Packet.IsAppLimited := false |}.

Definition AckOfTwo : Ack.QUIC_ACK_EVENT :=
  AckWithPackets (FirstAck 1200 true false) [FirstPacket; SecondPacket].

(** C7 at a concrete input: the second packet of an ack, with a delivery
    rate of 19200000 below the filter's maximum of 20000000 and not
    app-limited, is inserted when the loop reaches it. *)
Lemma C7_witness :
  Inserted
    (WindowedMaxFilter
       (BbrBandwidthFilterOnPacketAcked RecordingFilter
          (AckWithPackets AckOfTwo ([FirstPacket] ++ [SecondPacket])) 2))
  = Inserted
      (WindowedMaxFilter
         (BbrBandwidthFilterOnPacketAcked RecordingFilter
            (AckWithPackets AckOfTwo [FirstPacket]) 2))
    ++ [(19200000, 2)].
Proof.
  destruct (C7_bandwidth_sample_admission
              RecordingFilter AckOfTwo 2 [FirstPacket] SecondPacket [] 19200000)
    as (Hadmitted & _).
  - reflexivity.
  - discriminate.
  - reflexivity.
  - apply Hadmitted. right. reflexivity.
Defined.
